(** * my_math.h: a shallow embedding of the 3D-Cube linear-algebra kernel

    The header [src/cube/my_math.h] defines scalar helpers, [Vec2], [Vec3],
    [Vec4] and the column-major [Mat4] over [f32].  Every function below is
    transcribed once, over an abstract scalar interface ([Scalar], [Libm]),
    and then read at two instances:

    - [binary32] : IEEE-754 single precision, bit-exact, built from the
      standard library's [SpecFloat] operations at [prec = 24], [emax = 128].
      This is what the compiled code computes: [+ - * / sqrt] are correctly
      rounded SSE instructions, each operation of the source rounding once
      (no contraction of a multiplication and an addition into one fused
      operation).
    - [R] : exact real arithmetic, the reading under which the algebraic
      identities of the kernel (inverse, determinant, normalisation) are
      stated without rounding.

    [sin], [cos] and [tan] come from the C library; they are an interface
    ([Libm]) with an instance over [R] only. *)

From Stdlib Require Import ZArith Bool Lia.
From Stdlib Require Import Reals Lra RNsatz.
From Stdlib Require Import Floats.SpecFloat.


(** ** The scalar interface: what the header asks of [f32] *)

Class Scalar (F : Type) : Type := {
  of_Z    : Z -> F;            (* integer-valued literals, and the cast (f32)n *)
  to_s32  : F -> Z;            (* the cast (s32)x *)
  fadd    : F -> F -> F;
  fsub    : F -> F -> F;
  fmul    : F -> F -> F;
  fdiv    : F -> F -> F;
  fneg    : F -> F;
  fabsf   : F -> F;
  sqrt    : F -> F;            (* lib::sqrt, _mm_sqrt_ss *)
  feqb    : F -> F -> bool;    (* == *)
  fltb    : F -> F -> bool;    (* <  *)
  PI32    : F
}.

Class Libm (F : Type) : Type := {
  sin : F -> F;
  cos : F -> F;
  tan : F -> F
}.

(** The comparison [a <= b], used by [refract]. *)
Class ScalarLe (F : Type) : Type := {
  fleb : F -> F -> bool
}.

(** Lane-wise xor of the bit patterns of two data (xorps). *)
Class Bitwise (F : Type) : Type := {
  xor_bits : F -> F -> F
}.

(** The numbers the templates of the header range over ([be_number]):
    what [clamp], [min] and [max] ask of them is the comparison [<]. *)
Class be_number (T : Type) : Type := {
  number_ltb : T -> T -> bool
}.

#[global] Instance be_number_scalar {F : Type} {S : Scalar F} : be_number F := {
  number_ltb := fltb
}.

#[global] Instance be_number_integer : be_number Z := {
  number_ltb := Z.ltb
}.

Declare Scope f32_scope.
Delimit Scope f32_scope with f32.
Infix "+" := fadd : f32_scope.
Infix "-" := fsub : f32_scope.
Infix "*" := fmul : f32_scope.
Infix "/" := fdiv : f32_scope.
Notation "- x" := (fneg x) : f32_scope.
Notation "a != b" := (negb (feqb a b)) (at level 70, no associativity) : f32_scope.
Notation "a <? b" := (fltb a b) : f32_scope.
Notation "a <=? b" := (fleb a b) : f32_scope.
Notation "0" := (of_Z 0%Z) : f32_scope.
Notation "1" := (of_Z 1%Z) : f32_scope.
Notation "2" := (of_Z 2%Z) : f32_scope.

(** ** Scalar utilities *)

Section ScalarUtils.
Context {F : Type} `{Scalar F}.
Local Open Scope f32_scope.

(** [(f32)((s32)x)]: truncate to a 32-bit integer and convert back. *)
Definition f32_of_s32_of (x : F) : F := of_Z (to_s32 x).

Definition mod_pi (angle : F) : F :=
  let pi32_2 := 2 * PI32 in
  let angle := angle + PI32 in
  let f_t := fabsf angle in
  let f_t := f_t - (pi32_2 * f32_of_s32_of (f_t / pi32_2)) in
  let f_t := f_t - PI32 in
  if angle <? 0 then - f_t else f_t.
End ScalarUtils.

(** ** The result of a call that may hit [__debugbreak] *)

Inductive outcome (A : Type) : Type :=
| Returns : A -> outcome A
| Trap : outcome A           (* the breakpoint exception raised by __debugbreak *)
| Undefined : outcome A.     (* control flowed off the end of a function that
                                returns a value: no value is returned *)
Arguments Returns {A} _.
Arguments Trap {A}.
Arguments Undefined {A}.

(** Sequencing: what follows a statement runs only if the statement
    returns. *)
Definition bind {A B : Type} (m : outcome A) (k : A -> outcome B) : outcome B :=
  match m with
  | Returns a => k a
  | Trap => Trap
  | Undefined => Undefined
  end.

(** [__debugbreak] is an intrinsic of the compiler, not a function of the
    header: it raises the breakpoint exception. *)
Definition __debugbreak : outcome unit := Trap.

(** ** Vec2 *)

Module Vec2.
Record Vec2 (F : Type) : Type := mk { x : F; y : F }.
Arguments mk {F} _ _.
Arguments x {F} _.
Arguments y {F} _.

Section Ops.
Context {F : Type} `{Scalar F}.
Local Open Scope f32_scope.

Definition zero : Vec2 F := mk 0 0.            (* Vec2 out{} *)

Definition length_vec (a : Vec2 F) : F :=
  sqrt ((x a * x a) + (y a * y a)).

Definition normalize (a : Vec2 F) : Vec2 F :=
  let out := zero in
  let length := length_vec a in
  if length != 0 then
    let multi := 1 / length in
    mk (x a * multi) (y a * multi)
  else out.

(** [refract_fast]: the body is the single statement [__debugbreak();]
    and no [return]: were the statement to return, control would flow off
    the end of the function. *)
Definition refract_fast (a b : Vec2 F) (ratio : F) : outcome (Vec2 F) :=
  bind __debugbreak (fun _ => Undefined).
End Ops.

Section MoreOps.
Context {F : Type} `{Scalar F}.
Local Open Scope f32_scope.

Definition neg (a : Vec2 F) : Vec2 F := mk (- x a) (- y a).   (* operator-() *)

Definition add (a b : Vec2 F) : Vec2 F := mk (x a + x b) (y a + y b).

Definition sub (a b : Vec2 F) : Vec2 F := mk (x a - x b) (y a - y b).

Definition mul (a b : Vec2 F) : Vec2 F := mk (x a * x b) (y a * y b).

Definition smul (t : F) (b : Vec2 F) : Vec2 F := mk (t * x b) (t * y b).

Definition muls (b : Vec2 F) (t : F) : Vec2 F := smul t b.

Definition divs (b : Vec2 F) (t : F) : Vec2 F := smul (1 / t) b.

Definition eqb (a b : Vec2 F) : bool := feqb (x a) (x b) && feqb (y a) (y b).

Definition dot (a b : Vec2 F) : F := (x a * x b) + (y a * y b).

Definition length_squared_vec (a : Vec2 F) : F := (x a * x a) + (y a * y a).

Definition perp (b : Vec2 F) : Vec2 F := mk (- y b) (x b).

Definition perp_dot (a b : Vec2 F) : F := (x a * y b) - (y a * x b).

Definition reflect (a b : Vec2 F) : Vec2 F :=
  sub a (muls (smul 2 b) (dot a b)).

Definition project (a b : Vec2 F) : Vec2 F := smul (dot a b / dot b b) b.

Definition project_norm (a b : Vec2 F) : Vec2 F := smul (dot a b) b.

Definition project_length (a b : Vec2 F) : F := dot a b / length_vec b.

Definition reject (a b : Vec2 F) : Vec2 F :=
  sub a (smul (dot a b / dot b b) b).

Definition reject_norm (a b : Vec2 F) : Vec2 F := sub a (smul (dot a b) b).
End MoreOps.

Section Refraction.
Context {F : Type} `{Scalar F} `{ScalarLe F}.
Local Open Scope f32_scope.

Definition refract (a b : Vec2 F) (ratio : F) : Vec2 F :=
  let out := zero in
  let cos_i := - dot a b in
  let sin_t := (ratio * ratio) * (1 - (cos_i * cos_i)) in
  if sin_t <=? 1 then
    add (smul ratio a) (smul (ratio * cos_i - sqrt (1 - sin_t)) b)
  else out.
End Refraction.
End Vec2.

(** ** Vec3 *)

Module Vec3.
Record Vec3 (F : Type) : Type := mk { x : F; y : F; z : F }.
Arguments mk {F} _ _ _.
Arguments x {F} _.
Arguments y {F} _.
Arguments z {F} _.

Section Ops.
Context {F : Type} `{Scalar F}.
Local Open Scope f32_scope.

Definition zero : Vec3 F := mk 0 0 0.

Definition add (a b : Vec3 F) : Vec3 F :=       (* operator+ *)
  mk (x a + x b) (y a + y b) (z a + z b).

Definition sub (a b : Vec3 F) : Vec3 F :=       (* operator- *)
  mk (x a - x b) (y a - y b) (z a - z b).

Definition smul (t : F) (b : Vec3 F) : Vec3 F := (* operator*(f32, Vec3) *)
  mk (t * x b) (t * y b) (t * z b).

Definition muls (b : Vec3 F) (t : F) : Vec3 F := (* operator*(Vec3, f32) *)
  smul t b.

Definition divs (b : Vec3 F) (t : F) : Vec3 F := (* operator/(Vec3, f32) *)
  smul (1 / t) b.

Definition dot (a b : Vec3 F) : F :=
  (x a * x b) + (y a * y b) + (z a * z b).

Definition length_vec (a : Vec3 F) : F :=
  sqrt ((x a * x a) + (y a * y a) + (z a * z a)).

Definition normalize (a : Vec3 F) : Vec3 F :=
  let out := zero in
  let length := length_vec a in
  if length != 0 then
    let multi := 1 / length in
    mk (x a * multi) (y a * multi) (z a * multi)
  else out.

Definition cross (a b : Vec3 F) : Vec3 F :=
  mk ((y a * z b) - (z a * y b))
     ((z a * x b) - (x a * z b))
     ((x a * y b) - (y a * x b)).
End Ops.

Section MoreOps.
Context {F : Type} `{Scalar F}.
Local Open Scope f32_scope.

Definition neg (a : Vec3 F) : Vec3 F := mk (- x a) (- y a) (- z a).

Definition mul (a b : Vec3 F) : Vec3 F :=
  mk (x a * x b) (y a * y b) (z a * z b).

Definition eqb (a b : Vec3 F) : bool :=
  feqb (x a) (x b) && feqb (y a) (y b) && feqb (z a) (z b).

Definition length_squared_vec (a : Vec3 F) : F :=
  (x a * x a) + (y a * y a) + (z a * z a).

Definition reflect (a b : Vec3 F) : Vec3 F :=
  sub a (muls (smul 2 b) (dot a b)).

Definition project (a b : Vec3 F) : Vec3 F := smul (dot a b / dot b b) b.

Definition project_norm (a b : Vec3 F) : Vec3 F := smul (dot a b) b.

Definition project_length (a b : Vec3 F) : F := dot a b / length_vec b.

Definition reject (a b : Vec3 F) : Vec3 F :=
  sub a (smul (dot a b / dot b b) b).

Definition reject_norm (a b : Vec3 F) : Vec3 F := sub a (smul (dot a b) b).

Definition reject_length (a b : Vec3 F) : F :=
  length_vec (cross a b) / length_vec b.
End MoreOps.

Section Refraction.
Context {F : Type} `{Scalar F} `{ScalarLe F}.
Local Open Scope f32_scope.

Definition refract (a b : Vec3 F) (ratio : F) : Vec3 F :=
  let out := zero in
  let cos_i := - dot a b in
  let sin_t := (ratio * ratio) * (1 - (cos_i * cos_i)) in
  if sin_t <=? 1 then
    add (smul ratio a) (smul (ratio * cos_i - sqrt (1 - sin_t)) b)
  else out.
End Refraction.
End Vec3.

(** ** Vec4 and the 4-wide SSE register

    [Vec4] is a union of [{x, y, z, w}], [{xyz, w}], [e[4]] and the register
    [simd]: one record of four lanes serves all views, lane 0 being [x]. *)

Module Vec4.
Record Vec4 (F : Type) : Type := mk { x : F; y : F; z : F; w : F }.
Arguments mk {F} _ _ _ _.
Arguments x {F} _.
Arguments y {F} _.
Arguments z {F} _.
Arguments w {F} _.

Section Views.
Context {F : Type}.

Definition xyz (a : Vec4 F) : Vec3.Vec3 F := Vec3.mk (x a) (y a) (z a).

(** [Vec4{ v3, s }] *)
Definition of_xyz_w (v : Vec3.Vec3 F) (s : F) : Vec4 F :=
  mk (Vec3.x v) (Vec3.y v) (Vec3.z v) s.

(** [a.e[i]], for the literal indices 0..3 the source uses. *)
Definition e (a : Vec4 F) (i : nat) : F :=
  match i with
  | 0%nat => x a
  | 1%nat => y a
  | 2%nat => z a
  | _ => w a
  end.

Definition set_e (a : Vec4 F) (i : nat) (v : F) : Vec4 F :=
  match i with
  | 0%nat => mk v (y a) (z a) (w a)
  | 1%nat => mk (x a) v (z a) (w a)
  | 2%nat => mk (x a) (y a) v (w a)
  | _ => mk (x a) (y a) (z a) v
  end.
End Views.
End Vec4.

Module Simd.
Import Vec4.

Definition __m128 (F : Type) : Type := Vec4 F.

Section Intrinsics.
Context {F : Type} `{Scalar F}.
Local Open Scope f32_scope.

Definition lanewise (op : F -> F -> F) (a b : __m128 F) : __m128 F :=
  mk (op (x a) (x b)) (op (y a) (y b)) (op (z a) (z b)) (op (w a) (w b)).

Definition _mm_add_ps : __m128 F -> __m128 F -> __m128 F := lanewise fadd.
Definition _mm_sub_ps : __m128 F -> __m128 F -> __m128 F := lanewise fsub.
Definition _mm_mul_ps : __m128 F -> __m128 F -> __m128 F := lanewise fmul.

(** [_mm_set_ps(e3, e2, e1, e0)] lists the lanes from the top one down. *)
Definition _mm_set_ps (e3 e2 e1 e0 : F) : __m128 F := mk e0 e1 e2 e3.
Definition _mm_set_ps1 (t : F) : __m128 F := mk t t t t.

(** [_mm_shuffle_ps(a, b, _MM_SHUFFLE(i3, i2, i1, i0))]: lanes 0 and 1
    are picked from [a], lanes 2 and 3 from [b]. *)
Definition _mm_shuffle_ps (a b : __m128 F) (i3 i2 i1 i0 : nat) : __m128 F :=
  mk (e a i0) (e a i1) (e b i2) (e b i3).
End Intrinsics.

Section MoreIntrinsics.
Context {F : Type} `{Scalar F}.

Definition _mm_div_ps : __m128 F -> __m128 F -> __m128 F := lanewise fdiv.

(** [_mm_movelh_ps(a, b)]: the low half of [a], then the low half of [b]. *)
Definition _mm_movelh_ps (a b : __m128 F) : __m128 F :=
  mk (x a) (y a) (x b) (y b).

(** [_mm_movehl_ps(a, b)]: the high half of [b], then the high half of [a]. *)
Definition _mm_movehl_ps (a b : __m128 F) : __m128 F :=
  mk (z b) (w b) (z a) (w a).
End MoreIntrinsics.

Section BitIntrinsics.
Context {F : Type} `{Bitwise F}.

Definition _mm_xor_ps (a b : __m128 F) : __m128 F :=
  mk (xor_bits (x a) (x b)) (xor_bits (y a) (y b))
     (xor_bits (z a) (z b)) (xor_bits (w a) (w b)).
End BitIntrinsics.
End Simd.

Module Vec4Ops.
Import Vec4 Simd.

Section Ops.
Context {F : Type} `{Scalar F}.
Local Open Scope f32_scope.

Definition zero : Vec4 F := mk 0 0 0 0.          (* Vec4 out{} *)

Definition dot (a b : Vec4 F) : F :=
  (x a * x b) + (y a * y b) + (z a * z b) + (w a * w b).

Definition length_vec (a : Vec4 F) : F := sqrt (dot a a).

Definition normalize (a : Vec4 F) : Vec4 F :=
  let out := zero in
  let length := length_vec a in
  if length != 0 then
    let single := _mm_set_ps1 (1 / length) in
    _mm_mul_ps a single
  else out.

Definition cross (a b : Vec4 F) : Vec4 F :=
  let tmp0 := _mm_shuffle_ps a a 3 0 2 1 in
  let tmp1 := _mm_shuffle_ps b b 3 1 0 2 in
  let tmp2 := _mm_mul_ps tmp0 b in
  let tmp3 := _mm_mul_ps tmp0 tmp1 in
  let tmp4 := _mm_shuffle_ps tmp2 tmp2 3 0 2 1 in
  _mm_sub_ps tmp3 tmp4.
End Ops.

Section MoreOps.
Context {F : Type} `{Scalar F}.
Local Open Scope f32_scope.

Definition neg (a : Vec4 F) : Vec4 F := mk (- x a) (- y a) (- z a) (- w a).

Definition add (a b : Vec4 F) : Vec4 F := _mm_add_ps a b.

Definition sub (a b : Vec4 F) : Vec4 F := _mm_sub_ps a b.

Definition mul (a b : Vec4 F) : Vec4 F := _mm_mul_ps a b.

Definition smul (t : F) (b : Vec4 F) : Vec4 F :=     (* operator*(f32, Vec4) *)
  let single := _mm_set_ps1 t in
  _mm_mul_ps b single.

Definition muls (b : Vec4 F) (t : F) : Vec4 F :=     (* operator*(Vec4, f32) *)
  let single := _mm_set_ps1 t in
  _mm_mul_ps b single.

Definition div (a b : Vec4 F) : Vec4 F := _mm_div_ps a b.

Definition divs (b : Vec4 F) (t : F) : Vec4 F :=     (* operator/(Vec4, f32) *)
  let single := _mm_set_ps1 t in
  _mm_div_ps b single.

Definition length_squared_vec (a : Vec4 F) : F := dot a a.
End MoreOps.
End Vec4Ops.

(** ** Mat4: four [Vec4] columns; [e[c][r]] is lane [r] of column [c] *)

Module Mat4.
Import Vec4 Simd.

Record Mat4 (F : Type) : Type := mk_mat { c0 : Vec4 F; c1 : Vec4 F; c2 : Vec4 F; c3 : Vec4 F }.
Arguments mk_mat {F} _ _ _ _.
Arguments c0 {F} _.
Arguments c1 {F} _.
Arguments c2 {F} _.
Arguments c3 {F} _.

Section Access.
Context {F : Type}.

(** [a.columns[i]], [a.vecs[i]] *)
Definition columns (a : Mat4 F) (i : nat) : Vec4 F :=
  match i with
  | 0%nat => c0 a
  | 1%nat => c1 a
  | 2%nat => c2 a
  | _ => c3 a
  end.

Definition set_column (a : Mat4 F) (i : nat) (v : Vec4 F) : Mat4 F :=
  match i with
  | 0%nat => mk_mat v (c1 a) (c2 a) (c3 a)
  | 1%nat => mk_mat (c0 a) v (c2 a) (c3 a)
  | 2%nat => mk_mat (c0 a) (c1 a) v (c3 a)
  | _ => mk_mat (c0 a) (c1 a) (c2 a) v
  end.

(** [a.e[i][j]] and the assignment [a.e[i][j] = v] *)
Definition e (a : Mat4 F) (i j : nat) : F := Vec4.e (columns a i) j.

Definition set_e (a : Mat4 F) (i j : nat) (v : F) : Mat4 F :=
  set_column a i (Vec4.set_e (columns a i) j v).

(** [operator()(row, column)], the mathematical notation *)
Definition at_rc (a : Mat4 F) (row column : nat) : F := e a column row.

(** Row [r] read across the four columns. *)
Definition row (a : Mat4 F) (r : nat) : Vec4 F :=
  mk (e a 0 r) (e a 1 r) (e a 2 r) (e a 3 r).
End Access.

Section Ops.
Context {F : Type} `{Scalar F}.
Local Open Scope f32_scope.

Definition zero : Mat4 F :=                      (* Mat4 out{} *)
  mk_mat Vec4Ops.zero Vec4Ops.zero Vec4Ops.zero Vec4Ops.zero.

Definition linear_combination (a : Mat4 F) (b : __m128 F) : __m128 F :=
  let out := _mm_mul_ps (columns a 0) (_mm_shuffle_ps b b 0 0 0 0) in
  let out := _mm_add_ps out (_mm_mul_ps (columns a 1) (_mm_shuffle_ps b b 1 1 1 1)) in
  let out := _mm_add_ps out (_mm_mul_ps (columns a 2) (_mm_shuffle_ps b b 2 2 2 2)) in
  let out := _mm_add_ps out (_mm_mul_ps (columns a 3) (_mm_shuffle_ps b b 3 3 3 3)) in
  out.

Definition mul_vec (a : Mat4 F) (b : Vec4 F) : Vec4 F :=   (* operator*(Mat4, Vec4) *)
  linear_combination a b.

Definition mul (a b : Mat4 F) : Mat4 F :=                  (* operator*(Mat4, Mat4) *)
  let out := zero in
  let out := set_column out 0 (linear_combination a (columns b 0)) in
  let out := set_column out 1 (linear_combination a (columns b 1)) in
  let out := set_column out 2 (linear_combination a (columns b 2)) in
  let out := set_column out 3 (linear_combination a (columns b 3)) in
  out.

(** [_MM_TRANSPOSE4_PS] on the four columns *)
Definition transpose (a : Mat4 F) : Mat4 F :=
  mk_mat (row a 0) (row a 1) (row a 2) (row a 3).

Definition create_diagonal_matrix (val : F) : Mat4 F :=
  let out := zero in
  let out := set_e out 0 0 val in
  let out := set_e out 1 1 val in
  let out := set_e out 2 2 val in
  let out := set_e out 3 3 val in
  out.

Definition create_look_at (eye target up : Vec3.Vec3 F) : Mat4 F :=
  let out := zero in
  let forward := Vec3.normalize (Vec3.sub eye target) in
  let right := Vec3.normalize (Vec3.cross up forward) in
  let upward := Vec3.cross forward right in
  let out := set_e out 0 0 (Vec3.x right) in
  let out := set_e out 0 1 (Vec3.x upward) in
  let out := set_e out 0 2 (Vec3.x forward) in
  let out := set_e out 0 3 0 in
  let out := set_e out 1 0 (Vec3.y right) in
  let out := set_e out 1 1 (Vec3.y upward) in
  let out := set_e out 1 2 (Vec3.y forward) in
  let out := set_e out 1 3 0 in
  let out := set_e out 2 0 (Vec3.z right) in
  let out := set_e out 2 1 (Vec3.z upward) in
  let out := set_e out 2 2 (Vec3.z forward) in
  let out := set_e out 2 3 0 in
  let out := set_e out 3 0 (- Vec3.dot right eye) in
  let out := set_e out 3 1 (- Vec3.dot upward eye) in
  let out := set_e out 3 2 (- Vec3.dot forward eye) in
  let out := set_e out 3 3 1 in
  out.

Definition det (a : Mat4 F) : F :=
  let c01 := Vec3.cross (xyz (columns a 0)) (xyz (columns a 1)) in
  let c23 := Vec3.cross (xyz (columns a 2)) (xyz (columns a 3)) in
  let u := Vec3.sub (Vec3.muls (xyz (columns a 0)) (w (columns a 1)))
                    (Vec3.muls (xyz (columns a 1)) (w (columns a 0))) in
  let v := Vec3.sub (Vec3.muls (xyz (columns a 2)) (w (columns a 3)))
                    (Vec3.muls (xyz (columns a 3)) (w (columns a 2))) in
  Vec3.dot c01 v + Vec3.dot c23 u.

Definition inverse (a : Mat4 F) : Mat4 F :=
  let out := zero in
  let c01 := Vec3.cross (xyz (columns a 0)) (xyz (columns a 1)) in
  let c23 := Vec3.cross (xyz (columns a 2)) (xyz (columns a 3)) in
  let u := Vec3.sub (Vec3.muls (xyz (columns a 0)) (w (columns a 1)))
                    (Vec3.muls (xyz (columns a 1)) (w (columns a 0))) in
  let v := Vec3.sub (Vec3.muls (xyz (columns a 2)) (w (columns a 3)))
                    (Vec3.muls (xyz (columns a 3)) (w (columns a 2))) in
  let inv_det := 1 / (Vec3.dot c01 v + Vec3.dot c23 u) in
  let c01 := Vec3.muls c01 inv_det in
  let c23 := Vec3.muls c23 inv_det in
  let u := Vec3.muls u inv_det in
  let v := Vec3.muls v inv_det in
  let out := set_column out 0
    (of_xyz_w (Vec3.add (Vec3.cross (xyz (columns a 1)) v) (Vec3.muls c23 (w (columns a 1))))
              (- Vec3.dot (xyz (columns a 1)) c23)) in
  let out := set_column out 1
    (of_xyz_w (Vec3.sub (Vec3.cross v (xyz (columns a 0))) (Vec3.muls c23 (w (columns a 0))))
              (Vec3.dot (xyz (columns a 0)) c23)) in
  let out := set_column out 2
    (of_xyz_w (Vec3.add (Vec3.cross (xyz (columns a 3)) u) (Vec3.muls c01 (w (columns a 3))))
              (- Vec3.dot (xyz (columns a 3)) c01)) in
  let out := set_column out 3
    (of_xyz_w (Vec3.sub (Vec3.cross u (xyz (columns a 2))) (Vec3.muls c01 (w (columns a 2))))
              (Vec3.dot (xyz (columns a 2)) c01)) in
  transpose out.

Definition trans_linear_combination (a : Mat4 F) (b : __m128 F) : __m128 F :=
  let out := _mm_mul_ps (columns a 0) (_mm_shuffle_ps b b 0 0 0 0) in
  let out := _mm_add_ps out (_mm_mul_ps (columns a 1) (_mm_shuffle_ps b b 1 1 1 1)) in
  let out := _mm_add_ps out (_mm_mul_ps (columns a 2) (_mm_shuffle_ps b b 2 2 2 2)) in
  out.

Definition mul_trans_point (a : Mat4 F) (p : Vec3.Vec3 F) : Vec3.Vec3 F :=
  let con := _mm_set_ps 1 (Vec3.z p) (Vec3.y p) (Vec3.x p) in
  let out := _mm_mul_ps (columns a 0) (_mm_shuffle_ps con con 0 0 0 0) in
  let out := _mm_add_ps out (_mm_mul_ps (columns a 1) (_mm_shuffle_ps con con 1 1 1 1)) in
  let out := _mm_add_ps out (_mm_mul_ps (columns a 2) (_mm_shuffle_ps con con 2 2 2 2)) in
  let out := _mm_add_ps out (columns a 3) in
  Vec3.mk (x out) (y out) (z out).

Definition mul_trans (a b : Mat4 F) : Mat4 F :=
  let out := zero in
  let out := set_column out 0 (trans_linear_combination a (columns b 0)) in
  let out := set_column out 1 (trans_linear_combination a (columns b 1)) in
  let out := set_column out 2 (trans_linear_combination a (columns b 2)) in
  let out := set_column out 3 (linear_combination a (columns b 3)) in
  out.
End Ops.

Section Trig.
Context {F : Type} `{Scalar F} `{Libm F}.
Local Open Scope f32_scope.

Definition create_rotation_z (angle : F) : Mat4 F :=
  let out := create_diagonal_matrix 1 in
  let sin_theta := sin angle in
  let cos_theta := cos angle in
  let out := set_e out 0 0 cos_theta in
  let out := set_e out 0 1 sin_theta in
  let out := set_e out 0 2 0 in
  let out := set_e out 1 0 (- sin_theta) in
  let out := set_e out 1 1 cos_theta in
  let out := set_e out 1 2 0 in
  let out := set_e out 2 0 0 in
  let out := set_e out 2 1 0 in
  let out := set_e out 2 2 1 in
  out.

Definition create_perspective (fov aspect near far : F) : Mat4 F :=
  let out := zero in
  let y_scale := 1 / tan (fov / 2) in
  let x_scale := y_scale / aspect in
  let out := set_e out 0 0 x_scale in
  let out := set_e out 1 1 y_scale in
  let out := set_e out 2 3 (- (1)) in
  let out := set_e out 2 2 (far / (near - far)) in
  let out := set_e out 3 2 ((near * far) / (near - far)) in
  out.
End Trig.

Section MoreOps.
Context {F : Type} `{Scalar F}.
Local Open Scope f32_scope.

Definition add (a b : Mat4 F) : Mat4 F :=            (* operator+ *)
  let out := zero in
  let out := set_column out 0 (_mm_add_ps (columns a 0) (columns b 0)) in
  let out := set_column out 1 (_mm_add_ps (columns a 1) (columns b 1)) in
  let out := set_column out 2 (_mm_add_ps (columns a 2) (columns b 2)) in
  let out := set_column out 3 (_mm_add_ps (columns a 3) (columns b 3)) in
  out.

Definition sub (a b : Mat4 F) : Mat4 F :=            (* operator- *)
  let out := zero in
  let out := set_column out 0 (_mm_sub_ps (columns a 0) (columns b 0)) in
  let out := set_column out 1 (_mm_sub_ps (columns a 1) (columns b 1)) in
  let out := set_column out 2 (_mm_sub_ps (columns a 2) (columns b 2)) in
  let out := set_column out 3 (_mm_sub_ps (columns a 3) (columns b 3)) in
  out.

Definition smul (t : F) (b : Mat4 F) : Mat4 F :=     (* operator*(f32, Mat4) *)
  let out := zero in
  let temp := _mm_set_ps1 t in
  let out := set_column out 0 (_mm_mul_ps temp (columns b 0)) in
  let out := set_column out 1 (_mm_mul_ps temp (columns b 1)) in
  let out := set_column out 2 (_mm_mul_ps temp (columns b 2)) in
  let out := set_column out 3 (_mm_mul_ps temp (columns b 3)) in
  out.

Definition muls (a : Mat4 F) (t : F) : Mat4 F := smul t a.

Definition divs (a : Mat4 F) (t : F) : Mat4 F :=     (* operator/(Mat4, f32) *)
  let out := zero in
  let temp := _mm_set_ps1 t in
  let out := set_column out 0 (_mm_div_ps (columns a 0) temp) in
  let out := set_column out 1 (_mm_div_ps (columns a 1) temp) in
  let out := set_column out 2 (_mm_div_ps (columns a 2) temp) in
  let out := set_column out 3 (_mm_div_ps (columns a 3) temp) in
  out.

Definition create_translate (translation : Vec3.Vec3 F) : Mat4 F :=
  let out := create_diagonal_matrix 1 in
  let out := set_e out 3 0 (Vec3.x translation) in
  let out := set_e out 3 1 (Vec3.y translation) in
  let out := set_e out 3 2 (Vec3.z translation) in
  out.

Definition adjugate_trans (a : Mat4 F) : Mat4 F :=
  let out := zero in
  let out := set_column out 0
    (of_xyz_w (Vec3.cross (xyz (columns a 1)) (xyz (columns a 2))) 0) in
  let out := set_column out 1
    (of_xyz_w (Vec3.cross (xyz (columns a 2)) (xyz (columns a 0))) 0) in
  let out := set_column out 2
    (of_xyz_w (Vec3.cross (xyz (columns a 0)) (xyz (columns a 1))) 0) in
  let out := set_e out 3 3 1 in
  transpose out.

Definition mul_trans_vec (a : Mat4 F) (p : Vec3.Vec3 F) : Vec3.Vec3 F :=
  let converted := _mm_set_ps 0 (Vec3.z p) (Vec3.y p) (Vec3.x p) in
  let out := trans_linear_combination a converted in
  Vec3.mk (x out) (y out) (z out).

Definition get_scale (a : Mat4 F) : Vec3.Vec3 F :=
  Vec3.mk (e a 0 0) (e a 1 1) (e a 2 2).

Definition get_translation (a : Mat4 F) : Vec3.Vec3 F :=
  Vec3.mk (e a 3 0) (e a 3 1) (e a 3 2).
End MoreOps.

Section MoreTrig.
Context {F : Type} `{Scalar F} `{Libm F}.
Local Open Scope f32_scope.

Definition create_rotation (axis : Vec3.Vec3 F) (angle : F) : Mat4 F :=
  let out := create_diagonal_matrix 1 in
  let axis := Vec3.normalize axis in
  let sin_theta := sin angle in
  let cos_theta := cos angle in
  let cos_val := 1 - cos_theta in
  let out := set_e out 0 0 ((Vec3.x axis * Vec3.x axis * cos_val) + cos_theta) in
  let out := set_e out 0 1 ((Vec3.x axis * Vec3.y axis * cos_val) + (Vec3.z axis * sin_theta)) in
  let out := set_e out 0 2 ((Vec3.x axis * Vec3.z axis * cos_val) - (Vec3.y axis * sin_theta)) in
  let out := set_e out 1 0 ((Vec3.y axis * Vec3.x axis * cos_val) - (Vec3.z axis * sin_theta)) in
  let out := set_e out 1 1 ((Vec3.y axis * Vec3.y axis * cos_val) + cos_theta) in
  let out := set_e out 1 2 ((Vec3.y axis * Vec3.z axis * cos_val) + (Vec3.x axis * sin_theta)) in
  let out := set_e out 2 0 ((Vec3.z axis * Vec3.x axis * cos_val) + (Vec3.y axis * sin_theta)) in
  let out := set_e out 2 1 ((Vec3.z axis * Vec3.y axis * cos_val) - (Vec3.x axis * sin_theta)) in
  let out := set_e out 2 2 ((Vec3.z axis * Vec3.z axis * cos_val) + cos_theta) in
  out.

Definition create_rotation_x (angle : F) : Mat4 F :=
  let out := create_diagonal_matrix 1 in
  let sin_theta := sin angle in
  let cos_theta := cos angle in
  let out := set_e out 0 0 1 in
  let out := set_e out 0 1 0 in
  let out := set_e out 0 2 0 in
  let out := set_e out 1 0 0 in
  let out := set_e out 1 1 cos_theta in
  let out := set_e out 1 2 sin_theta in
  let out := set_e out 2 0 0 in
  let out := set_e out 2 1 (- sin_theta) in
  let out := set_e out 2 2 cos_theta in
  out.

Definition create_rotation_y (angle : F) : Mat4 F :=
  let out := create_diagonal_matrix 1 in
  let sin_theta := sin angle in
  let cos_theta := cos angle in
  let out := set_e out 0 0 cos_theta in
  let out := set_e out 0 1 0 in
  let out := set_e out 0 2 (- sin_theta) in
  let out := set_e out 1 0 0 in
  let out := set_e out 1 1 1 in
  let out := set_e out 1 2 0 in
  let out := set_e out 2 0 sin_theta in
  let out := set_e out 2 1 0 in
  let out := set_e out 2 2 cos_theta in
  out.

Definition create_fpp_view (eye : Vec3.Vec3 F) (pitch yaw : F) : Mat4 F :=
  let out := zero in
  let cos_pitch := cos pitch in
  let sin_pitch := sin pitch in
  let cos_yaw := cos yaw in
  let sin_yaw := sin yaw in
  let forward := Vec3.mk cos_yaw 0 (- sin_yaw) in
  let right := Vec3.mk (sin_yaw * sin_pitch) cos_pitch (cos_yaw * sin_pitch) in
  let upward := Vec3.mk (sin_yaw * cos_pitch) (- sin_pitch) (cos_pitch * cos_yaw) in
  let out := set_e out 0 0 (Vec3.x right) in
  let out := set_e out 0 1 (Vec3.x upward) in
  let out := set_e out 0 2 (Vec3.x forward) in
  let out := set_e out 0 3 0 in
  let out := set_e out 1 0 (Vec3.y right) in
  let out := set_e out 1 1 (Vec3.y upward) in
  let out := set_e out 1 2 (Vec3.y forward) in
  let out := set_e out 1 3 0 in
  let out := set_e out 2 0 (Vec3.z right) in
  let out := set_e out 2 1 (Vec3.z upward) in
  let out := set_e out 2 2 (Vec3.z forward) in
  let out := set_e out 2 3 0 in
  let out := set_e out 3 0 (- Vec3.dot right eye) in
  let out := set_e out 3 1 (- Vec3.dot upward eye) in
  let out := set_e out 3 2 (- Vec3.dot forward eye) in
  let out := set_e out 3 3 1 in
  out.
End MoreTrig.

Section BitOps.
Context {F : Type} `{Scalar F} `{Bitwise F}.
Local Open Scope f32_scope.

Definition neg (a : Mat4 F) : Mat4 F :=              (* operator-() *)
  let out := zero in
  let out := set_column out 0 (_mm_xor_ps (columns a 0) (_mm_set_ps1 (- 0))) in
  let out := set_column out 1 (_mm_xor_ps (columns a 1) (_mm_set_ps1 (- 0))) in
  let out := set_column out 2 (_mm_xor_ps (columns a 2) (_mm_set_ps1 (- 0))) in
  let out := set_column out 3 (_mm_xor_ps (columns a 3) (_mm_set_ps1 (- 0))) in
  out.

Definition inverse_trans (a : Mat4 F) : Mat4 F :=
  let out := zero in
  let t0 := _mm_movelh_ps (columns a 0) (columns a 1) in
  let t1 := _mm_movehl_ps (columns a 0) (columns a 1) in
  let out := set_column out 0 (_mm_shuffle_ps t0 (columns a 2) 3 0 2 0) in
  let out := set_column out 1 (_mm_shuffle_ps t0 (columns a 2) 3 1 3 1) in
  let out := set_column out 2 (_mm_shuffle_ps t1 (columns a 2) 3 2 2 0) in
  let lengths_squared := _mm_mul_ps (columns out 0) (columns out 0) in
  let lengths_squared :=
    _mm_add_ps lengths_squared (_mm_mul_ps (columns out 1) (columns out 1)) in
  let lengths_squared :=
    _mm_add_ps lengths_squared (_mm_mul_ps (columns out 2) (columns out 2)) in
  let r_lengths_squared := _mm_div_ps (_mm_set_ps1 1) lengths_squared in
  let out := set_column out 0 (_mm_mul_ps (columns out 0) r_lengths_squared) in
  let out := set_column out 1 (_mm_mul_ps (columns out 1) r_lengths_squared) in
  let out := set_column out 2 (_mm_mul_ps (columns out 2) r_lengths_squared) in
  let out := set_column out 3
    (_mm_mul_ps (columns out 0) (_mm_shuffle_ps (columns a 3) (columns a 3) 0 0 0 0)) in
  let out := set_column out 3
    (_mm_add_ps (columns out 3)
       (_mm_mul_ps (columns out 1) (_mm_shuffle_ps (columns a 3) (columns a 3) 1 1 1 1))) in
  let out := set_column out 3
    (_mm_add_ps (columns out 3)
       (_mm_mul_ps (columns out 2) (_mm_shuffle_ps (columns a 3) (columns a 3) 2 2 2 2))) in
  let out := set_column out 3
    (_mm_xor_ps (columns out 3) (_mm_set_ps 1 (- 0) (- 0) (- 0))) in
  out.
End BitOps.
End Mat4.

(** ** Instance 1: IEEE-754 binary32 *)

Module Binary32.
Definition prec : Z := 24.
Definition emax : Z := 128.

Definition f32 : Type := spec_float.

(** A finite value [m * 2^e] given by mantissa and exponent, rounded to
    nearest even as the compiler rounds a literal. *)
Definition lit (m e : Z) : f32 := binary_normalize prec emax m e false.

(** [(f32)n] for a 32-bit integer [n] (cvtsi2ss). *)
Definition of_s32 (n : Z) : f32 := lit n 0.

(** The integer part of a finite value, rounded toward zero. *)
Definition trunc (a : f32) : option Z :=
  match a with
  | S754_zero _ => Some 0%Z
  | S754_finite s m e => Some (cond_Zopp s (Z.shiftl (Zpos m) e))
  | S754_infinity _ | S754_nan => None
  end.

Definition s32_min : Z := (- 2 ^ 31)%Z.
Definition s32_max : Z := (2 ^ 31 - 1)%Z.

Definition in_s32 (n : Z) : bool := (s32_min <=? n)%Z && (n <=? s32_max)%Z.

(** [(s32)x] as the SSE instruction cvttss2si computes it: truncation, and
    the "integer indefinite" value 0x80000000 when the result does not fit
    or the operand is a NaN. *)
Definition cvttss2si (a : f32) : Z :=
  match trunc a with
  | Some n => if in_s32 n then n else s32_min
  | None => s32_min
  end.

(** Modelled from the spec: [PI32] is defined in Utils.hpp, which is not
    part of the sources; the spec calls it pi, and the binary32 value
    nearest to pi is 0x40490FDB = 13176795 * 2^-22. *)
Definition pi32 : f32 := S754_finite false 13176795 (-22).

#[global] Instance scalar : Scalar f32 := {
  of_Z := of_s32;
  to_s32 := cvttss2si;
  fadd := SFadd prec emax;
  fsub := SFsub prec emax;
  fmul := SFmul prec emax;
  fdiv := SFdiv prec emax;
  fneg := SFopp;
  fabsf := SFabs;
  sqrt := SFsqrt prec emax;
  feqb := SFeqb;
  fltb := SFltb;
  PI32 := pi32
}.

(** Classification of values. *)
Definition is_finite (a : f32) : bool :=
  match a with
  | S754_zero _ | S754_finite _ _ _ => true
  | S754_infinity _ | S754_nan => false
  end.

Definition is_nan (a : f32) : bool :=
  match a with
  | S754_nan => true
  | _ => false
  end.

(** A well-formed binary32 datum: the mantissa/exponent pair is the
    canonical one of the format. *)
Definition valid (a : f32) : bool := valid_binary prec emax a.

#[global] Instance scalar_le : ScalarLe f32 := {
  fleb := SFleb
}.

(** The 32-bit pattern of a datum: sign, 8 bits of biased exponent, 23 bits
    of fraction.  [spec_float] has a single NaN, while a NaN of the machine
    has a sign bit and a non-zero fraction of its own, which arithmetic
    hands on from its operands.  The pattern of a NaN is therefore not a
    function of the datum: it is supplied ([nan]), and what is stated of
    the code is stated for every pattern that is one of a NaN
    ([is_nan_bits]). *)
Definition sign_bit (s : bool) : Z := if s then 2147483648%Z else 0%Z.

Definition is_nan_bits (n : Z) : bool :=
  (0 <=? n)%Z && (n <? 4294967296)%Z &&
  ((n / 8388608) mod 256 =? 255)%Z && negb (n mod 8388608 =? 0)%Z.

(** 0xFFC00000, the NaN that an invalid SSE operation produces, and
    0x7FC00000, the same with the sign bit clear. *)
Definition default_nan : Z := 4290772992%Z.
Definition positive_nan : Z := 2143289344%Z.

Definition bits_of (nan : Z) (a : f32) : Z :=
  match a with
  | S754_zero s => sign_bit s
  | S754_infinity s => (sign_bit s + 2139095040)%Z
  | S754_nan => nan
  | S754_finite s m e =>
      if (Zpos m <? 8388608)%Z
      then (sign_bit s + Zpos m)%Z
      else (sign_bit s + (e + 150) * 8388608 + (Zpos m - 8388608))%Z
  end.

Definition of_bits (n : Z) : f32 :=
  let s := Z.testbit n 31 in
  let ex := ((n / 8388608) mod 256)%Z in
  let fr := (n mod 8388608)%Z in
  if (ex =? 255)%Z then
    if (fr =? 0)%Z then S754_infinity s else S754_nan
  else if (ex =? 0)%Z then
    match fr with
    | Zpos m => S754_finite s m (-149)
    | _ => S754_zero s
    end
  else
    match (fr + 8388608)%Z with
    | Zpos m => S754_finite s m (ex - 150)
    | _ => S754_nan
    end.

(** xorps on data whose NaN, if any, have the pattern [nan]. *)
Definition bitwise (nan : Z) : Bitwise f32 := {|
  xor_bits := fun a b => of_bits (Z.lxor (bits_of nan a) (bits_of nan b))
|}.
End Binary32.

(** ** Instance 2: exact real arithmetic *)

Module Exact.
(** Truncation toward zero. *)
Definition Rtrunc (a : R) : Z :=
  if Rle_dec 0 a then Int_part a else (- Int_part (- a))%Z.

Definition to_s32 (a : R) : Z :=
  let n := Rtrunc a in
  if Binary32.in_s32 n then n else Binary32.s32_min.

(** Modelled from the spec: [PI32] (Utils.hpp, not part of the sources) is
    read as the number pi itself in exact arithmetic. *)
Definition pi32 : R := PI.

#[global] Instance scalar : Scalar R := {
  of_Z := IZR;
  to_s32 := to_s32;
  fadd := Rplus;
  fsub := Rminus;
  fmul := Rmult;
  fdiv := Rdiv;
  fneg := Ropp;
  fabsf := Rabs;
  sqrt := R_sqrt.sqrt;
  feqb := fun a b => if Req_dec_T a b then true else false;
  fltb := fun a b => if Rlt_dec a b then true else false;
  PI32 := pi32
}.

#[global] Instance libm : Libm R := {
  sin := Rtrigo_def.sin;
  cos := Rtrigo_def.cos;
  tan := Rtrigo1.tan
}.

#[global] Instance scalar_le : ScalarLe R := {
  fleb := fun a b => if Rle_dec a b then true else false
}.
End Exact.


(** ** The remaining scalar utilities *)

Module lib.

(** The 32-bit integer operations [mod] uses.  The remainder of a division
    by zero, the remainder of [INT_MIN] by [-1] and an addition that leaves
    the 32-bit range are undefined in C++: they yield [None]. *)
Definition s32_rem (a b : Z) : option Z :=
  if (b =? 0)%Z then None
  else if (a =? Binary32.s32_min)%Z && (b =? -1)%Z then None
  else Some (Z.rem a b).

Definition s32_add (a b : Z) : option Z :=
  if Binary32.in_s32 (a + b) then Some (a + b)%Z else None.

(** [mod<s32>(a, b) = (a % b + b) % b]; [mod] itself is a reserved word. *)
Definition mod_s32 (a b : Z) : option Z :=
  match s32_rem a b with
  | Some r =>
      match s32_add r b with
      | Some t => s32_rem t b
      | None => None
      end
  | None => None
  end.

Section Templates.
Context {T : Type} `{be_number T}.

Definition clamp (val min max : T) : T :=
  let t := if number_ltb val min then min else val in
  if number_ltb max t then max else t.

Definition min (a b : T) : T := if number_ltb a b then a else b.

Definition max (a b : T) : T := if number_ltb b a then a else b.
End Templates.

Section FloatTemplates.
Context {F : Type} `{Scalar F}.
Local Open Scope f32_scope.

Definition deg_to_rad (degrees : F) : F := degrees * PI32 / of_Z 180.

Definition rad_to_deg (radians : F) : F := radians * of_Z 180 / PI32.

(** [abs<f32>]: [val > 0 ? val : -val] *)
Definition abs (val : F) : F := if 0 <? val then val else - val.

Definition lerp (a b val : F) : F := a * (1 - val) + (b * val).

Definition inv_lerp (a b val : F) : F := (val - a) / (b - a).
End FloatTemplates.
End lib.

(** ** Vocabulary of the specification *)

(** The same scalar interface with its division replaced: a function whose
    result does not change under this replacement performs no division. *)
Definition with_fdiv {F : Type} (S : Scalar F) (d : F -> F -> F) : Scalar F :=
  {| of_Z := @of_Z F S; to_s32 := @to_s32 F S;
     fadd := @fadd F S; fsub := @fsub F S; fmul := @fmul F S;
     fdiv := d;
     fneg := @fneg F S; fabsf := @fabsf F S; sqrt := @sqrt F S;
     feqb := @feqb F S; fltb := @fltb F S; PI32 := @PI32 F S |}.

Section Vocabulary.
Context {F : Type} `{Scalar F}.
Local Open Scope f32_scope.

Definition identity : Mat4.Mat4 F := Mat4.create_diagonal_matrix 1.

(** A [Vec3] read as a homogeneous point, [Vec4(p.x, p.y, p.z, 1)]. *)
Definition point (p : Vec3.Vec3 F) : Vec4.Vec4 F :=
  Vec4.mk (Vec3.x p) (Vec3.y p) (Vec3.z p) 1.

(** A [Vec3] read as a free vector, [Vec4(v.x, v.y, v.z, 0)]. *)
Definition direction (v : Vec3.Vec3 F) : Vec4.Vec4 F :=
  Vec4.mk (Vec3.x v) (Vec3.y v) (Vec3.z v) 0.

(** The affine invariant of the [*_trans] fast paths, in the words of the
    spec: the bottom row is exactly [0, 0, 0, 1] and the upper-left 3x3
    block has no shear (its columns are mutually orthogonal). *)
Definition bottom_row_0001 (a : Mat4.Mat4 F) : bool :=
  feqb (Mat4.e a 0 3) 0 && feqb (Mat4.e a 1 3) 0 &&
  feqb (Mat4.e a 2 3) 0 && feqb (Mat4.e a 3 3) 1.

Definition shear_free (a : Mat4.Mat4 F) : bool :=
  feqb (Vec3.dot (Vec4.xyz (Mat4.columns a 0)) (Vec4.xyz (Mat4.columns a 1))) 0 &&
  feqb (Vec3.dot (Vec4.xyz (Mat4.columns a 0)) (Vec4.xyz (Mat4.columns a 2))) 0 &&
  feqb (Vec3.dot (Vec4.xyz (Mat4.columns a 1)) (Vec4.xyz (Mat4.columns a 2))) 0.

Definition affine_inv (a : Mat4.Mat4 F) : bool :=
  bottom_row_0001 a && shear_free a.

(** Entry-wise comparison of two matrices. *)
Definition entrywise (P : F -> F -> Prop) (a b : Mat4.Mat4 F) : Prop :=
  forall i j : nat, (i < 4)%nat -> (j < 4)%nat -> P (Mat4.e a i j) (Mat4.e b i j).

Definition entrywiseb (p : F -> F -> bool) (a b : Mat4.Mat4 F) : bool :=
  let col c d :=
    p (Vec4.x c) (Vec4.x d) && p (Vec4.y c) (Vec4.y d) &&
    p (Vec4.z c) (Vec4.z d) && p (Vec4.w c) (Vec4.w d) in
  col (Mat4.c0 a) (Mat4.c0 b) && col (Mat4.c1 a) (Mat4.c1 b) &&
  col (Mat4.c2 a) (Mat4.c2 b) && col (Mat4.c3 a) (Mat4.c3 b).
End Vocabulary.

Module F32Spec.
Import Binary32.

Definition is_zero (a : f32) : bool :=
  match a with
  | S754_zero _ => true
  | _ => false
  end.

(** Two data denote the same number: they are identical, or both are a
    zero (of either sign). *)
Definition same_number (a b : f32) : Prop :=
  a = b \/ (is_zero a = true /\ is_zero b = true).

(** [|a - b| <= tol], computed in binary32; false as soon as a NaN appears. *)
Definition within_tol (tol a b : f32) : bool :=
  SFleb (SFabs (fsub a b)) tol.

Definition tol_1e4 : f32 := fdiv (of_s32 1) (of_s32 10000).
Definition tol_1e5 : f32 := fdiv (of_s32 1) (of_s32 100000).

Definition finite_vec3 (v : Vec3.Vec3 f32) : bool :=
  is_finite (Vec3.x v) && is_finite (Vec3.y v) && is_finite (Vec3.z v).

Definition finite_vec4 (v : Vec4.Vec4 f32) : bool :=
  is_finite (Vec4.x v) && is_finite (Vec4.y v) &&
  is_finite (Vec4.z v) && is_finite (Vec4.w v).

Definition finite_mat (a : Mat4.Mat4 f32) : bool :=
  finite_vec4 (Mat4.c0 a) && finite_vec4 (Mat4.c1 a) &&
  finite_vec4 (Mat4.c2 a) && finite_vec4 (Mat4.c3 a).

Definition valid_vec4 (v : Vec4.Vec4 f32) : bool :=
  valid (Vec4.x v) && valid (Vec4.y v) && valid (Vec4.z v) && valid (Vec4.w v).

(** Shorthands for writing concrete inputs. *)
Definition i32 (n : Z) : f32 := of_s32 n.
Definition frac (n d : Z) : f32 := fdiv (of_s32 n) (of_s32 d).
Definition pow2 (k : Z) : f32 := lit 1 k.

(** The 4x4 Hilbert matrix, [a(r, c) = 1.0f / (r + c + 1)]. *)
Definition hilbert : Mat4.Mat4 f32 :=
  Mat4.mk_mat
    (Vec4.mk (frac 1 1) (frac 1 2) (frac 1 3) (frac 1 4))
    (Vec4.mk (frac 1 2) (frac 1 3) (frac 1 4) (frac 1 5))
    (Vec4.mk (frac 1 3) (frac 1 4) (frac 1 5) (frac 1 6))
    (Vec4.mk (frac 1 4) (frac 1 5) (frac 1 6) (frac 1 7)).

(** [diag(2^64, 2^64, 1, 1)]: its determinant, [2^128], exceeds the largest
    binary32 number. *)
Definition diag_huge : Mat4.Mat4 f32 :=
  Mat4.mk_mat
    (Vec4.mk (pow2 64) (i32 0) (i32 0) (i32 0))
    (Vec4.mk (i32 0) (pow2 64) (i32 0) (i32 0))
    (Vec4.mk (i32 0) (i32 0) (i32 1) (i32 0))
    (Vec4.mk (i32 0) (i32 0) (i32 0) (i32 1)).

(** A translation by [(1, 2, 3)] after a scaling by [(2, 4, 8)]. *)
Definition scale_translate : Mat4.Mat4 f32 :=
  Mat4.mk_mat
    (Vec4.mk (i32 2) (i32 0) (i32 0) (i32 0))
    (Vec4.mk (i32 0) (i32 4) (i32 0) (i32 0))
    (Vec4.mk (i32 0) (i32 0) (i32 8) (i32 0))
    (Vec4.mk (i32 1) (i32 2) (i32 3) (i32 1)).

(** A quarter turn about z with scales [(3, 2, 5)] and translation
    [(7, -8, 9)]. *)
Definition turn_translate : Mat4.Mat4 f32 :=
  Mat4.mk_mat
    (Vec4.mk (i32 0) (i32 3) (i32 0) (i32 0))
    (Vec4.mk (i32 (-2)) (i32 0) (i32 0) (i32 0))
    (Vec4.mk (i32 0) (i32 0) (i32 5) (i32 0))
    (Vec4.mk (i32 7) (i32 (-8)) (i32 9) (i32 1)).

(** A general matrix, neither affine nor shear-free. *)
Definition dense : Mat4.Mat4 f32 :=
  Mat4.mk_mat
    (Vec4.mk (frac 1 3) (i32 2) (frac (-7) 10) (i32 4))
    (Vec4.mk (i32 5) (frac 1 7) (i32 (-3)) (frac 9 11))
    (Vec4.mk (frac 2 3) (i32 1) (i32 6) (frac (-1) 5))
    (Vec4.mk (i32 8) (frac 3 13) (frac 1 10) (frac 22 7)).

(** The camera of [Source.cpp]. *)
Definition camera_pos : Vec3.Vec3 f32 := Vec3.mk (i32 3) (i32 0) (i32 3).
Definition camera_target : Vec3.Vec3 f32 := Vec3.mk (i32 0) (i32 0) (i32 0).
Definition camera_up : Vec3.Vec3 f32 := Vec3.mk (i32 0) (i32 1) (i32 0).

(** A non-zero vector whose squared length underflows to zero. *)
Definition tiny3 : Vec3.Vec3 f32 := Vec3.mk (pow2 (-80)) (i32 0) (i32 0).

(** The angles of the spec's examples, computed as the code would. *)
Definition three_pi : f32 := fmul (i32 3) pi32.
Definition five_pi : f32 := fmul (i32 5) pi32.

Definition valid_mat (a : Mat4.Mat4 f32) : bool :=
  valid_vec4 (Mat4.c0 a) && valid_vec4 (Mat4.c1 a) &&
  valid_vec4 (Mat4.c2 a) && valid_vec4 (Mat4.c3 a).
End F32Spec.

Module ExactSpec.
(** Concrete inputs in exact arithmetic. *)
Definition scale_translate : Mat4.Mat4 R :=
  Mat4.mk_mat (Vec4.mk 2 0 0 0)%R (Vec4.mk 0 4 0 0)%R
              (Vec4.mk 0 0 8 0)%R (Vec4.mk 1 2 3 1)%R.

Definition camera_pos : Vec3.Vec3 R := Vec3.mk 3%R 0%R 3%R.
Definition camera_target : Vec3.Vec3 R := Vec3.mk 0%R 0%R 0%R.
Definition camera_up : Vec3.Vec3 R := Vec3.mk 0%R 1%R 0%R.

Definition v34 : Vec2.Vec2 R := Vec2.mk 3%R 4%R.
Definition v122 : Vec3.Vec3 R := Vec3.mk 1%R 2%R 2%R.
Definition v1111 : Vec4.Vec4 R := Vec4.mk 1%R 1%R 1%R 1%R.

(** One reading of the xor on reals: the subtraction from the mask, as in
    the line of [inverse_trans] that the xor stands in for
    ([_mm_sub_ps(_mm_setr_ps(0, 0, 0, 1), out.columns[3])]). *)
Definition xor_as_subtraction : Bitwise R :=
  {| xor_bits := fun a mask => (mask - a)%R |}.
End ExactSpec.

(** ** Proof support *)

Ltac kernel_unfold :=
  cbv [Mat4.mul Mat4.mul_vec Mat4.mul_trans Mat4.mul_trans_point
       Mat4.inverse Mat4.det Mat4.transpose Mat4.row Mat4.at_rc
       Mat4.e Mat4.columns Mat4.set_column Mat4.set_e Mat4.zero
       Mat4.create_diagonal_matrix Mat4.create_rotation_z
       Mat4.create_look_at Mat4.create_perspective
       Mat4.linear_combination Mat4.trans_linear_combination
       Mat4.c0 Mat4.c1 Mat4.c2 Mat4.c3
       identity point direction
       Vec4Ops.zero Vec4Ops.dot Vec4Ops.cross
       Vec4.e Vec4.set_e Vec4.xyz Vec4.of_xyz_w
       Vec4.x Vec4.y Vec4.z Vec4.w
       Simd._mm_mul_ps Simd._mm_add_ps Simd._mm_sub_ps
       Simd._mm_shuffle_ps Simd.lanewise Simd._mm_set_ps Simd._mm_set_ps1
       Vec3.cross Vec3.dot Vec3.add Vec3.sub Vec3.muls Vec3.smul Vec3.divs
       Vec3.x Vec3.y Vec3.z Vec3.zero].

Ltac real_unfold :=
  cbv [fadd fsub fmul fdiv fneg of_Z sin cos tan Exact.scalar Exact.libm].

Ltac normalize_unfold :=
  cbv [Vec2.normalize Vec2.length_vec Vec2.zero Vec2.x Vec2.y
       Vec3.normalize Vec3.length_vec Vec3.zero Vec3.x Vec3.y Vec3.z
       Vec4Ops.normalize Vec4Ops.length_vec Vec4Ops.dot Vec4Ops.zero
       Vec4.x Vec4.y Vec4.z Vec4.w
       Simd._mm_mul_ps Simd._mm_set_ps1 Simd.lanewise
       fadd fsub fmul fdiv fneg of_Z sqrt feqb Exact.scalar].

Ltac vec_unfold :=
  cbv [Vec2.neg Vec2.add Vec2.sub Vec2.mul Vec2.smul Vec2.muls Vec2.divs
       Vec2.dot Vec2.length_squared_vec Vec2.perp Vec2.perp_dot Vec2.reflect
       Vec2.refract Vec2.project Vec2.project_norm Vec2.project_length
       Vec2.reject Vec2.reject_norm Vec2.zero Vec2.x Vec2.y
       Vec3.neg Vec3.add Vec3.sub Vec3.mul Vec3.smul Vec3.muls Vec3.divs
       Vec3.dot Vec3.cross Vec3.length_squared_vec Vec3.reflect Vec3.refract
       Vec3.project Vec3.project_norm Vec3.project_length Vec3.reject
       Vec3.reject_norm Vec3.zero Vec3.x Vec3.y Vec3.z
       lib.deg_to_rad lib.rad_to_deg lib.lerp lib.inv_lerp lib.abs].

Ltac exact_unfold :=
  cbv [fadd fsub fmul fdiv fneg fabsf of_Z sqrt feqb fltb fleb PI32 sin cos tan
       Exact.scalar Exact.libm Exact.scalar_le Exact.pi32].

Ltac mat_unfold :=
  cbv [Mat4.mul Mat4.mul_vec Mat4.mul_trans Mat4.mul_trans_point
       Mat4.mul_trans_vec Mat4.inverse Mat4.inverse_trans Mat4.adjugate_trans
       Mat4.det Mat4.transpose Mat4.row Mat4.at_rc
       Mat4.add Mat4.sub Mat4.smul Mat4.muls Mat4.divs Mat4.neg
       Mat4.get_scale Mat4.get_translation
       Mat4.e Mat4.columns Mat4.set_column Mat4.set_e Mat4.zero
       Mat4.create_diagonal_matrix Mat4.create_translate
       Mat4.create_rotation Mat4.create_rotation_x Mat4.create_rotation_y
       Mat4.create_rotation_z Mat4.create_look_at Mat4.create_fpp_view
       Mat4.create_perspective
       Mat4.linear_combination Mat4.trans_linear_combination
       Mat4.c0 Mat4.c1 Mat4.c2 Mat4.c3
       identity point direction
       Vec4Ops.zero Vec4Ops.dot Vec4Ops.cross Vec4Ops.neg Vec4Ops.add
       Vec4Ops.sub Vec4Ops.mul Vec4Ops.smul Vec4Ops.muls Vec4Ops.div
       Vec4Ops.divs Vec4Ops.length_squared_vec
       Vec4.e Vec4.set_e Vec4.xyz Vec4.of_xyz_w
       Vec4.x Vec4.y Vec4.z Vec4.w
       Simd._mm_mul_ps Simd._mm_add_ps Simd._mm_sub_ps Simd._mm_div_ps
       Simd._mm_movelh_ps Simd._mm_movehl_ps Simd._mm_xor_ps
       Simd._mm_shuffle_ps Simd.lanewise Simd._mm_set_ps Simd._mm_set_ps1];
  vec_unfold.

Ltac split_bools :=
  repeat match goal with
         | H : (_ && _)%bool = true |- _ =>
             let H1 := fresh "B" in let H2 := fresh "B" in
             apply andb_prop in H; destruct H as [H1 H2]
         end.

(** Decide the comparisons [u == v] of exact arithmetic that occur in the
    goal and hold there. *)
Ltac decide_feqb :=
  repeat match goal with
         | |- context [Req_dec_T ?u ?v] =>
             let N := fresh "N" in
             destruct (Req_dec_T u v) as [_ | N];
             [| exfalso; apply N; first [reflexivity | ring | lra | nsatz]]
         end.

Ltac destruct_mat a :=
  let v0 := fresh "c" in let v1 := fresh "c" in
  let v2 := fresh "c" in let v3 := fresh "c" in
  destruct a as [v0 v1 v2 v3];
  destruct v0 as [? ? ? ?]; destruct v1 as [? ? ? ?];
  destruct v2 as [? ? ? ?]; destruct v3 as [? ? ? ?].

(** ** Exact steps of binary32 arithmetic *)

Lemma of_s32_0 : Binary32.of_s32 0 = S754_zero false.
Proof. reflexivity. Qed.

Lemma of_s32_1 : Binary32.of_s32 1 = S754_finite false 8388608 (-23).
Proof. reflexivity. Qed.

(** [x - x] is [+0] for every finite [x]. *)
Lemma fsub_diag (a : Binary32.f32) :
  Binary32.is_finite a = true -> fsub a a = S754_zero false.
Proof.
  destruct a as [s | s | | s m e]; cbn; try discriminate; intros _.
  - destruct s; reflexivity.
  - unfold SFsub. rewrite Z.sub_diag. reflexivity.
Qed.

Lemma shr_1_iter_23 (p : positive) :
  iter_pos shr_1 23 (Build_shr_record (Zpos (Pos.iter xO p 23)) false false)
  = Build_shr_record (Zpos p) false false.
Proof. reflexivity. Qed.

Lemma digits2_pos_shift_23 (p : positive) :
  (Zpos (digits2_pos (Pos.iter xO p 23)) = Zpos (digits2_pos p) + 23)%Z.
Proof. cbn. lia. Qed.

(** [x * 1.0f] is [x] for every binary32 datum [x]: the product of the
    mantissas is shifted back by the 23 bits of the mantissa of one and
    nothing is rounded off. *)
Lemma fmul_one_r (a : Binary32.f32) :
  Binary32.valid a = true -> fmul a (of_Z 1) = a.
Proof.
  destruct a as [s | s | | s m e]; cbn; intros Hv.
  - now rewrite xorb_false_r.
  - now rewrite xorb_false_r.
  - reflexivity.
  - unfold Binary32.valid, valid_binary, bounded, canonical_mantissa in Hv.
    apply andb_prop in Hv. destruct Hv as [Hc Hb].
    apply Z.eqb_eq in Hc.
    rewrite xorb_false_r.
    replace (m * 8388608)%positive with (Pos.iter xO m 23) by (cbn; lia).
    unfold binary_round_aux, shr_fexp.
    cbn [Zdigits2 shr_record_of_loc].
    rewrite digits2_pos_shift_23.
    replace (Z.pos (digits2_pos m) + 23 + (e + -23))%Z
      with (Z.pos (digits2_pos m) + e)%Z by lia.
    rewrite Hc.
    replace (e - (e + -23))%Z with 23%Z by lia.
    unfold shr at 1. rewrite shr_1_iter_23.
    cbn [shr_m loc_of_shr_record round_nearest_even Zdigits2].
    replace (e + -23 + 23)%Z with e by lia.
    rewrite Hc, Z.sub_diag. cbn [shr shr_m].
    unfold Binary32.prec, Binary32.emax in *. rewrite Hb. reflexivity.
Qed.

(** A finite number times a zero is a zero. *)
Lemma fmul_zero_r (a b : Binary32.f32) :
  Binary32.is_finite a = true -> F32Spec.is_zero b = true ->
  F32Spec.is_zero (fmul a b) = true.
Proof.
  destruct a as [s | s | | s m e], b as [t | t | | t n k]; cbn;
    try discriminate; reflexivity.
Qed.

(** Adding a zero does not change the number. *)
Lemma fadd_zero_r (a b c : Binary32.f32) :
  F32Spec.same_number a c -> F32Spec.is_zero b = true ->
  F32Spec.same_number (fadd a b) c.
Proof.
  intros Hac Hb. destruct b as [t | t | | t n k]; try discriminate.
  destruct Hac as [-> | [Ha Hc]].
  - destruct c as [s | s | | s m e]; cbn.
    + right. split; [destruct s, t|]; reflexivity.
    + now left.
    + now left.
    + now left.
  - right. split; [|exact Hc].
    destruct a as [s | s | | s m e]; try discriminate.
    cbn. destruct s, t; reflexivity.
Qed.

Lemma same_number_refl (a : Binary32.f32) : F32Spec.same_number a a.
Proof. now left. Qed.

Lemma same_number_sym (a b : Binary32.f32) :
  F32Spec.same_number a b -> F32Spec.same_number b a.
Proof. intros [-> | [Ha Hb]]; [now left | right; now split]. Qed.

(** What [w == 0.0f] says about [w]. *)
Lemma feqb_0_is_zero (a : Binary32.f32) :
  feqb a (of_Z 0) = true -> F32Spec.is_zero a = true.
Proof.
  destruct a as [s | s | | s m e]; cbn; try reflexivity.
  - destruct s; discriminate.
  - discriminate.
  - destruct s; discriminate.
Qed.

(** A number that compares equal to itself is not a NaN; the comparison of
    [same_number] data with [==] succeeds unless they are NaN. *)
Lemma same_number_feqb (a b : Binary32.f32) :
  F32Spec.same_number a b -> Binary32.is_nan a = false -> feqb a b = true.
Proof.
  intros [<- | [Ha Hb]] Hn.
  - destruct a as [s | s | | s m e]; cbn in *; try discriminate.
    + reflexivity.
    + destruct s; reflexivity.
    + unfold SFeqb, SFcompare. rewrite Z.compare_refl.
      destruct s; rewrite Pos.compare_cont_refl; reflexivity.
  - destruct a, b; try discriminate. reflexivity.
Qed.

(** ** create_perspective *)

(** C7. For every [fov], [aspect], [near], [far], over any scalar
    arithmetic, [create_perspective] returns the matrix whose entries are
    [e[0][0] = (1 / tan(fov / 2)) / aspect], [e[1][1] = 1 / tan(fov / 2)],
    [e[2][3] = -1], [e[2][2] = far / (near - far)],
    [e[3][2] = (near * far) / (near - far)], and zero everywhere else. *)
Theorem create_perspective_entries
    (F : Type) (S : Scalar F) (L : Libm F) (fov aspect near far : F) :
  let m := Mat4.create_perspective fov aspect near far in
  let y_scale := (1 / tan (fov / 2))%f32 in
  Mat4.e m 0 0 = (y_scale / aspect)%f32 /\
  Mat4.e m 1 1 = y_scale /\
  Mat4.e m 2 3 = (- (1))%f32 /\
  Mat4.e m 2 2 = (far / (near - far))%f32 /\
  Mat4.e m 3 2 = ((near * far) / (near - far))%f32 /\
  m = Mat4.mk_mat
        (Vec4.mk (Mat4.e m 0 0) 0%f32 0%f32 0%f32)
        (Vec4.mk 0%f32 (Mat4.e m 1 1) 0%f32 0%f32)
        (Vec4.mk 0%f32 0%f32 (Mat4.e m 2 2) (Mat4.e m 2 3))
        (Vec4.mk 0%f32 0%f32 (Mat4.e m 3 2) 0%f32).
Proof. cbv zeta. repeat split; reflexivity. Qed.

(** ** refract_fast *)

(** A body that is one statement and no [return] traps exactly when the
    statement traps, and returns no value whatever the statement does. *)
Lemma statement_without_return (A B : Type) (m : outcome A) :
  (bind m (fun _ => @Undefined B) = Trap <-> m = Trap) /\
  forall v : B, bind m (fun _ => @Undefined B) <> Returns v.
Proof.
  split.
  - destruct m; cbn; split; intros E; (discriminate E || reflexivity).
  - intros v. destruct m; cbn; discriminate.
Qed.

(** C8. For every input, [refract_fast] traps: the breakpoint exception of
    [__debugbreak] is raised before control can flow off the end of the
    body, and no value is returned. *)
Theorem refract_fast_traps
    (F : Type) (S : Scalar F) (a b : Vec2.Vec2 F) (ratio : F) :
  Vec2.refract_fast a b ratio = Trap /\
  forall v : Vec2.Vec2 F, Vec2.refract_fast a b ratio <> Returns v.
Proof.
  unfold Vec2.refract_fast.
  destruct (statement_without_return unit (Vec2.Vec2 F) __debugbreak) as [Ht Hv].
  split; [apply Ht; reflexivity | exact Hv].
Qed.

(** ** create_look_at *)

(** The third row of the view matrix of [Source.cpp], bit for bit.  The
    correctly rounded [1/sqrt(2)] is [11863283 * 2^-24]; the code, which
    multiplies by the rounded reciprocal of the length, yields
    [11863284 * 2^-24], one unit in the last place above it. *)
Lemma camera_third_row_value :
  Mat4.row (Mat4.create_look_at F32Spec.camera_pos F32Spec.camera_target
                                F32Spec.camera_up) 2
  = Vec4.mk (S754_finite false 11863284 (-24)) (S754_zero false)
            (S754_finite false 11863284 (-24))
            (S754_finite true 8897463 (-21)).
Proof. vm_compute. reflexivity. Qed.

(** The stored entries, over any scalar arithmetic. *)
Lemma create_look_at_entries
    (F : Type) (S : Scalar F) (eye target up : Vec3.Vec3 F) :
  let forward := Vec3.normalize (Vec3.sub eye target) in
  let right := Vec3.normalize (Vec3.cross up forward) in
  let upward := Vec3.cross forward right in
  Mat4.create_look_at eye target up
  = Mat4.mk_mat
      (Vec4.mk (Vec3.x right) (Vec3.x upward) (Vec3.x forward) 0%f32)
      (Vec4.mk (Vec3.y right) (Vec3.y upward) (Vec3.y forward) 0%f32)
      (Vec4.mk (Vec3.z right) (Vec3.z upward) (Vec3.z forward) 0%f32)
      (Vec4.mk (- Vec3.dot right eye)%f32 (- Vec3.dot upward eye)%f32
               (- Vec3.dot forward eye)%f32 1%f32).
Proof. reflexivity. Qed.

(** In exact arithmetic the forward axis of the camera of [Source.cpp] is
    [(3,0,3) / length_vec((3,0,3))]. *)
Lemma camera_forward_exact :
  Vec3.normalize (Vec3.sub ExactSpec.camera_pos ExactSpec.camera_target)
  = Vec3.divs ExactSpec.camera_pos (Vec3.length_vec ExactSpec.camera_pos).
Proof.
  unfold ExactSpec.camera_pos, ExactSpec.camera_target.
  cbv [Vec3.sub Vec3.divs Vec3.smul Vec3.x Vec3.y Vec3.z].
  normalize_unfold.
  replace (3 - 0)%R with 3%R by ring. replace (0 - 0)%R with 0%R by ring.
  set (l := R_sqrt.sqrt (3 * 3 + 0 * 0 + 3 * 3)).
  assert (Hl : (0 < l)%R) by (apply sqrt_lt_R0; lra).
  destruct (Req_dec_T l 0) as [E | _]; [lra|]. cbn [negb].
  f_equal; ring.
Qed.

(** C4. For every [eye], [target], [up], over any scalar arithmetic,
    [create_look_at] builds [forward = normalize(eye - target)],
    [right = normalize(cross(up, forward))], [upward = cross(forward, right)],
    stores [right], [upward], [forward] in rows 0, 1, 2 and the translation
    terms [-dot(right, eye)], [-dot(upward, eye)], [-dot(forward, eye)] in
    column 3; for the camera [eye = (3,0,3)], [target = (0,0,0)],
    [up = (0,1,0)] the third row is [(3,0,3) / length_vec((3,0,3))], in
    binary32 (bit for bit) and in exact arithmetic. *)
Theorem create_look_at_basis :
  (forall (F : Type) (S : Scalar F) (eye target up : Vec3.Vec3 F),
     let forward := Vec3.normalize (Vec3.sub eye target) in
     let right := Vec3.normalize (Vec3.cross up forward) in
     let upward := Vec3.cross forward right in
     let m := Mat4.create_look_at eye target up in
     Vec4.xyz (Mat4.row m 0) = right /\
     Vec4.xyz (Mat4.row m 1) = upward /\
     Vec4.xyz (Mat4.row m 2) = forward /\
     Mat4.row m 3 = Vec4.mk 0%f32 0%f32 0%f32 1%f32 /\
     Mat4.e m 3 0 = (- Vec3.dot right eye)%f32 /\
     Mat4.e m 3 1 = (- Vec3.dot upward eye)%f32 /\
     Mat4.e m 3 2 = (- Vec3.dot forward eye)%f32) /\
  Vec4.xyz (Mat4.row (Mat4.create_look_at F32Spec.camera_pos
                        F32Spec.camera_target F32Spec.camera_up) 2)
  = Vec3.divs F32Spec.camera_pos (Vec3.length_vec F32Spec.camera_pos) /\
  Vec4.xyz (Mat4.row (Mat4.create_look_at ExactSpec.camera_pos
                        ExactSpec.camera_target ExactSpec.camera_up) 2)
  = Vec3.divs ExactSpec.camera_pos (Vec3.length_vec ExactSpec.camera_pos).
Proof.
  assert (G : forall (F : Type) (S : Scalar F) (eye target up : Vec3.Vec3 F),
             Vec4.xyz (Mat4.row (Mat4.create_look_at eye target up) 2)
             = Vec3.normalize (Vec3.sub eye target)).
  { intros F S eye target up. rewrite create_look_at_entries. cbv zeta.
    destruct (Vec3.normalize (Vec3.sub eye target)). reflexivity. }
  split; [|split].
  - intros F S eye target up. cbv zeta.
    rewrite create_look_at_entries. cbv zeta.
    set (forward := Vec3.normalize (Vec3.sub eye target)).
    set (right := Vec3.normalize (Vec3.cross up forward)).
    set (upward := Vec3.cross forward right).
    clearbody upward. clearbody right. clearbody forward.
    destruct forward, right, upward. repeat split; reflexivity.
  - vm_compute. reflexivity.
  - rewrite G. exact camera_forward_exact.
Qed.

(** ** create_rotation_z *)

(** The stored matrix, over any scalar arithmetic: column 0 is
    [(cos, sin, 0, 0)] and column 1 is [(-sin, cos, 0, 0)]. *)
Lemma create_rotation_z_columns
    (F : Type) (S : Scalar F) (L : Libm F) (angle : F) :
  Mat4.create_rotation_z angle
  = Mat4.mk_mat
      (Vec4.mk (cos angle) (sin angle) 0%f32 0%f32)
      (Vec4.mk (- sin angle)%f32 (cos angle) 0%f32 0%f32)
      (Vec4.mk 0%f32 0%f32 1%f32 0%f32)
      (Vec4.mk 0%f32 0%f32 0%f32 1%f32).
Proof. reflexivity. Qed.

Lemma rotation_z_times_x_axis (th : R) :
  Mat4.mul_vec (Mat4.create_rotation_z th) (Vec4.mk 1 0 0 0)%R
  = Vec4.mk (Rtrigo_def.cos th) (Rtrigo_def.sin th) 0%R 0%R.
Proof.
  rewrite create_rotation_z_columns. kernel_unfold. real_unfold.
  f_equal; ring.
Qed.

(** At a quarter turn the image of the x axis is [(0, 1, 0)], whereas
    [(cos th, -sin th, 0)] is [(0, -1, 0)]. *)
Lemma rotation_z_quarter_turn_not_minus_sin :
  Vec4.xyz (Mat4.mul_vec (Mat4.create_rotation_z (PI / 2)%R)
                         (Vec4.mk 1 0 0 0)%R)
  <> Vec3.mk (Rtrigo_def.cos (PI / 2)) (- Rtrigo_def.sin (PI / 2))%R 0%R.
Proof.
  rewrite rotation_z_times_x_axis. unfold Vec4.xyz. cbn [Vec4.x Vec4.y Vec4.z].
  rewrite sin_PI2, cos_PI2. intros Heq.
  apply (f_equal Vec3.y) in Heq. cbn in Heq. lra.
Qed.

(** C1 (amended). In exact arithmetic, for every angle [th],
    [create_rotation_z(th)] times the free vector [(1, 0, 0)] (w = 0) is
    [(cos th, sin th, 0)], the first stored column; the stored matrix has
    [e[0][1] = sin th] and [e[1][0] = -sin th]. *)
Theorem rotation_z_maps_x_axis (th : R) :
  let m := Mat4.create_rotation_z th in
  let v := Mat4.mul_vec m (direction (Vec3.mk 1 0 0)%R) in
  Vec4.xyz v = Vec3.mk (Rtrigo_def.cos th) (Rtrigo_def.sin th) 0%R /\
  Vec4.w v = 0%R /\
  Mat4.e m 0 1 = Rtrigo_def.sin th /\
  Mat4.e m 1 0 = (- Rtrigo_def.sin th)%R.
Proof.
  cbv zeta.
  change (direction (Vec3.mk 1 0 0)%R) with (Vec4.mk 1 0 0 0)%R.
  rewrite rotation_z_times_x_axis. repeat split; reflexivity.
Qed.

(** The same product in binary32, for any C library whose [sin] and [cos]
    return finite data at [th]: the result is again [(cos th, sin th, 0, 0)],
    up to the sign of a zero. *)
Lemma rotation_z_times_x_axis_binary32
    (L : Libm Binary32.f32) (th : Binary32.f32) :
  Binary32.valid (sin th) = true -> Binary32.valid (cos th) = true ->
  Binary32.is_finite (sin th) = true -> Binary32.is_finite (cos th) = true ->
  let v := Mat4.mul_vec (Mat4.create_rotation_z th)
                        (direction (Vec3.mk 1 0 0)%f32) in
  F32Spec.same_number (Vec4.x v) (cos th) /\
  F32Spec.same_number (Vec4.y v) (sin th) /\
  Vec4.z v = S754_zero false /\ Vec4.w v = S754_zero false.
Proof.
  intros Vs Vc Fs Fc. cbv zeta.
  rewrite create_rotation_z_columns. kernel_unfold.
  assert (Hz : F32Spec.is_zero (0 * 0)%f32 = true) by reflexivity.
  assert (Fns : Binary32.is_finite (- sin th)%f32 = true).
  { destruct (sin th); try discriminate; reflexivity. }
  repeat split.
  - do 2 (apply fadd_zero_r; [|exact Hz]).
    apply fadd_zero_r; [|now apply fmul_zero_r].
    rewrite (fmul_one_r _ Vc). apply same_number_refl.
  - do 2 (apply fadd_zero_r; [|exact Hz]).
    apply fadd_zero_r; [|now apply fmul_zero_r].
    rewrite (fmul_one_r _ Vs). apply same_number_refl.
Qed.

(** ** mul_trans_point *)

(** In exact arithmetic the fast path is the general product, for every
    matrix. *)
Lemma mul_trans_point_exact (a : Mat4.Mat4 R) (p : Vec3.Vec3 R) :
  Mat4.mul_trans_point a p = Vec4.xyz (Mat4.mul_vec a (point p)).
Proof.
  destruct_mat a. destruct p as [px py pz].
  kernel_unfold. real_unfold. f_equal; ring.
Qed.

(** C9. For every [Mat4 a] of binary32 data, with no affine precondition,
    and every [Vec3 p], [mul_trans_point(a, p)] is bit for bit the [x, y, z]
    of the general product [a * Vec4(p.x, p.y, p.z, 1)]: the fast path only
    skips the multiplication of the last column by [1.0f]. *)
Theorem mul_trans_point_refines_mul_vec
    (a : Mat4.Mat4 Binary32.f32) (p : Vec3.Vec3 Binary32.f32) :
  F32Spec.valid_vec4 (Mat4.columns a 3) = true ->
  Mat4.mul_trans_point a p = Vec4.xyz (Mat4.mul_vec a (point p)).
Proof.
  destruct_mat a. destruct p as [px py pz].
  unfold F32Spec.valid_vec4.
  cbn [Mat4.columns Mat4.c3 Vec4.x Vec4.y Vec4.z Vec4.w].
  intros Hv. repeat (apply andb_prop in Hv; destruct Hv as [Hv ?]).
  kernel_unfold.
  rewrite !fmul_one_r by assumption. reflexivity.
Qed.

Lemma mul_trans_point_refines_mul_vec_witness :
  F32Spec.valid_vec4 (Mat4.columns F32Spec.dense 3) = true /\
  Mat4.mul_trans_point F32Spec.dense F32Spec.camera_pos
  = Vec4.xyz (Mat4.mul_vec F32Spec.dense (point F32Spec.camera_pos)).
Proof.
  split; [reflexivity|].
  apply (mul_trans_point_refines_mul_vec F32Spec.dense F32Spec.camera_pos).
  reflexivity.
Defined.

(** ** cross (Vec4) *)

(** The four lanes the shuffle sequence computes, over any scalar
    arithmetic. *)
Lemma cross4_lanes (F : Type) (S : Scalar F) (a b : Vec4.Vec4 F) :
  Vec4Ops.cross a b
  = Vec4.mk ((Vec4.y a * Vec4.z b) - (Vec4.z a * Vec4.y b))%f32
            ((Vec4.z a * Vec4.x b) - (Vec4.x a * Vec4.z b))%f32
            ((Vec4.x a * Vec4.y b) - (Vec4.y a * Vec4.x b))%f32
            ((Vec4.w a * Vec4.w b) - (Vec4.w a * Vec4.w b))%f32.
Proof. reflexivity. Qed.

(** C10. For all binary32 [Vec4] inputs [a] and [b] whose [w] components
    have a finite product, the [w] lane of [cross(a, b)] is
    [a.w * b.w - a.w * b.w], which is exactly [+0]. *)
Theorem cross4_w_is_zero (a b : Vec4.Vec4 Binary32.f32) :
  Binary32.is_finite (Vec4.w a * Vec4.w b)%f32 = true ->
  Vec4.w (Vec4Ops.cross a b) = ((Vec4.w a * Vec4.w b) - (Vec4.w a * Vec4.w b))%f32 /\
  Vec4.w (Vec4Ops.cross a b) = 0%f32.
Proof.
  intros Hf. rewrite cross4_lanes. cbn [Vec4.w].
  split; [reflexivity|]. now rewrite fsub_diag.
Qed.

Lemma cross4_w_is_zero_witness :
  Binary32.is_finite
    (Vec4.w (Mat4.columns F32Spec.dense 0) * Vec4.w (Mat4.columns F32Spec.dense 3))%f32 = true /\
  Vec4.w (Vec4Ops.cross (Mat4.columns F32Spec.dense 0) (Mat4.columns F32Spec.dense 3))
  = S754_zero false.
Proof.
  split; [reflexivity|].
  apply (cross4_w_is_zero (Mat4.columns F32Spec.dense 0) (Mat4.columns F32Spec.dense 3)).
  reflexivity.
Defined.

(** Without the finiteness of the product the lane is a NaN: here
    [a.w * b.w] overflows to infinity and [inf - inf] is NaN. *)
Lemma cross4_w_nan_on_overflow :
  let a := Vec4.mk (F32Spec.i32 1) (F32Spec.i32 0) (F32Spec.i32 0) (F32Spec.pow2 64) in
  Vec4.w (Vec4Ops.cross a a) = S754_nan.
Proof. vm_compute. reflexivity. Qed.

(** ** mul_trans *)

(** In exact arithmetic: the fast product is the general one as soon as the
    bottom row of [b] is zero in its first three columns. *)
Lemma mul_trans_exact (a b : Mat4.Mat4 R) :
  affine_inv b = true -> Mat4.mul_trans a b = Mat4.mul a b.
Proof.
  destruct_mat a. destruct_mat b.
  cbv [affine_inv bottom_row_0001 Mat4.e Mat4.columns Vec4.e
       Mat4.c0 Mat4.c1 Mat4.c2 Mat4.c3 Vec4.w feqb of_Z Exact.scalar].
  intros Hb. apply andb_prop in Hb. destruct Hb as [Hb _].
  repeat (apply andb_prop in Hb; destruct Hb as [Hb ?]).
  repeat match goal with
         | H : (if Req_dec_T ?u ?v then true else false) = true |- _ =>
             destruct (Req_dec_T u v); [subst | discriminate H]; clear H
         end.
  kernel_unfold. real_unfold. f_equal; f_equal; ring.
Qed.

(** One lane of a column product: the skipped term is a finite number
    times a zero. *)
Lemma skipped_term_is_zero (t a w : Binary32.f32) :
  Binary32.is_finite a = true -> F32Spec.is_zero w = true ->
  F32Spec.same_number t (t + a * w)%f32.
Proof.
  intros Ha Hw. apply same_number_sym, fadd_zero_r.
  - apply same_number_refl.
  - now apply fmul_zero_r.
Qed.

(** The binary32 statement under its weakest hypotheses: the translation
    column of [a] is finite and the bottom row of [b] is zero in columns
    0 to 2. *)
Lemma mul_trans_same_number (a b : Mat4.Mat4 Binary32.f32) :
  F32Spec.finite_vec4 (Mat4.columns a 3) = true ->
  bottom_row_0001 b = true ->
  entrywise F32Spec.same_number (Mat4.mul_trans a b) (Mat4.mul a b).
Proof.
  destruct_mat a. destruct_mat b.
  unfold F32Spec.finite_vec4, bottom_row_0001.
  cbn [Mat4.e Mat4.columns Vec4.e Vec4.x Vec4.y Vec4.z Vec4.w
       Mat4.c0 Mat4.c1 Mat4.c2 Mat4.c3].
  intros Ha Hb.
  repeat (apply andb_prop in Ha; destruct Ha as [Ha ?]).
  repeat (apply andb_prop in Hb; destruct Hb as [Hb ?]).
  repeat match goal with
         | H : feqb _ 0%f32 = true |- _ => apply feqb_0_is_zero in H
         end.
  intros i j Hi Hj.
  destruct i as [|[|[|[|i]]]]; try lia;
    (destruct j as [|[|[|[|j]]]]; try lia);
    kernel_unfold;
    first [ apply same_number_refl | now apply skipped_term_is_zero ].
Qed.

(** C5. For every pair of binary32 matrices [a] and [b] with finite entries
    that both satisfy the affine invariant (bottom row exactly [0,0,0,1],
    shear-free upper-left 3x3 block), every entry of [mul_trans(a, b)]
    denotes the same number as the entry of the general product [a * b]:
    the two agree with tolerance zero. *)
Theorem mul_trans_refines_mul (a b : Mat4.Mat4 Binary32.f32) :
  F32Spec.finite_mat a = true -> F32Spec.finite_mat b = true ->
  affine_inv a = true -> affine_inv b = true ->
  entrywise F32Spec.same_number (Mat4.mul_trans a b) (Mat4.mul a b).
Proof.
  intros Fa _ _ Ab.
  apply mul_trans_same_number.
  - unfold F32Spec.finite_mat in Fa.
    apply andb_prop in Fa. destruct Fa as [_ Fa]. exact Fa.
  - unfold affine_inv in Ab. apply andb_prop in Ab. tauto.
Qed.

Lemma mul_trans_refines_mul_witness :
  F32Spec.finite_mat F32Spec.scale_translate = true /\
  F32Spec.finite_mat F32Spec.turn_translate = true /\
  affine_inv F32Spec.scale_translate = true /\
  affine_inv F32Spec.turn_translate = true /\
  entrywise F32Spec.same_number
    (Mat4.mul_trans F32Spec.scale_translate F32Spec.turn_translate)
    (Mat4.mul F32Spec.scale_translate F32Spec.turn_translate).
Proof.
  repeat split; try reflexivity.
  apply (mul_trans_refines_mul F32Spec.scale_translate F32Spec.turn_translate);
    reflexivity.
Defined.

(** With an infinite translation the general product meets [inf * 0] and
    yields NaN where the fast path does not. *)
Lemma mul_trans_infinite_translation :
  let a := Mat4.mk_mat (Vec4.mk 1 0 0 0)%f32 (Vec4.mk 0 1 0 0)%f32
                       (Vec4.mk 0 0 1 0)%f32
                       (Vec4.mk (S754_infinity false) 0 0 1)%f32 in
  Mat4.e (Mat4.mul_trans a identity) 0 0 = 1%f32 /\
  Mat4.e (Mat4.mul a identity) 0 0 = S754_nan.
Proof. vm_compute. split; reflexivity. Qed.

(** ** det and inverse *)

Lemma det_mul (a b : Mat4.Mat4 R) :
  Mat4.det (Mat4.mul a b) = (Mat4.det a * Mat4.det b)%R.
Proof.
  destruct_mat a. destruct_mat b. kernel_unfold. real_unfold. ring.
Qed.

Lemma det_identity : Mat4.det (identity : Mat4.Mat4 R) = 1%R.
Proof. kernel_unfold. real_unfold. ring. Qed.

Lemma mul_inverse_r (a : Mat4.Mat4 R) :
  Mat4.det a <> 0%R -> Mat4.mul a (Mat4.inverse a) = identity.
Proof.
  destruct_mat a. kernel_unfold. real_unfold. intros Hd.
  unfold Rdiv. rewrite Rmult_1_l.
  match goal with
  | |- context [ Rinv ?d ] =>
      pose proof (Rinv_r d Hd) as Hid; revert Hid; generalize (Rinv d)
  end.
  intros i Hi.
  f_equal; f_equal;
    first [ ring | rewrite <- Hi; ring ].
Qed.

(** C3 (amended). In exact arithmetic, for every 4x4 matrix [a] with
    non-zero determinant, [a * inverse(a)] is the identity matrix and
    [det(a) * det(inverse(a)) = 1]. *)
Theorem inverse_is_right_inverse (a : Mat4.Mat4 R) :
  Mat4.det a <> 0%R ->
  Mat4.mul a (Mat4.inverse a) = identity /\
  (Mat4.det a * Mat4.det (Mat4.inverse a))%R = 1%R.
Proof.
  intros Hd. split.
  - now apply mul_inverse_r.
  - rewrite <- det_mul, mul_inverse_r by assumption. apply det_identity.
Qed.

Lemma inverse_is_right_inverse_witness :
  Mat4.det ExactSpec.scale_translate <> 0%R /\
  Mat4.mul ExactSpec.scale_translate (Mat4.inverse ExactSpec.scale_translate)
  = identity /\
  (Mat4.det ExactSpec.scale_translate
   * Mat4.det (Mat4.inverse ExactSpec.scale_translate))%R = 1%R.
Proof.
  assert (Hd : Mat4.det ExactSpec.scale_translate <> 0%R).
  { unfold ExactSpec.scale_translate. kernel_unfold. real_unfold. lra. }
  split; [exact Hd|].
  apply (inverse_is_right_inverse ExactSpec.scale_translate Hd).
Defined.

(** In binary32 the Hilbert matrix has a non-zero computed determinant, yet
    [a * inverse(a)] misses the identity by more than 1e-4: the entry in
    column 2, row 0 is [-2^-9], about -0.00195, instead of 0.  The product
    of the two determinants is about 1.0012. *)
Lemma hilbert_inverse_exceeds_tolerance :
  (Mat4.det F32Spec.hilbert != 0)%f32 = true /\
  F32Spec.finite_mat F32Spec.hilbert = true /\
  entrywiseb (F32Spec.within_tol F32Spec.tol_1e4)
    (Mat4.mul F32Spec.hilbert (Mat4.inverse F32Spec.hilbert)) identity = false /\
  Mat4.e (Mat4.mul F32Spec.hilbert (Mat4.inverse F32Spec.hilbert)) 2 0
  = S754_finite true 8388608 (-32) /\
  (Mat4.det F32Spec.hilbert * Mat4.det (Mat4.inverse F32Spec.hilbert))%f32
  = S754_finite false 8398797 (-23).
Proof. vm_compute. repeat split; reflexivity. Qed.

(** When the determinant overflows, [inv_det] is zero and the inverse is
    filled with NaN. *)
Lemma diag_huge_inverse_is_nan :
  Mat4.det F32Spec.diag_huge = S754_infinity false /\
  Mat4.e (Mat4.mul F32Spec.diag_huge (Mat4.inverse F32Spec.diag_huge)) 2 2
  = S754_nan.
Proof. vm_compute. split; reflexivity. Qed.

(** ** normalize *)

(** A sum of squares scaled by the inverse square of its root is one. *)
Lemma scaled_sum_of_squares (s l : R) :
  (0 < s)%R -> l = R_sqrt.sqrt s -> (s * (1 / l) * (1 / l))%R = 1%R.
Proof.
  intros Hs ->.
  assert (0 < R_sqrt.sqrt s)%R by now apply sqrt_lt_R0.
  rewrite <- (sqrt_sqrt s) at 1 by lra. field. lra.
Qed.

Lemma normalize2_unit (v : Vec2.Vec2 R) :
  v <> Vec2.zero -> Vec2.length_vec (Vec2.normalize v) = 1%R.
Proof.
  destruct v as [x y]. intros Hv.
  assert (Hs : (0 < x * x + y * y)%R).
  { destruct (Rlt_le_dec 0 (x * x + y * y)) as [|Hle]; [assumption|].
    exfalso. apply Hv.
    assert (x = 0%R) by nra. assert (y = 0%R) by nra. subst. reflexivity. }
  normalize_unfold.
  set (l := R_sqrt.sqrt (x * x + y * y)).
  assert (Hl : (0 < l)%R) by now apply sqrt_lt_R0.
  destruct (Req_dec_T l 0) as [E | _]; [lra|]. cbn [negb].
  transitivity (R_sqrt.sqrt 1); [f_equal | apply sqrt_1].
  transitivity ((x * x + y * y) * (1 / l) * (1 / l))%R; [unfold Rdiv; ring|].
  now apply scaled_sum_of_squares.
Qed.

Lemma normalize3_unit (v : Vec3.Vec3 R) :
  v <> Vec3.zero -> Vec3.length_vec (Vec3.normalize v) = 1%R.
Proof.
  destruct v as [x y z]. intros Hv.
  assert (Hs : (0 < x * x + y * y + z * z)%R).
  { destruct (Rlt_le_dec 0 (x * x + y * y + z * z)) as [|Hle]; [assumption|].
    exfalso. apply Hv.
    assert (x = 0%R) by nra. assert (y = 0%R) by nra. assert (z = 0%R) by nra.
    subst. reflexivity. }
  normalize_unfold.
  set (l := R_sqrt.sqrt (x * x + y * y + z * z)).
  assert (Hl : (0 < l)%R) by now apply sqrt_lt_R0.
  destruct (Req_dec_T l 0) as [E | _]; [lra|]. cbn [negb].
  transitivity (R_sqrt.sqrt 1); [f_equal | apply sqrt_1].
  transitivity ((x * x + y * y + z * z) * (1 / l) * (1 / l))%R; [unfold Rdiv; ring|].
  now apply scaled_sum_of_squares.
Qed.

Lemma normalize4_unit (v : Vec4.Vec4 R) :
  v <> Vec4Ops.zero -> Vec4Ops.length_vec (Vec4Ops.normalize v) = 1%R.
Proof.
  destruct v as [x y z w]. intros Hv.
  assert (Hs : (0 < x * x + y * y + z * z + w * w)%R).
  { destruct (Rlt_le_dec 0 (x * x + y * y + z * z + w * w)) as [|Hle];
      [assumption|].
    exfalso. apply Hv.
    assert (x = 0%R) by nra. assert (y = 0%R) by nra.
    assert (z = 0%R) by nra. assert (w = 0%R) by nra.
    subst. reflexivity. }
  normalize_unfold.
  set (l := R_sqrt.sqrt (x * x + y * y + z * z + w * w)).
  assert (Hl : (0 < l)%R) by now apply sqrt_lt_R0.
  destruct (Req_dec_T l 0) as [E | _]; [lra|]. cbn [negb].
  transitivity (R_sqrt.sqrt 1); [f_equal | apply sqrt_1].
  transitivity ((x * x + y * y + z * z + w * w) * (1 / l) * (1 / l))%R; [unfold Rdiv; ring|].
  now apply scaled_sum_of_squares.
Qed.

(** The guard of [normalize] is on the computed length; when it compares
    equal to zero the zero vector is returned whatever the division is. *)
Lemma normalize2_guard (F : Type) (S : Scalar F) (d : F -> F -> F) (v : Vec2.Vec2 F) :
  feqb (Vec2.length_vec v) 0%f32 = true ->
  @Vec2.normalize F (with_fdiv S d) v = Vec2.zero.
Proof.
  intros Hg. unfold Vec2.normalize.
  change (@feqb F (with_fdiv S d) (@Vec2.length_vec F (with_fdiv S d) v)
                (@of_Z F (with_fdiv S d) 0))
    with (feqb (Vec2.length_vec v) 0%f32).
  rewrite Hg. reflexivity.
Qed.

Lemma normalize3_guard (F : Type) (S : Scalar F) (d : F -> F -> F) (v : Vec3.Vec3 F) :
  feqb (Vec3.length_vec v) 0%f32 = true ->
  @Vec3.normalize F (with_fdiv S d) v = Vec3.zero.
Proof.
  intros Hg. unfold Vec3.normalize.
  change (@feqb F (with_fdiv S d) (@Vec3.length_vec F (with_fdiv S d) v)
                (@of_Z F (with_fdiv S d) 0))
    with (feqb (Vec3.length_vec v) 0%f32).
  rewrite Hg. reflexivity.
Qed.

Lemma normalize4_guard (F : Type) (S : Scalar F) (d : F -> F -> F) (v : Vec4.Vec4 F) :
  feqb (Vec4Ops.length_vec v) 0%f32 = true ->
  @Vec4Ops.normalize F (with_fdiv S d) v = Vec4Ops.zero.
Proof.
  intros Hg. unfold Vec4Ops.normalize.
  change (@feqb F (with_fdiv S d) (@Vec4Ops.length_vec F (with_fdiv S d) v)
                (@of_Z F (with_fdiv S d) 0))
    with (feqb (Vec4Ops.length_vec v) 0%f32).
  rewrite Hg. reflexivity.
Qed.

(** The zero vector has computed length zero, in both arithmetics. *)
Lemma length_zero_binary32 :
  feqb (Vec2.length_vec (Vec2.zero : Vec2.Vec2 Binary32.f32)) 0%f32 = true /\
  feqb (Vec3.length_vec (Vec3.zero : Vec3.Vec3 Binary32.f32)) 0%f32 = true /\
  feqb (Vec4Ops.length_vec (Vec4Ops.zero : Vec4.Vec4 Binary32.f32)) 0%f32 = true.
Proof. repeat split; reflexivity. Qed.

Lemma length_zero_exact :
  feqb (Vec2.length_vec (Vec2.zero : Vec2.Vec2 R)) 0%f32 = true /\
  feqb (Vec3.length_vec (Vec3.zero : Vec3.Vec3 R)) 0%f32 = true /\
  feqb (Vec4Ops.length_vec (Vec4Ops.zero : Vec4.Vec4 R)) 0%f32 = true.
Proof.
  assert (E : forall s : R, s = 0%R ->
              (if Req_dec_T (R_sqrt.sqrt s) 0 then true else false) = true).
  { intros s ->. rewrite sqrt_0. now destruct (Req_dec_T 0 0). }
  repeat split; normalize_unfold; apply E; ring.
Qed.

(** C6 (amended). [normalize] tests the computed length, not [v].  In exact
    arithmetic, for every non-zero [v] ([Vec2], [Vec3] or [Vec4]),
    [normalize(v)] has length exactly 1.  In exact arithmetic and in
    binary32 alike, the zero vector has computed length zero, and whenever
    the computed length compares equal to zero [normalize] returns the zero
    vector whatever the division does: no division is performed. *)
Theorem normalize_unit_or_zero
    (v2 : Vec2.Vec2 R) (v3 : Vec3.Vec3 R) (v4 : Vec4.Vec4 R) :
  v2 <> Vec2.zero -> v3 <> Vec3.zero -> v4 <> Vec4Ops.zero ->
  (Vec2.length_vec (Vec2.normalize v2) = 1%R /\
   Vec3.length_vec (Vec3.normalize v3) = 1%R /\
   Vec4Ops.length_vec (Vec4Ops.normalize v4) = 1%R) /\
  (forall d : R -> R -> R,
     @Vec2.normalize R (with_fdiv Exact.scalar d) Vec2.zero = Vec2.zero /\
     @Vec3.normalize R (with_fdiv Exact.scalar d) Vec3.zero = Vec3.zero /\
     @Vec4Ops.normalize R (with_fdiv Exact.scalar d) Vec4Ops.zero = Vec4Ops.zero) /\
  (forall d : Binary32.f32 -> Binary32.f32 -> Binary32.f32,
     @Vec2.normalize _ (with_fdiv Binary32.scalar d) Vec2.zero = Vec2.zero /\
     @Vec3.normalize _ (with_fdiv Binary32.scalar d) Vec3.zero = Vec3.zero /\
     @Vec4Ops.normalize _ (with_fdiv Binary32.scalar d) Vec4Ops.zero = Vec4Ops.zero) /\
  (forall (d : Binary32.f32 -> Binary32.f32 -> Binary32.f32)
          (w2 : Vec2.Vec2 Binary32.f32) (w3 : Vec3.Vec3 Binary32.f32)
          (w4 : Vec4.Vec4 Binary32.f32),
     (feqb (Vec2.length_vec w2) 0%f32 = true ->
      @Vec2.normalize _ (with_fdiv Binary32.scalar d) w2 = Vec2.zero) /\
     (feqb (Vec3.length_vec w3) 0%f32 = true ->
      @Vec3.normalize _ (with_fdiv Binary32.scalar d) w3 = Vec3.zero) /\
     (feqb (Vec4Ops.length_vec w4) 0%f32 = true ->
      @Vec4Ops.normalize _ (with_fdiv Binary32.scalar d) w4 = Vec4Ops.zero)).
Proof.
  intros H2 H3 H4. split; [|split; [|split]].
  - auto using normalize2_unit, normalize3_unit, normalize4_unit.
  - intros d. destruct length_zero_exact as (E2 & E3 & E4).
    split; [|split];
      [ now apply normalize2_guard | now apply normalize3_guard
      | now apply normalize4_guard ].
  - intros d. destruct length_zero_binary32 as (E2 & E3 & E4).
    split; [|split];
      [ now apply normalize2_guard | now apply normalize3_guard
      | now apply normalize4_guard ].
  - intros d w2 w3 w4. split; [|split]; intros Hg;
      [ now apply normalize2_guard | now apply normalize3_guard
      | now apply normalize4_guard ].
Qed.

Lemma normalize_unit_or_zero_witness :
  ExactSpec.v34 <> Vec2.zero /\ ExactSpec.v122 <> Vec3.zero /\
  ExactSpec.v1111 <> Vec4Ops.zero /\
  Vec2.length_vec (Vec2.normalize ExactSpec.v34) = 1%R /\
  Vec3.length_vec (Vec3.normalize ExactSpec.v122) = 1%R /\
  Vec4Ops.length_vec (Vec4Ops.normalize ExactSpec.v1111) = 1%R.
Proof.
  assert (H2 : ExactSpec.v34 <> Vec2.zero).
  { intros E. apply (f_equal Vec2.x) in E. cbn in E. lra. }
  assert (H3 : ExactSpec.v122 <> Vec3.zero).
  { intros E. apply (f_equal Vec3.x) in E. cbn in E. lra. }
  assert (H4 : ExactSpec.v1111 <> Vec4Ops.zero).
  { intros E. apply (f_equal Vec4.x) in E. cbn in E. lra. }
  split; [exact H2|]. split; [exact H3|]. split; [exact H4|].
  apply (normalize_unit_or_zero ExactSpec.v34 ExactSpec.v122 ExactSpec.v1111
           H2 H3 H4).
Defined.

(** In binary32 the vector [(2^-80, 0, 0)] is not zero, but its squared
    length underflows: the computed length is zero, [normalize] returns the
    zero vector, and the length of the result is 0, not 1. *)
Lemma normalize_tiny_is_not_unit :
  F32Spec.tiny3 <> Vec3.zero /\
  (Vec3.x F32Spec.tiny3 != 0)%f32 = true /\
  F32Spec.finite_vec3 F32Spec.tiny3 = true /\
  Vec3.normalize F32Spec.tiny3 = Vec3.zero /\
  Vec3.length_vec (Vec3.normalize F32Spec.tiny3) = 0%f32 /\
  F32Spec.within_tol F32Spec.tol_1e5
    (Vec3.length_vec (Vec3.normalize F32Spec.tiny3)) 1%f32 = false.
Proof.
  split; [intros E; apply (f_equal Vec3.x) in E; discriminate E|].
  vm_compute. repeat split; reflexivity.
Qed.

(** The same happens at the other end of the range: the squared length of
    [(2^70, 0, 0)] overflows, the reciprocal of the infinite length is zero,
    and the result is the zero vector. *)
Lemma normalize_huge_is_zero :
  Vec3.normalize (Vec3.mk (F32Spec.pow2 70) (F32Spec.i32 0) (F32Spec.i32 0))
  = Vec3.zero.
Proof. vm_compute. reflexivity. Qed.

(** An ordinary input: the binary32 camera direction normalises to length
    exactly [1.0f]. *)
Lemma normalize_camera_unit :
  Vec3.length_vec (Vec3.normalize F32Spec.camera_pos) = 1%f32.
Proof. vm_compute. reflexivity. Qed.

(** ** mod_pi *)

(** [(s32)x] in exact arithmetic, for [x] between two consecutive
    non-negative 32-bit integers. *)
Lemma to_s32_floor (x : R) (k : Z) :
  (0 <= k < 2 ^ 31)%Z -> (IZR k <= x < IZR k + 1)%R -> Exact.to_s32 x = k.
Proof.
  intros Hk Hx. unfold Exact.to_s32, Exact.Rtrunc.
  assert (H0 : (0 <= IZR k)%R) by (apply IZR_le; lia).
  destruct (Rle_dec 0 x) as [_ | N]; [|lra].
  assert (E : Int_part x = k) by (symmetry; apply Int_part_spec; lra).
  rewrite E. unfold Binary32.in_s32, Binary32.s32_min, Binary32.s32_max.
  replace ((- 2 ^ 31 <=? k)%Z && (k <=? 2 ^ 31 - 1)%Z) with true; [reflexivity|].
  symmetry. apply andb_true_intro. split; apply Z.leb_le; lia.
Qed.

(** The value of [mod_pi] once the quotient [k] is known. *)
Lemma mod_pi_quotient (a : R) (k : Z) :
  (0 <= k < 2 ^ 31)%Z ->
  (IZR k <= Rabs (a + PI) / (2 * PI) < IZR k + 1)%R ->
  mod_pi a = if Rlt_dec (a + PI) 0
             then (- (Rabs (a + PI) - 2 * PI * IZR k - PI))%R
             else (Rabs (a + PI) - 2 * PI * IZR k - PI)%R.
Proof.
  intros Hk Hx. unfold mod_pi, f32_of_s32_of.
  cbv [fadd fsub fmul fdiv fneg fabsf fltb of_Z PI32 to_s32 Exact.scalar
       Exact.pi32].
  rewrite (to_s32_floor _ k Hk Hx).
  destruct (Rlt_dec (a + PI) 0); reflexivity.
Qed.

Lemma quotient_exists (t : R) :
  (0 <= t)%R -> (t / (2 * PI) < 2147483648)%R ->
  exists k : Z, (0 <= k < 2 ^ 31)%Z /\ (IZR k <= t / (2 * PI) < IZR k + 1)%R.
Proof.
  intros Ht Hq. pose proof PI_RGT_0 as Hpi.
  assert (Hx : (0 <= t / (2 * PI))%R).
  { apply Rmult_le_pos; [exact Ht|]. apply Rlt_le, Rinv_0_lt_compat. lra. }
  destruct (base_Int_part (t / (2 * PI))) as [Hlo Hhi].
  exists (Int_part (t / (2 * PI))). split; [|lra]. split.
  - assert (IZR (-1) < IZR (Int_part (t / (2 * PI))))%R by lra.
    apply lt_IZR in H. lia.
  - apply lt_IZR. change (IZR (2 ^ 31)) with 2147483648%R. lra.
Qed.

(** The remainder left after removing [k] full turns. *)
Lemma remainder_bounds (t : R) (k : Z) :
  (IZR k <= t / (2 * PI) < IZR k + 1)%R ->
  (0 <= t - 2 * PI * IZR k < 2 * PI)%R.
Proof.
  intros [Hlo Hhi]. pose proof PI_RGT_0 as Hpi.
  assert (E : t = (t / (2 * PI) * (2 * PI))%R) by (field; lra).
  set (x := (t / (2 * PI))%R) in *. rewrite E. split; nra.
Qed.

Lemma mod_pi_range_shifted_nonneg (a : R) :
  (0 <= a + PI)%R -> ((a + PI) / (2 * PI) < 2147483648)%R ->
  (- PI <= mod_pi a < PI)%R.
Proof.
  intros Ht Hq.
  destruct (quotient_exists _ Ht Hq) as (k & Hk & Hx).
  pose proof (remainder_bounds _ _ Hx) as Hr.
  rewrite (mod_pi_quotient a k Hk) by (rewrite Rabs_pos_eq; assumption).
  rewrite Rabs_pos_eq by assumption.
  destruct (Rlt_dec (a + PI) 0); lra.
Qed.

(** On the other side the sign is restored by a negation, which mirrors
    the interval: the result lies in [(-pi, pi]]. *)
Lemma mod_pi_range_shifted_neg (a : R) :
  (a + PI < 0)%R -> (- (a + PI) / (2 * PI) < 2147483648)%R ->
  (- PI < mod_pi a <= PI)%R.
Proof.
  intros Ht Hq.
  assert (Ht' : (0 <= - (a + PI))%R) by lra.
  destruct (quotient_exists _ Ht' Hq) as (k & Hk & Hx).
  pose proof (remainder_bounds _ _ Hx) as Hr.
  assert (Ea : Rabs (a + PI) = (- (a + PI))%R) by (apply Rabs_left; lra).
  rewrite (mod_pi_quotient a k Hk) by (rewrite Ea; assumption).
  rewrite Ea. destruct (Rlt_dec (a + PI) 0); lra.
Qed.

Lemma mod_pi_3pi_exact : mod_pi (3 * PI)%R = (- PI)%R.
Proof.
  pose proof PI_RGT_0 as Hpi.
  assert (Ea : Rabs (3 * PI + PI) = (4 * PI)%R).
  { rewrite Rabs_pos_eq; lra. }
  rewrite (mod_pi_quotient (3 * PI) 2).
  - rewrite Ea. destruct (Rlt_dec (3 * PI + PI) 0); lra.
  - lia.
  - rewrite Ea. replace (4 * PI / (2 * PI))%R with 2%R by (field; lra). lra.
Qed.

Lemma mod_pi_minus_3pi_exact : mod_pi (- (3 * PI))%R = PI.
Proof.
  pose proof PI_RGT_0 as Hpi.
  assert (Ea : Rabs (- (3 * PI) + PI) = (2 * PI)%R).
  { rewrite Rabs_left; lra. }
  rewrite (mod_pi_quotient (- (3 * PI)) 1).
  - rewrite Ea. destruct (Rlt_dec (- (3 * PI) + PI) 0); lra.
  - lia.
  - rewrite Ea. replace (2 * PI / (2 * PI))%R with 1%R by (field; lra). lra.
Qed.

(** The binary32 values at the angles of the spec.  [3 * PI32] rounds to
    [9882596 * 2^-20]; adding [PI32] gives exactly [4 * PI32], the quotient
    is exactly 2 and the result is exactly [-PI32]. *)
Lemma mod_pi_3pi_binary32 :
  F32Spec.three_pi = S754_finite false 9882596 (-20) /\
  mod_pi F32Spec.three_pi = (- PI32)%f32.
Proof. vm_compute. split; reflexivity. Qed.

(** [-3 * PI32 + PI32] rounds to [-13176794 * 2^-21], just above
    [-2 * PI32]; the quotient truncates to 0 and the result is
    [-13176793 * 2^-22], two units in the last place above [-PI32]. *)
Lemma mod_pi_minus_3pi_binary32 :
  mod_pi (- F32Spec.three_pi)%f32 = S754_finite true 13176793 (-22) /\
  F32Spec.within_tol F32Spec.tol_1e5
    (mod_pi (- F32Spec.three_pi)%f32) (- PI32)%f32 = true.
Proof. vm_compute. split; reflexivity. Qed.

(** C2 (amended). In exact arithmetic, for every angle [a] with
    [a + pi >= 0] whose quotient by [2 pi] fits a 32-bit integer,
    [mod_pi(a)] lies in [[-pi, pi)]; in particular [mod_pi(3 pi) = -pi],
    the closed end of the interval.  In binary32, [mod_pi(3 * PI32)] is
    exactly [-PI32] and [mod_pi(-3 * PI32)] is within 1e-5 of [-PI32]. *)
Theorem mod_pi_range_and_examples (a : R) :
  (0 <= a + PI)%R -> ((a + PI) / (2 * PI) < 2147483648)%R ->
  (- PI <= mod_pi a < PI)%R /\
  mod_pi (3 * PI)%R = (- PI)%R /\
  mod_pi F32Spec.three_pi = (- PI32)%f32 /\
  F32Spec.within_tol F32Spec.tol_1e5
    (mod_pi (- F32Spec.three_pi)%f32) (- PI32)%f32 = true.
Proof.
  intros Ht Hq. split; [now apply mod_pi_range_shifted_nonneg|].
  split; [exact mod_pi_3pi_exact|].
  split; [exact (proj2 mod_pi_3pi_binary32)|].
  exact (proj2 mod_pi_minus_3pi_binary32).
Qed.

Lemma mod_pi_range_and_examples_witness :
  (0 <= 1 + PI)%R /\ ((1 + PI) / (2 * PI) < 2147483648)%R /\
  (- PI <= mod_pi 1%R < PI)%R.
Proof.
  pose proof PI2_1 as Hpi.
  assert (Ht : (0 <= 1 + PI)%R) by lra.
  assert (Hq : ((1 + PI) / (2 * PI) < 2147483648)%R).
  { apply Rmult_lt_reg_r with (2 * PI)%R; [lra|].
    unfold Rdiv. rewrite Rmult_assoc, Rinv_l by lra. lra. }
  split; [exact Ht|]. split; [exact Hq|].
  apply (mod_pi_range_and_examples 1%R Ht Hq).
Defined.

(** In binary32, [-5 * PI32] is finite and [mod_pi] maps it to [+PI32]
    itself, which is not below [PI32]: the result is outside [[-pi, pi)].
    And [mod_pi(3 * PI32)] is [-PI32], at distance [2 pi] from [pi]. *)
Lemma mod_pi_outside_half_open_interval :
  Binary32.is_finite (- F32Spec.five_pi)%f32 = true /\
  mod_pi (- F32Spec.five_pi)%f32 = PI32 /\
  (mod_pi (- F32Spec.five_pi)%f32 <? PI32)%f32 = false /\
  mod_pi F32Spec.three_pi = (- PI32)%f32 /\
  F32Spec.within_tol F32Spec.tol_1e5 (mod_pi F32Spec.three_pi) PI32 = false.
Proof. vm_compute. repeat split; reflexivity. Qed.

(** Far from zero the subtraction of [2 pi * k] is no longer accurate:
    [mod_pi(1e9f)] is about -67.14. *)
Lemma mod_pi_1e9_binary32 :
  mod_pi (F32Spec.i32 1000000000) = S754_finite true 8800383 (-17) /\
  (mod_pi (F32Spec.i32 1000000000) <? (- PI32))%f32 = true.
Proof. vm_compute. split; reflexivity. Qed.

(** Beyond the 32-bit range the cast yields 0x80000000: [mod_pi(2^40f)] is
    about 1.1e12. *)
Lemma mod_pi_2p40_binary32 :
  to_s32 (F32Spec.pow2 40 / (2 * PI32))%f32 = Binary32.s32_min /\
  mod_pi (F32Spec.pow2 40) = S754_finite false 8491552 17.
Proof. vm_compute. split; reflexivity. Qed.

(** ** Sanity of the binary32 reading on ordinary inputs *)

(** For a well-scaled affine matrix the binary32 inverse is exact. *)
Lemma inverse_scale_translate_binary32 :
  Mat4.mul F32Spec.scale_translate (Mat4.inverse F32Spec.scale_translate)
  = identity /\
  (Mat4.det F32Spec.scale_translate
   * Mat4.det (Mat4.inverse F32Spec.scale_translate))%f32 = 1%f32.
Proof. vm_compute. split; reflexivity. Qed.

(** For the dense matrix the inverse is within 1e-4 of a right inverse. *)
Lemma inverse_dense_binary32 :
  entrywiseb (F32Spec.within_tol F32Spec.tol_1e4)
    (Mat4.mul F32Spec.dense (Mat4.inverse F32Spec.dense)) identity = true.
Proof. vm_compute. reflexivity. Qed.

(** ** More exact steps of binary32 arithmetic *)

Lemma fmul_comm (a b : Binary32.f32) : fmul a b = fmul b a.
Proof.
  destruct a as [s | s | | s m e], b as [t | t | | t n k]; cbn;
    try reflexivity; try (now rewrite xorb_comm).
  now rewrite xorb_comm, Pos.mul_comm, Z.add_comm.
Qed.

Lemma fmul_one_l (a : Binary32.f32) :
  Binary32.valid a = true -> fmul (of_Z 1) a = a.
Proof. intros Hv. rewrite fmul_comm. now apply fmul_one_r. Qed.

Lemma fmul_zero_l (a b : Binary32.f32) :
  F32Spec.is_zero a = true -> Binary32.is_finite b = true ->
  F32Spec.is_zero (fmul a b) = true.
Proof. intros Ha Hb. rewrite fmul_comm. now apply fmul_zero_r. Qed.

Lemma fadd_zeros (a b : Binary32.f32) :
  F32Spec.is_zero a = true -> F32Spec.is_zero b = true ->
  F32Spec.is_zero (fadd a b) = true.
Proof.
  destruct a as [s | | |], b as [t | | |]; try discriminate.
  intros _ _. destruct s, t; reflexivity.
Qed.

Lemma fsub_zeros (a b : Binary32.f32) :
  F32Spec.is_zero a = true -> F32Spec.is_zero b = true ->
  F32Spec.is_zero (fsub a b) = true.
Proof.
  destruct a as [s | | |], b as [t | | |]; try discriminate.
  intros _ _. destruct s, t; reflexivity.
Qed.

Lemma fneg_zero (a : Binary32.f32) :
  F32Spec.is_zero a = true -> F32Spec.is_zero (fneg a) = true.
Proof. destruct a; try discriminate. reflexivity. Qed.

Lemma fadd_zero_l (a b c : Binary32.f32) :
  F32Spec.is_zero a = true -> F32Spec.same_number b c ->
  F32Spec.same_number (fadd a b) c.
Proof.
  intros Ha Hbc. destruct a as [t | | |]; try discriminate.
  destruct Hbc as [-> | [Hb Hc]].
  - destruct c as [s | s | | s m e]; cbn.
    + right. split; [destruct s, t|]; reflexivity.
    + now left.
    + now left.
    + now left.
  - right. split; [|exact Hc].
    destruct b as [s | | |]; try discriminate.
    cbn. destruct s, t; reflexivity.
Qed.

(** Adding the same term to two data that denote the same number. *)
Lemma fadd_same_number (a b t : Binary32.f32) :
  F32Spec.same_number a b -> F32Spec.same_number (fadd a t) (fadd b t).
Proof.
  intros [-> | [Ha Hb]]; [now left|].
  destruct a as [s | | |], b as [s' | | |]; try discriminate.
  destruct t as [u | u | | u m e]; cbn.
  - right. destruct s, s', u; split; reflexivity.
  - now left.
  - now left.
  - now left.
Qed.

(** Rounding commutes with the sign. *)
Lemma binary_round_aux_opp (s : bool) (m e : Z) (l : location) :
  binary_round_aux Binary32.prec Binary32.emax (negb s) m e l
  = SFopp (binary_round_aux Binary32.prec Binary32.emax s m e l).
Proof.
  unfold binary_round_aux.
  destruct (shr_fexp _ _ m e l) as [mrs e'].
  destruct (shr_fexp _ _ _ e' loc_Exact) as [mrs' e''].
  destruct (shr_m mrs'); try reflexivity.
  destruct (e'' <=? _)%Z; reflexivity.
Qed.

Lemma fmul_neg_l (a b : Binary32.f32) : fmul (fneg a) b = fneg (fmul a b).
Proof.
  destruct a as [s | s | | s m e], b as [t | t | | t n k]; cbn;
    try reflexivity; try (now rewrite <- negb_xorb_l).
  rewrite <- negb_xorb_l. apply binary_round_aux_opp.
Qed.

(** [-p + p] is [+0] for every finite [p]. *)
Lemma fadd_opp_diag_l (a : Binary32.f32) :
  Binary32.is_finite a = true -> fadd (fneg a) a = S754_zero false.
Proof.
  destruct a as [s | s | | s m e]; cbn; try discriminate; intros _.
  - destruct s; reflexivity.
  - unfold SFadd. rewrite Z.min_id. unfold shl_align. rewrite Z.sub_diag.
    cbn [fst].
    replace (cond_Zopp (negb s) (Z.pos m) + cond_Zopp s (Z.pos m))%Z with 0%Z;
      [reflexivity|].
    unfold cond_Zopp. destruct s; cbv [negb]; lia.
Qed.

(** The order of binary32: [SFcompare] is antisymmetric, reflexive away from
    NaN, and defined on every pair without a NaN. *)
Lemma SFcompare_antisym (a b : Binary32.f32) :
  SFcompare b a = option_map CompOpp (SFcompare a b).
Proof.
  destruct a as [s | s | | s m e], b as [t | t | | t n k]; cbn;
    try reflexivity; try (destruct s, t; reflexivity);
    try (destruct s; reflexivity); try (destruct t; reflexivity).
  pose proof (Pos.compare_cont_antisym m n Eq) as A. cbn [CompOpp] in A.
  destruct s, t; cbn; try reflexivity;
    rewrite (Z.compare_antisym e k); destruct (Z.compare e k); cbn;
    try reflexivity; rewrite <- A; try rewrite CompOpp_involutive; reflexivity.
Qed.

Lemma SFcompare_refl (a : Binary32.f32) :
  Binary32.is_nan a = false -> SFcompare a a = Some Eq.
Proof.
  destruct a as [s | s | | s m e]; cbn; try discriminate; intros _.
  - reflexivity.
  - destruct s; reflexivity.
  - rewrite Z.compare_refl, Pos.compare_cont_refl. destruct s; reflexivity.
Qed.

Lemma SFcompare_some (a b : Binary32.f32) :
  Binary32.is_nan a = false -> Binary32.is_nan b = false ->
  exists c, SFcompare a b = Some c.
Proof.
  destruct a, b; cbn; try discriminate; intros _ _; eexists; reflexivity.
Qed.

Lemma fltb_false_fleb (a b : Binary32.f32) :
  Binary32.is_nan a = false -> Binary32.is_nan b = false ->
  fltb a b = false -> fleb b a = true.
Proof.
  intros Ha Hb. destruct (SFcompare_some a b Ha Hb) as [c Hc].
  cbn. unfold SFltb, SFleb. rewrite (SFcompare_antisym a b), Hc. cbn.
  destruct c; (discriminate || reflexivity).
Qed.

Lemma fleb_fltb_false (a b : Binary32.f32) : fleb a b = true -> fltb b a = false.
Proof.
  cbn. unfold SFltb, SFleb. rewrite (SFcompare_antisym a b).
  destruct (SFcompare a b) as [[| |]|]; cbn; (discriminate || reflexivity).
Qed.

Lemma fleb_refl (a : Binary32.f32) : Binary32.is_nan a = false -> fleb a a = true.
Proof. intros Ha. cbn. unfold SFleb. now rewrite SFcompare_refl. Qed.

(** Lanes that are zeros, and lanes that keep a number, through the sums
    of products of a matrix kernel. *)
Ltac zero_lane :=
  first [ reflexivity
        | assumption
        | apply fmul_zero_r; [assumption | zero_lane]
        | apply fmul_zero_l; [zero_lane | assumption]
        | apply fadd_zeros; zero_lane
        | apply fsub_zeros; zero_lane
        | apply fneg_zero; zero_lane ].

Ltac same_lane :=
  first [ apply same_number_refl
        | rewrite fmul_one_r by assumption; apply same_number_refl
        | rewrite fmul_one_l by assumption; apply same_number_refl
        | apply fadd_zero_r; [same_lane | zero_lane]
        | apply fadd_zero_l; [zero_lane | same_lane] ].

(** ** clamp, min, max, mod, abs, lerp *)

(** X1. [clamp] with ordered bounds.  For every binary32 [val] that is not a
    NaN and bounds [lo <= hi], [clamp(val, lo, hi)] is [lo] when
    [val < lo], [hi] when [hi < val] and [val] otherwise, and it lies
    between the bounds; at [s32], for [l <= h], the result is
    [max(l, min(n, h))] and lies between the bounds. *)
Lemma clamp_within_bounds (val lo hi : Binary32.f32) (n l h : Z) :
  Binary32.is_nan val = false -> fleb lo hi = true -> (l <= h)%Z ->
  lib.clamp val lo hi
  = (if fltb val lo then lo else if fltb hi val then hi else val) /\
  fleb lo (lib.clamp val lo hi) = true /\
  fleb (lib.clamp val lo hi) hi = true /\
  lib.clamp n l h = Z.max l (Z.min n h) /\
  (l <= lib.clamp n l h <= h)%Z.
Proof.
  intros Hv Hl Hz.
  assert (Nl : Binary32.is_nan lo = false).
  { destruct lo; try reflexivity. discriminate Hl. }
  assert (Nh : Binary32.is_nan hi = false).
  { destruct hi; try reflexivity. destruct lo; discriminate Hl. }
  unfold lib.clamp. cbn [number_ltb be_number_scalar be_number_integer].
  split; [|split; [|split; [|split]]].
  - destruct (fltb val lo) eqn:E1; [|reflexivity].
    now rewrite (fleb_fltb_false _ _ Hl).
  - destruct (fltb val lo) eqn:E1.
    + rewrite (fleb_fltb_false _ _ Hl). now apply fleb_refl.
    + destruct (fltb hi val) eqn:E2; [exact Hl | now apply fltb_false_fleb].
  - destruct (fltb val lo) eqn:E1.
    + rewrite (fleb_fltb_false _ _ Hl). exact Hl.
    + destruct (fltb hi val) eqn:E2; [now apply fleb_refl | now apply fltb_false_fleb].
  - destruct (Z.ltb_spec n l); destruct (Z.ltb_spec h l);
      try destruct (Z.ltb_spec h n); lia.
  - destruct (Z.ltb_spec n l); destruct (Z.ltb_spec h l);
      try destruct (Z.ltb_spec h n); lia.
Qed.

Lemma clamp_within_bounds_witness :
  Binary32.is_nan (F32Spec.i32 5) = false /\
  fleb (F32Spec.i32 0) (F32Spec.i32 1) = true /\
  (0 <= 1)%Z /\
  lib.clamp (F32Spec.i32 5) (F32Spec.i32 0) (F32Spec.i32 1) = F32Spec.i32 1 /\
  lib.clamp 5%Z 0%Z 1%Z = 1%Z.
Proof.
  assert (H1 : Binary32.is_nan (F32Spec.i32 5) = false) by reflexivity.
  assert (H2 : fleb (F32Spec.i32 0) (F32Spec.i32 1) = true) by reflexivity.
  assert (H3 : (0 <= 1)%Z) by lia.
  split; [exact H1|]. split; [exact H2|]. split; [exact H3|].
  destruct (clamp_within_bounds (F32Spec.i32 5) (F32Spec.i32 0) (F32Spec.i32 1)
              5 0 1 H1 H2 H3) as (E & _ & _ & Ez & _).
  split; [exact E | exact Ez].
Defined.

(** X2. NaN through [min], [max] and [clamp] at binary32: every comparison
    with a NaN is false, so [min] and [max] return their second argument
    whenever either argument is a NaN, and [clamp] returns a NaN value
    whatever the bounds. *)
Lemma min_max_clamp_nan (a b lo hi : Binary32.f32) :
  lib.min S754_nan b = b /\ lib.min a S754_nan = S754_nan /\
  lib.max S754_nan b = b /\ lib.max a S754_nan = S754_nan /\
  lib.clamp S754_nan lo hi = S754_nan.
Proof.
  unfold lib.min, lib.max, lib.clamp.
  cbn [number_ltb be_number_scalar]. cbn. unfold SFltb.
  split; [|split; [|split; [|split]]].
  - reflexivity.
  - destruct a; reflexivity.
  - destruct b; reflexivity.
  - reflexivity.
  - destruct hi; reflexivity.
Qed.

(** The C++ remainder, shifted by the divisor and reduced again, is the
    floor remainder. *)
Lemma rem_shifted_is_mod (a b : Z) :
  b <> 0%Z -> Z.rem (Z.rem a b + b) b = (a mod b)%Z.
Proof.
  intros Hb.
  pose proof (Z.quot_rem' a b) as Hq.
  pose proof (Z.rem_bound_abs a b Hb) as Hr.
  set (r := Z.rem a b) in *. set (q := Z.quot a b) in *.
  clearbody r q.
  assert (Ea : a = ((r + b) + (q - 1) * b)%Z) by lia.
  destruct (Z.lt_total b 0) as [Hneg | [H0 | Hpos]]; [| contradiction |].
  - replace (r + b)%Z with (- (- (r + b)))%Z at 1 by lia.
    replace b with (- (- b))%Z at 2 by lia.
    rewrite Z.rem_opp_opp by lia.
    rewrite Z.rem_mod_nonneg by lia.
    replace (a mod b)%Z with (- ((- a) mod (- b)))%Z.
    2:{ rewrite Z.mod_opp_opp by lia. lia. }
    f_equal.
    replace (- a)%Z with (- (r + b) + (q - 1) * (- b))%Z by lia.
    now rewrite Z_mod_plus_full.
  - rewrite Z.rem_mod_nonneg by lia.
    replace a with ((r + b) + (q - 1) * b)%Z at 1 by lia.
    now rewrite Z_mod_plus_full.
Qed.

Lemma in_s32_iff (n : Z) :
  Binary32.in_s32 n = true <-> (- 2147483648 <= n <= 2147483647)%Z.
Proof.
  unfold Binary32.in_s32, Binary32.s32_min, Binary32.s32_max.
  rewrite andb_true_iff, !Z.leb_le.
  change (- 2 ^ 31)%Z with (- 2147483648)%Z.
  change (2 ^ 31 - 1)%Z with 2147483647%Z.
  tauto.
Qed.

(** X3. [mod] at [s32].  For every 32-bit [a] and non-zero divisor [b] of
    magnitude at most 2^30, [INT_MIN mod -1] apart, neither remainder nor
    the addition between them is undefined, and [mod(a, b)] is the floor
    remainder: zero or of the sign of [b], and smaller than [b] in
    magnitude. *)
Lemma mod_s32_floor (a b : Z) :
  Binary32.in_s32 a = true -> b <> 0%Z ->
  (- 1073741824 <= b <= 1073741824)%Z ->
  ~ (a = Binary32.s32_min /\ b = (-1)%Z) ->
  lib.mod_s32 a b = Some (a mod b)%Z /\
  (0 <= (a mod b) * b)%Z /\ (Z.abs (a mod b) < Z.abs b)%Z.
Proof.
  intros Ha Hb Hr Hm.
  apply in_s32_iff in Ha.
  split.
  - unfold lib.mod_s32, lib.s32_rem, lib.s32_add.
    assert (Eb : (b =? 0)%Z = false) by (apply Z.eqb_neq; exact Hb).
    rewrite Eb. cbv iota beta.
    assert (E1 : ((a =? Binary32.s32_min)%Z && (b =? -1)%Z)%bool = false).
    { apply andb_false_iff.
      destruct (Z.eqb_spec a Binary32.s32_min); [|now left].
      destruct (Z.eqb_spec b (-1)); [|now right]. exfalso. apply Hm. now split. }
    rewrite E1. cbv iota beta.
    pose proof (Z.rem_bound_abs a b Hb) as Hrb.
    assert (E2 : Binary32.in_s32 (Z.rem a b + b) = true) by (apply in_s32_iff; lia).
    rewrite E2. cbv iota beta. rewrite ?Eb. cbv iota beta.
    assert (E3 : ((Z.rem a b + b =? Binary32.s32_min)%Z && (b =? -1)%Z)%bool = false).
    { apply andb_false_iff. left. apply Z.eqb_neq.
      change Binary32.s32_min with (- 2147483648)%Z. lia. }
    rewrite E3. cbv iota beta. f_equal. now apply rem_shifted_is_mod.
  - destruct (Z.lt_total b 0) as [Hneg | [H0 | Hpos]]; [| contradiction |].
    + pose proof (Z.mod_neg_bound a b Hneg). split; [nia | lia].
    + pose proof (Z.mod_pos_bound a b Hpos). split; [nia | lia].
Qed.

Lemma mod_s32_floor_witness :
  Binary32.in_s32 (-7) = true /\ 3%Z <> 0%Z /\
  (- 1073741824 <= 3 <= 1073741824)%Z /\
  ~ ((-7)%Z = Binary32.s32_min /\ 3%Z = (-1)%Z) /\
  lib.mod_s32 (-7) 3 = Some 2%Z.
Proof.
  assert (H1 : Binary32.in_s32 (-7) = true) by reflexivity.
  assert (H2 : 3%Z <> 0%Z) by lia.
  assert (H3 : (- 1073741824 <= 3 <= 1073741824)%Z) by lia.
  assert (H4 : ~ ((-7)%Z = Binary32.s32_min /\ 3%Z = (-1)%Z)) by (intros [_ E]; lia).
  split; [exact H1|]. split; [exact H2|]. split; [exact H3|]. split; [exact H4|].
  exact (proj1 (mod_s32_floor (-7) 3 H1 H2 H3 H4)).
Defined.

(** Where [mod] is undefined: a zero divisor, [INT_MIN mod -1], and an
    addition that leaves the 32-bit range. *)
Lemma mod_s32_undefined (a : Z) :
  lib.mod_s32 a 0 = None /\
  lib.mod_s32 Binary32.s32_min (-1) = None /\
  lib.mod_s32 (2 ^ 30) (2 ^ 30 + 1) = None.
Proof. split; [|split]; reflexivity. Qed.

(** X4. [abs] at binary32, on every input that is not a NaN, is [fabsf]
    except at [+0.0f]: the test [val > 0] fails there and the negation
    yields [-0.0f]; the two agree as numbers.  On a NaN both return a NaN;
    its sign, which the negation flips and [fabsf] clears, is not recorded
    in the datum. *)
Lemma abs_vs_fabsf (val : Binary32.f32) :
  Binary32.is_nan val = false ->
  lib.abs val
  = match val with
    | S754_zero false => S754_zero true
    | _ => fabsf val
    end /\
  F32Spec.same_number (lib.abs val) (fabsf val) /\
  Binary32.is_nan (lib.abs val) = false /\
  Binary32.is_nan (lib.abs S754_nan) = true.
Proof.
  intros Hn. split; [|split; [|split]].
  - destruct val as [s | s | | s m e]; cbn; try destruct s; reflexivity.
  - destruct val as [s | s | | s m e]; cbn.
    + right. destruct s; split; reflexivity.
    + left. destruct s; reflexivity.
    + now left.
    + left. destruct s; reflexivity.
  - destruct val as [s | s | | s m e]; try discriminate Hn;
      cbn; destruct s; reflexivity.
  - reflexivity.
Qed.

Lemma abs_vs_fabsf_witness :
  Binary32.is_nan (F32Spec.frac (-7) 10) = false /\
  lib.abs (F32Spec.frac (-7) 10) = F32Spec.frac 7 10 /\
  lib.abs (F32Spec.frac (-7) 10) = fabsf (F32Spec.frac (-7) 10).
Proof.
  assert (H1 : Binary32.is_nan (F32Spec.frac (-7) 10) = false) by reflexivity.
  split; [exact H1|].
  pose proof (proj1 (abs_vs_fabsf (F32Spec.frac (-7) 10) H1)) as E.
  split; exact E.
Defined.

(** In exact arithmetic the two angle conversions are inverse to each
    other. *)
Lemma deg_rad_round_trip (d r : R) :
  lib.rad_to_deg (lib.deg_to_rad d) = d /\ lib.deg_to_rad (lib.rad_to_deg r) = r.
Proof.
  pose proof PI_neq0. vec_unfold. exact_unfold. split; field; assumption.
Qed.

(** In exact arithmetic [inv_lerp] inverts [lerp] on distinct end points. *)
Lemma lerp_round_trip (a b t v : R) :
  a <> b ->
  lib.inv_lerp a b (lib.lerp a b t) = t /\ lib.lerp a b (lib.inv_lerp a b v) = v.
Proof.
  intros Hab. vec_unfold. exact_unfold. split; field; lra.
Qed.

(** X5. [lerp] at its end points, in binary32: for finite [a] and [b],
    [lerp(a, b, 0)] is [a] and [lerp(a, b, 1)] is [b], up to the sign of
    zero; no rounding occurs. *)
Lemma lerp_endpoints (a b : Binary32.f32) :
  Binary32.valid a = true -> Binary32.valid b = true ->
  Binary32.is_finite a = true -> Binary32.is_finite b = true ->
  F32Spec.same_number (lib.lerp a b 0%f32) a /\
  F32Spec.same_number (lib.lerp a b 1%f32) b.
Proof.
  intros Va Vb Fa Fb. unfold lib.lerp. split.
  - apply fadd_zero_r; [|now apply fmul_zero_r].
    change (1 - 0)%f32 with (1%f32 : Binary32.f32).
    rewrite fmul_one_r by assumption. apply same_number_refl.
  - apply fadd_zero_l; [now apply fmul_zero_r|].
    rewrite fmul_one_r by assumption. apply same_number_refl.
Qed.

Lemma lerp_endpoints_witness :
  Binary32.valid (F32Spec.frac 1 3) = true /\
  Binary32.valid (F32Spec.frac 22 7) = true /\
  Binary32.is_finite (F32Spec.frac 1 3) = true /\
  Binary32.is_finite (F32Spec.frac 22 7) = true /\
  F32Spec.same_number (lib.lerp (F32Spec.frac 1 3) (F32Spec.frac 22 7) 0%f32)
    (F32Spec.frac 1 3) /\
  F32Spec.same_number (lib.lerp (F32Spec.frac 1 3) (F32Spec.frac 22 7) 1%f32)
    (F32Spec.frac 22 7).
Proof.
  assert (H1 : Binary32.valid (F32Spec.frac 1 3) = true) by reflexivity.
  assert (H2 : Binary32.valid (F32Spec.frac 22 7) = true) by reflexivity.
  assert (H3 : Binary32.is_finite (F32Spec.frac 1 3) = true) by reflexivity.
  assert (H4 : Binary32.is_finite (F32Spec.frac 22 7) = true) by reflexivity.
  split; [exact H1|]. split; [exact H2|]. split; [exact H3|]. split; [exact H4|].
  apply (lerp_endpoints (F32Spec.frac 1 3) (F32Spec.frac 22 7) H1 H2 H3 H4).
Defined.

(** With an infinite start the weight [1 - 1 = 0] meets an infinity:
    [lerp(inf, b, 1)] is a NaN, not [b]. *)
Lemma lerp_infinite_start (b : Binary32.f32) (s : bool) :
  lib.lerp (S754_infinity s) b 1%f32 = S754_nan.
Proof. reflexivity. Qed.

(** ** Vector products, reflection, refraction, projection *)

(** X6. [perp] in binary32: whenever the product [x * y] is finite, the dot
    product of [perp(a)] with [a] and [perp_dot(a, a)] are exactly [+0],
    roundings included. *)
Lemma perp_exactly_orthogonal (a : Vec2.Vec2 Binary32.f32) :
  Binary32.is_finite (Vec2.x a * Vec2.y a)%f32 = true ->
  Vec2.dot (Vec2.perp a) a = 0%f32 /\ Vec2.perp_dot a a = 0%f32.
Proof.
  destruct a as [x y]. cbn [Vec2.x Vec2.y]. intros Hf.
  unfold Vec2.dot, Vec2.perp, Vec2.perp_dot. cbn [Vec2.x Vec2.y].
  split.
  - rewrite fmul_neg_l, (fmul_comm y x). now apply fadd_opp_diag_l.
  - rewrite (fmul_comm y x). now apply fsub_diag.
Qed.

Lemma perp_exactly_orthogonal_witness :
  Binary32.is_finite (F32Spec.frac 1 3 * F32Spec.frac 22 7)%f32 = true /\
  Vec2.dot (Vec2.perp (Vec2.mk (F32Spec.frac 1 3) (F32Spec.frac 22 7)))
    (Vec2.mk (F32Spec.frac 1 3) (F32Spec.frac 22 7)) = 0%f32 /\
  Vec2.perp_dot (Vec2.mk (F32Spec.frac 1 3) (F32Spec.frac 22 7))
    (Vec2.mk (F32Spec.frac 1 3) (F32Spec.frac 22 7)) = 0%f32.
Proof.
  assert (H1 : Binary32.is_finite (F32Spec.frac 1 3 * F32Spec.frac 22 7)%f32 = true)
    by reflexivity.
  split; [exact H1|].
  apply (perp_exactly_orthogonal (Vec2.mk (F32Spec.frac 1 3) (F32Spec.frac 22 7)) H1).
Defined.

(** X7. [cross] of a vector with itself, in binary32: whenever the three
    products of distinct components are finite, the result is exactly the
    zero vector [(+0, +0, +0)]. *)
Lemma cross_self_zero (a : Vec3.Vec3 Binary32.f32) :
  Binary32.is_finite (Vec3.x a * Vec3.y a)%f32 = true ->
  Binary32.is_finite (Vec3.y a * Vec3.z a)%f32 = true ->
  Binary32.is_finite (Vec3.z a * Vec3.x a)%f32 = true ->
  Vec3.cross a a = Vec3.zero.
Proof.
  destruct a as [x y z]. cbn [Vec3.x Vec3.y Vec3.z]. intros Hxy Hyz Hzx.
  unfold Vec3.cross, Vec3.zero. cbn [Vec3.x Vec3.y Vec3.z].
  rewrite (fmul_comm z y), (fmul_comm x z), (fmul_comm y x).
  now rewrite !fsub_diag.
Qed.

Lemma cross_self_zero_witness :
  Binary32.is_finite (F32Spec.frac 1 3 * F32Spec.frac 22 7)%f32 = true /\
  Binary32.is_finite (F32Spec.frac 22 7 * F32Spec.frac (-7) 10)%f32 = true /\
  Binary32.is_finite (F32Spec.frac (-7) 10 * F32Spec.frac 1 3)%f32 = true /\
  Vec3.cross
    (Vec3.mk (F32Spec.frac 1 3) (F32Spec.frac 22 7) (F32Spec.frac (-7) 10))
    (Vec3.mk (F32Spec.frac 1 3) (F32Spec.frac 22 7) (F32Spec.frac (-7) 10))
  = Vec3.zero.
Proof.
  assert (H1 : Binary32.is_finite (F32Spec.frac 1 3 * F32Spec.frac 22 7)%f32 = true)
    by reflexivity.
  assert (H2 : Binary32.is_finite (F32Spec.frac 22 7 * F32Spec.frac (-7) 10)%f32 = true)
    by reflexivity.
  assert (H3 : Binary32.is_finite (F32Spec.frac (-7) 10 * F32Spec.frac 1 3)%f32 = true)
    by reflexivity.
  split; [exact H1|]. split; [exact H2|]. split; [exact H3|].
  apply (cross_self_zero
           (Vec3.mk (F32Spec.frac 1 3) (F32Spec.frac 22 7) (F32Spec.frac (-7) 10))
           H1 H2 H3).
Defined.

(** In exact arithmetic the cross product is orthogonal to both factors and
    antisymmetric. *)
Lemma cross_orthogonal (a b : Vec3.Vec3 R) :
  Vec3.dot (Vec3.cross a b) a = 0%R /\ Vec3.dot (Vec3.cross a b) b = 0%R /\
  Vec3.cross b a = Vec3.neg (Vec3.cross a b).
Proof.
  destruct a, b. vec_unfold. exact_unfold.
  split; [ring|]. split; [ring|]. f_equal; ring.
Qed.

(** The [xyz] part of the SIMD cross product of two [Vec4] is the [Vec3]
    cross product of their [xyz] parts, over any scalar arithmetic. *)
Lemma cross4_is_cross3 (F : Type) (S : Scalar F) (a b : Vec4.Vec4 F) :
  Vec4.xyz (Vec4Ops.cross a b) = Vec3.cross (Vec4.xyz a) (Vec4.xyz b).
Proof. reflexivity. Qed.

(** X8. [reflect] about a unit normal, in exact arithmetic: reflecting
    twice gives the vector back, the squared length is kept, and the
    component along the normal changes sign. *)
Lemma reflect_unit_normal (a b : Vec3.Vec3 R) :
  Vec3.dot b b = 1%R ->
  Vec3.reflect (Vec3.reflect a b) b = a /\
  Vec3.dot (Vec3.reflect a b) (Vec3.reflect a b) = Vec3.dot a a /\
  Vec3.dot (Vec3.reflect a b) b = (- Vec3.dot a b)%R.
Proof.
  destruct a as [ax ay az], b as [bx by_ bz]. vec_unfold. exact_unfold.
  intros Hb. split; [f_equal; nsatz|]. split; nsatz.
Qed.

Lemma reflect_unit_normal_witness :
  Vec3.dot (Vec3.mk 0 0 1)%R (Vec3.mk 0 0 1)%R = 1%R /\
  Vec3.reflect (Vec3.reflect (Vec3.mk 1 2 3)%R (Vec3.mk 0 0 1)%R) (Vec3.mk 0 0 1)%R
  = (Vec3.mk 1 2 3)%R.
Proof.
  assert (H1 : Vec3.dot (Vec3.mk 0 0 1)%R (Vec3.mk 0 0 1)%R = 1%R).
  { vec_unfold. exact_unfold. lra. }
  split; [exact H1|].
  exact (proj1 (reflect_unit_normal (Vec3.mk 1 2 3)%R (Vec3.mk 0 0 1)%R H1)).
Defined.

(** X9. [refract] below the critical angle, in exact arithmetic: for unit
    [a] and [b] with [ratio^2 (1 - (a.b)^2) <= 1], the refracted vector is
    a unit vector and its part across the normal is that of [a] scaled by
    [ratio] (Snell's law). *)
Lemma refract_snell (a b : Vec3.Vec3 R) (ratio : R) :
  Vec3.dot a a = 1%R -> Vec3.dot b b = 1%R ->
  (ratio * ratio * (1 - Vec3.dot a b * Vec3.dot a b) <= 1)%R ->
  Vec3.dot (Vec3.refract a b ratio) (Vec3.refract a b ratio) = 1%R /\
  Vec3.cross (Vec3.refract a b ratio) b = Vec3.smul ratio (Vec3.cross a b).
Proof.
  destruct a as [ax ay az], b as [bx by_ bz]. vec_unfold. exact_unfold.
  intros Ha Hb Hs.
  match goal with
  | |- context [Rle_dec ?u ?v] =>
      destruct (Rle_dec u v) as [L | N]; [| exfalso; apply N; lra]
  end.
  match goal with
  | |- context [R_sqrt.sqrt ?u] =>
      assert (Hq : (R_sqrt.sqrt u * R_sqrt.sqrt u = u)%R) by (apply sqrt_sqrt; lra);
      revert Hq; generalize (R_sqrt.sqrt u)
  end.
  intros s Hq. split; [nsatz|]. f_equal; ring.
Qed.

Lemma refract_snell_witness :
  Vec3.dot (Vec3.mk (3 / 5) 0 (- 4 / 5))%R (Vec3.mk (3 / 5) 0 (- 4 / 5))%R = 1%R /\
  Vec3.dot (Vec3.mk 0 0 1)%R (Vec3.mk 0 0 1)%R = 1%R /\
  Vec3.dot (Vec3.refract (Vec3.mk (3 / 5) 0 (- 4 / 5))%R (Vec3.mk 0 0 1)%R (1 / 2)%R)
           (Vec3.refract (Vec3.mk (3 / 5) 0 (- 4 / 5))%R (Vec3.mk 0 0 1)%R (1 / 2)%R)
  = 1%R.
Proof.
  assert (H1 : Vec3.dot (Vec3.mk (3 / 5) 0 (- 4 / 5))%R
                 (Vec3.mk (3 / 5) 0 (- 4 / 5))%R = 1%R).
  { vec_unfold. exact_unfold. lra. }
  assert (H2 : Vec3.dot (Vec3.mk 0 0 1)%R (Vec3.mk 0 0 1)%R = 1%R).
  { vec_unfold. exact_unfold. lra. }
  assert (H3 : (1 / 2 * (1 / 2)
                * (1 - Vec3.dot (Vec3.mk (3 / 5) 0 (- 4 / 5))%R (Vec3.mk 0 0 1)%R
                       * Vec3.dot (Vec3.mk (3 / 5) 0 (- 4 / 5))%R (Vec3.mk 0 0 1)%R)
                <= 1)%R).
  { vec_unfold. exact_unfold. lra. }
  split; [exact H1|]. split; [exact H2|].
  exact (proj1 (refract_snell (Vec3.mk (3 / 5) 0 (- 4 / 5))%R (Vec3.mk 0 0 1)%R
                  (1 / 2)%R H1 H2 H3)).
Defined.

(** Above the critical angle [refract] returns the zero vector. *)
Lemma refract_total_internal_reflection (a b : Vec3.Vec3 R) (ratio : R) :
  (1 < ratio * ratio * (1 - Vec3.dot a b * Vec3.dot a b))%R ->
  Vec3.refract a b ratio = Vec3.zero.
Proof.
  destruct a as [ax ay az], b as [bx by_ bz]. vec_unfold. exact_unfold.
  intros Hs.
  match goal with
  | |- context [Rle_dec ?u ?v] => destruct (Rle_dec u v) as [L | _]; [lra|]
  end.
  reflexivity.
Qed.

(** X10. [project] and [reject] on a non-zero [b], in exact arithmetic:
    the two add up to [a], the rejection is orthogonal to [b] and the
    projection is parallel to [b]. *)
Lemma project_reject (a b : Vec3.Vec3 R) :
  b <> Vec3.zero ->
  Vec3.add (Vec3.project a b) (Vec3.reject a b) = a /\
  Vec3.dot (Vec3.reject a b) b = 0%R /\
  Vec3.cross (Vec3.project a b) b = Vec3.zero.
Proof.
  destruct a as [ax ay az], b as [bx by_ bz]. intros Hb.
  assert (Hs : (bx * bx + by_ * by_ + bz * bz <> 0)%R).
  { intros E. apply Hb.
    assert (bx = 0%R) by nra. assert (by_ = 0%R) by nra. assert (bz = 0%R) by nra.
    subst. reflexivity. }
  vec_unfold. exact_unfold.
  split; [f_equal; field; assumption|]. split; [field; assumption|].
  f_equal; field; assumption.
Qed.

Lemma project_reject_witness :
  ExactSpec.v122 <> Vec3.zero /\
  Vec3.add (Vec3.project (Vec3.mk 1 2 3)%R ExactSpec.v122)
           (Vec3.reject (Vec3.mk 1 2 3)%R ExactSpec.v122)
  = (Vec3.mk 1 2 3)%R.
Proof.
  assert (H1 : ExactSpec.v122 <> Vec3.zero).
  { intros E. apply (f_equal Vec3.x) in E. cbn in E. lra. }
  split; [exact H1|].
  exact (proj1 (project_reject (Vec3.mk 1 2 3)%R ExactSpec.v122 H1)).
Defined.

(** ** Matrix algebra: transpose, product, inverse *)

(** X11. [transpose] is an involution over any scalar arithmetic: the
    shuffles only move lanes, so [transpose(transpose(a))] is [a] bit for
    bit. *)
Lemma transpose_involutive (F : Type) (S : Scalar F) (a : Mat4.Mat4 F) :
  Mat4.transpose (Mat4.transpose a) = a.
Proof. destruct_mat a. reflexivity. Qed.

(** In exact arithmetic [transpose] reverses products and keeps [det]. *)
Lemma transpose_mul (a b : Mat4.Mat4 R) :
  Mat4.transpose (Mat4.mul a b) = Mat4.mul (Mat4.transpose b) (Mat4.transpose a) /\
  Mat4.det (Mat4.transpose a) = Mat4.det a.
Proof.
  destruct_mat a. destruct_mat b. mat_unfold. exact_unfold.
  split; [f_equal; f_equal; ring | ring].
Qed.

Lemma mul_assoc_exact (a b c : Mat4.Mat4 R) :
  Mat4.mul (Mat4.mul a b) c = Mat4.mul a (Mat4.mul b c).
Proof.
  destruct_mat a. destruct_mat b. destruct_mat c.
  mat_unfold. exact_unfold. f_equal; f_equal; ring.
Qed.

Lemma mul_identity_exact (a : Mat4.Mat4 R) :
  Mat4.mul a identity = a /\ Mat4.mul identity a = a.
Proof.
  destruct_mat a. mat_unfold. exact_unfold. split; f_equal; f_equal; ring.
Qed.

(** X12. In exact arithmetic the matrix product is associative and agrees
    with the matrix-vector product: [(a * b) * c = a * (b * c)] and
    [(a * b) * v = a * (b * v)]. *)
Lemma mul_assoc (a b c : Mat4.Mat4 R) (v : Vec4.Vec4 R) :
  Mat4.mul (Mat4.mul a b) c = Mat4.mul a (Mat4.mul b c) /\
  Mat4.mul_vec (Mat4.mul a b) v = Mat4.mul_vec a (Mat4.mul_vec b v).
Proof.
  split; [apply mul_assoc_exact|].
  destruct_mat a. destruct_mat b. destruct v.
  mat_unfold. exact_unfold. f_equal; ring.
Qed.

(** X13. The identity matrix in binary32: for every matrix [a] of finite
    entries, [a * identity] and [identity * a] equal [a] entry by entry, up
    to the sign of zero; the products by 0 and 1 and the sums with zero
    round nothing. *)
Lemma mul_identity_binary32 (a : Mat4.Mat4 Binary32.f32) :
  F32Spec.finite_mat a = true -> F32Spec.valid_mat a = true ->
  entrywise F32Spec.same_number (Mat4.mul a identity) a /\
  entrywise F32Spec.same_number (Mat4.mul identity a) a.
Proof.
  destruct_mat a.
  unfold F32Spec.finite_mat, F32Spec.valid_mat, F32Spec.finite_vec4,
    F32Spec.valid_vec4.
  cbn [Mat4.c0 Mat4.c1 Mat4.c2 Mat4.c3 Vec4.x Vec4.y Vec4.z Vec4.w].
  intros Hf Hv. split_bools.
  split; intros i j Hi Hj;
    (destruct i as [|[|[|[|i]]]]; try lia);
    (destruct j as [|[|[|[|j]]]]; try lia);
    mat_unfold; same_lane.
Qed.

Lemma mul_identity_binary32_witness :
  F32Spec.finite_mat F32Spec.dense = true /\
  F32Spec.valid_mat F32Spec.dense = true /\
  entrywise F32Spec.same_number (Mat4.mul F32Spec.dense identity) F32Spec.dense /\
  entrywise F32Spec.same_number (Mat4.mul identity F32Spec.dense) F32Spec.dense.
Proof.
  assert (H1 : F32Spec.finite_mat F32Spec.dense = true) by reflexivity.
  assert (H2 : F32Spec.valid_mat F32Spec.dense = true) by reflexivity.
  split; [exact H1|]. split; [exact H2|].
  apply (mul_identity_binary32 F32Spec.dense H1 H2).
Defined.

Lemma mul_inverse_l (a : Mat4.Mat4 R) :
  Mat4.det a <> 0%R -> Mat4.mul (Mat4.inverse a) a = identity.
Proof.
  destruct_mat a. mat_unfold. exact_unfold. intros Hd.
  unfold Rdiv. rewrite Rmult_1_l.
  match goal with
  | |- context [ Rinv ?d ] =>
      pose proof (Rinv_r d Hd) as Hid; revert Hid; generalize (Rinv d)
  end.
  intros i Hi.
  f_equal; f_equal;
    first [ ring | rewrite <- Hi; ring ].
Qed.

(** X14. [inverse] in exact arithmetic, for [det(a) <> 0]: it is a left
    inverse as well, its own determinant is not zero, inverting twice gives
    [a] back, and it is the only right inverse of [a]. *)
Lemma inverse_two_sided (a : Mat4.Mat4 R) :
  Mat4.det a <> 0%R ->
  Mat4.mul (Mat4.inverse a) a = identity /\
  Mat4.det (Mat4.inverse a) <> 0%R /\
  Mat4.inverse (Mat4.inverse a) = a /\
  (forall b : Mat4.Mat4 R, Mat4.mul a b = identity -> b = Mat4.inverse a).
Proof.
  intros Hd.
  pose proof (mul_inverse_l a Hd) as Hl.
  pose proof (mul_inverse_r a Hd) as Hr.
  assert (Hd' : Mat4.det (Mat4.inverse a) <> 0%R).
  { intros E. pose proof (det_mul a (Mat4.inverse a)) as Hm.
    rewrite Hr, det_identity, E in Hm. lra. }
  split; [exact Hl|]. split; [exact Hd'|]. split.
  - pose proof (mul_inverse_r (Mat4.inverse a) Hd') as Hr'.
    set (c := Mat4.inverse (Mat4.inverse a)) in *.
    set (b := Mat4.inverse a) in *.
    assert (E : Mat4.mul (Mat4.mul a b) c = Mat4.mul a (Mat4.mul b c))
      by apply mul_assoc_exact.
    rewrite Hr, Hr' in E.
    rewrite (proj2 (mul_identity_exact c)), (proj1 (mul_identity_exact a)) in E.
    exact E.
  - intros b Hb.
    set (c := Mat4.inverse a) in *.
    assert (E : Mat4.mul (Mat4.mul c a) b = Mat4.mul c (Mat4.mul a b))
      by apply mul_assoc_exact.
    rewrite Hl, Hb in E.
    rewrite (proj2 (mul_identity_exact b)), (proj1 (mul_identity_exact c)) in E.
    exact E.
Qed.

Lemma inverse_two_sided_witness :
  Mat4.det ExactSpec.scale_translate <> 0%R /\
  Mat4.mul (Mat4.inverse ExactSpec.scale_translate) ExactSpec.scale_translate
  = identity /\
  Mat4.inverse (Mat4.inverse ExactSpec.scale_translate) = ExactSpec.scale_translate.
Proof.
  assert (Hd : Mat4.det ExactSpec.scale_translate <> 0%R).
  { unfold ExactSpec.scale_translate. kernel_unfold. real_unfold. lra. }
  split; [exact Hd|].
  destruct (inverse_two_sided ExactSpec.scale_translate Hd) as (E1 & _ & E2 & _).
  split; [exact E1 | exact E2].
Defined.

(** ** create_translate *)

(** X15. Translations in exact arithmetic: they compose by adding their
    vectors, move points by the vector, leave directions alone, and the
    general [inverse] of a translation is the opposite translation. *)
Lemma translate_compose (a b p : Vec3.Vec3 R) :
  Mat4.mul (Mat4.create_translate a) (Mat4.create_translate b)
  = Mat4.create_translate (Vec3.add a b) /\
  Mat4.mul_trans_point (Mat4.create_translate a) p = Vec3.add p a /\
  Mat4.mul_trans_vec (Mat4.create_translate a) p = p /\
  Mat4.inverse (Mat4.create_translate a) = Mat4.create_translate (Vec3.neg a).
Proof.
  destruct a as [ax ay az], b as [bx by_ bz], p as [px py pz].
  mat_unfold. exact_unfold.
  split; [f_equal; f_equal; ring|]. split; [f_equal; ring|].
  split; [f_equal; ring|]. f_equal; f_equal; field; lra.
Qed.

(** X16. A translation applied to a point in binary32: for a finite point
    [p], each coordinate of [mul_trans_point(create_translate(t), p)] is the
    single rounded sum [p + t] of the coordinates, up to the sign of zero,
    and [get_translation] reads [t] back. *)
Lemma translate_point_binary32 (t p : Vec3.Vec3 Binary32.f32) :
  F32Spec.finite_vec3 p = true ->
  Binary32.valid (Vec3.x p) = true -> Binary32.valid (Vec3.y p) = true ->
  Binary32.valid (Vec3.z p) = true ->
  let q := Mat4.mul_trans_point (Mat4.create_translate t) p in
  F32Spec.same_number (Vec3.x q) (Vec3.x p + Vec3.x t)%f32 /\
  F32Spec.same_number (Vec3.y q) (Vec3.y p + Vec3.y t)%f32 /\
  F32Spec.same_number (Vec3.z q) (Vec3.z p + Vec3.z t)%f32 /\
  Mat4.get_translation (Mat4.create_translate t) = t.
Proof.
  destruct t as [tx ty tz], p as [px py pz].
  unfold F32Spec.finite_vec3. cbn [Vec3.x Vec3.y Vec3.z].
  intros Hf Vx Vy Vz. split_bools. cbv zeta. mat_unfold.
  split; [|split; [|split]]; try reflexivity; apply fadd_same_number; same_lane.
Qed.

Lemma translate_point_binary32_witness :
  F32Spec.finite_vec3 F32Spec.camera_pos = true /\
  Binary32.valid (Vec3.x F32Spec.camera_pos) = true /\
  Binary32.valid (Vec3.y F32Spec.camera_pos) = true /\
  Binary32.valid (Vec3.z F32Spec.camera_pos) = true /\
  F32Spec.same_number
    (Vec3.x (Mat4.mul_trans_point (Mat4.create_translate F32Spec.camera_up)
               F32Spec.camera_pos))
    (Vec3.x F32Spec.camera_pos + Vec3.x F32Spec.camera_up)%f32.
Proof.
  assert (H1 : F32Spec.finite_vec3 F32Spec.camera_pos = true) by reflexivity.
  assert (H2 : Binary32.valid (Vec3.x F32Spec.camera_pos) = true) by reflexivity.
  assert (H3 : Binary32.valid (Vec3.y F32Spec.camera_pos) = true) by reflexivity.
  assert (H4 : Binary32.valid (Vec3.z F32Spec.camera_pos) = true) by reflexivity.
  split; [exact H1|]. split; [exact H2|]. split; [exact H3|]. split; [exact H4|].
  exact (proj1 (translate_point_binary32 F32Spec.camera_up F32Spec.camera_pos
                  H1 H2 H3 H4)).
Defined.

(** ** Rotations *)

Lemma sin2_cos2_mult (t : R) :
  (Rtrigo_def.sin t * Rtrigo_def.sin t + Rtrigo_def.cos t * Rtrigo_def.cos t = 1)%R.
Proof. pose proof (sin2_cos2 t) as E. unfold Rsqr in E. exact E. Qed.

(** X17. Rotations about z in exact arithmetic: they compose by adding
    their angles, the transpose is the inverse, and the determinant is 1. *)
Lemma rotation_z_compose (a b : R) :
  Mat4.mul (Mat4.create_rotation_z a) (Mat4.create_rotation_z b)
  = Mat4.create_rotation_z (a + b)%R /\
  Mat4.mul (Mat4.create_rotation_z a) (Mat4.transpose (Mat4.create_rotation_z a))
  = identity /\
  Mat4.det (Mat4.create_rotation_z a) = 1%R.
Proof.
  pose proof (sin2_cos2_mult a) as Ha.
  mat_unfold. exact_unfold. rewrite sin_plus, cos_plus.
  revert Ha. generalize (Rtrigo_def.sin a) (Rtrigo_def.cos a)
                        (Rtrigo_def.sin b) (Rtrigo_def.cos b).
  intros sa ca sb cb Ha.
  split; [f_equal; f_equal; ring|]. split; [f_equal; f_equal; nsatz | nsatz].
Qed.

(** The rotations about x and y are orthogonal of determinant 1 as well. *)
Lemma rotation_xy_orthogonal (a : R) :
  Mat4.mul (Mat4.create_rotation_x a) (Mat4.transpose (Mat4.create_rotation_x a))
  = identity /\
  Mat4.det (Mat4.create_rotation_x a) = 1%R /\
  Mat4.mul (Mat4.create_rotation_y a) (Mat4.transpose (Mat4.create_rotation_y a))
  = identity /\
  Mat4.det (Mat4.create_rotation_y a) = 1%R.
Proof.
  pose proof (sin2_cos2_mult a) as Ha.
  mat_unfold. exact_unfold.
  revert Ha. generalize (Rtrigo_def.sin a) (Rtrigo_def.cos a).
  intros sa ca Ha.
  split; [f_equal; f_equal; nsatz|]. split; [nsatz|].
  split; [f_equal; f_equal; nsatz| nsatz].
Qed.

Lemma normalize_axis (k : R) :
  (0 < k)%R ->
  Vec3.normalize (Vec3.mk k 0 0)%R = (Vec3.mk 1 0 0)%R /\
  Vec3.normalize (Vec3.mk 0 k 0)%R = (Vec3.mk 0 1 0)%R /\
  Vec3.normalize (Vec3.mk 0 0 k)%R = (Vec3.mk 0 0 1)%R.
Proof.
  intros Hk.
  assert (E : forall s : R, s = (k * k)%R -> R_sqrt.sqrt s = k).
  { intros s ->. apply sqrt_square. lra. }
  split; [|split]; normalize_unfold.
  - rewrite (E (k * k + 0 * 0 + 0 * 0)%R) by ring.
    destruct (Req_dec_T k 0); [lra|]. cbn [negb]. f_equal; field; lra.
  - rewrite (E (0 * 0 + k * k + 0 * 0)%R) by ring.
    destruct (Req_dec_T k 0); [lra|]. cbn [negb]. f_equal; field; lra.
  - rewrite (E (0 * 0 + 0 * 0 + k * k)%R) by ring.
    destruct (Req_dec_T k 0); [lra|]. cbn [negb]. f_equal; field; lra.
Qed.

(** X18. [create_rotation] about a coordinate axis, in exact arithmetic:
    for every [k > 0] the rotations about [(k, 0, 0)], [(0, k, 0)] and
    [(0, 0, k)] are [create_rotation_x], [create_rotation_y] and
    [create_rotation_z] of the same angle. *)
Lemma create_rotation_axes (k th : R) :
  (0 < k)%R ->
  Mat4.create_rotation (Vec3.mk k 0 0)%R th = Mat4.create_rotation_x th /\
  Mat4.create_rotation (Vec3.mk 0 k 0)%R th = Mat4.create_rotation_y th /\
  Mat4.create_rotation (Vec3.mk 0 0 k)%R th = Mat4.create_rotation_z th.
Proof.
  intros Hk. destruct (normalize_axis k Hk) as (Ex & Ey & Ez).
  unfold Mat4.create_rotation. rewrite Ex, Ey, Ez.
  mat_unfold. exact_unfold.
  split; [|split]; f_equal; f_equal; ring.
Qed.

Lemma create_rotation_axes_witness :
  (0 < 2)%R /\
  Mat4.create_rotation (Vec3.mk 2 0 0)%R 1%R = Mat4.create_rotation_x 1%R /\
  Mat4.create_rotation (Vec3.mk 0 2 0)%R 1%R = Mat4.create_rotation_y 1%R /\
  Mat4.create_rotation (Vec3.mk 0 0 2)%R 1%R = Mat4.create_rotation_z 1%R.
Proof.
  assert (H1 : (0 < 2)%R) by lra.
  split; [exact H1|].
  apply (create_rotation_axes 2%R 1%R H1).
Defined.

(** With the zero axis [normalize] returns the zero vector and the result
    is no rotation: the diagonal matrix of [cos], [cos], [cos], 1. *)
Lemma create_rotation_zero_axis (th : R) :
  Mat4.create_rotation Vec3.zero th
  = Mat4.mk_mat (Vec4.mk (Rtrigo_def.cos th) 0 0 0)%R
                (Vec4.mk 0 (Rtrigo_def.cos th) 0 0)%R
                (Vec4.mk 0 0 (Rtrigo_def.cos th) 0)%R
                (Vec4.mk 0 0 0 1)%R.
Proof.
  unfold Mat4.create_rotation.
  assert (E : Vec3.normalize (Vec3.zero : Vec3.Vec3 R) = Vec3.zero).
  { destruct length_zero_exact as (_ & E3 & _).
    unfold Vec3.normalize. rewrite E3. reflexivity. }
  rewrite E. mat_unfold. exact_unfold. f_equal; f_equal; ring.
Qed.

(** A normalised non-zero vector has unit dot product with itself and is a
    positive multiple of the vector. *)
Lemma normalize3_dot (v : Vec3.Vec3 R) :
  v <> Vec3.zero ->
  Vec3.dot (Vec3.normalize v) (Vec3.normalize v) = 1%R /\
  exists k : R, (0 < k)%R /\ Vec3.normalize v = Vec3.muls v k.
Proof.
  intros Hv. pose proof (normalize3_unit v Hv) as Hu.
  split.
  - unfold Vec3.length_vec in Hu. unfold Vec3.dot.
    cbv [fadd fmul sqrt Exact.scalar] in *.
    set (s := (_ + _ + _)%R) in *.
    assert (0 <= s)%R.
    { destruct (Rle_dec 0 s) as [|N]; [assumption|].
      rewrite sqrt_neg_0 in Hu by lra. lra. }
    rewrite <- (sqrt_sqrt s) by assumption. rewrite Hu. ring.
  - destruct v as [x y z].
    assert (Hs : (0 < x * x + y * y + z * z)%R).
    { destruct (Rlt_le_dec 0 (x * x + y * y + z * z)) as [|Hle]; [assumption|].
      exfalso. apply Hv.
      assert (x = 0%R) by nra. assert (y = 0%R) by nra. assert (z = 0%R) by nra.
      subst. reflexivity. }
    exists (1 / R_sqrt.sqrt (x * x + y * y + z * z))%R.
    assert (Hl : (0 < R_sqrt.sqrt (x * x + y * y + z * z))%R) by now apply sqrt_lt_R0.
    split.
    + unfold Rdiv. rewrite Rmult_1_l. now apply Rinv_0_lt_compat.
    + normalize_unfold. cbv [Vec3.muls Vec3.smul Vec3.x Vec3.y Vec3.z fmul Exact.scalar].
      destruct (Req_dec_T (R_sqrt.sqrt (x * x + y * y + z * z)) 0); [lra|].
      cbn [negb]. f_equal; ring.
Qed.

(** X19. [create_rotation] about any non-zero axis, in exact arithmetic:
    the matrix times its transpose is the identity, its determinant is 1,
    and it leaves the axis fixed. *)
Lemma create_rotation_orthogonal (axis : Vec3.Vec3 R) (th : R) :
  axis <> Vec3.zero ->
  let m := Mat4.create_rotation axis th in
  Mat4.mul m (Mat4.transpose m) = identity /\
  Mat4.det m = 1%R /\
  Mat4.mul_trans_vec m axis = axis.
Proof.
  intros Hv. destruct (normalize3_dot axis Hv) as (Hn & k & Hk & Ek).
  cbv zeta. unfold Mat4.create_rotation. cbv zeta.
  pose proof (sin2_cos2_mult th) as Ht.
  assert (Ea : axis = Vec3.muls (Vec3.normalize axis) (1 / k)%R).
  { rewrite Ek. destruct axis. cbv [Vec3.muls Vec3.smul Vec3.x Vec3.y Vec3.z fmul Exact.scalar].
    f_equal; field; lra. }
  set (n := Vec3.normalize axis) in *. clearbody n. clear Ek Hv. subst axis.
  destruct n as [nx ny nz].
  revert Ht. mat_unfold. exact_unfold.
  generalize (Rtrigo_def.sin th) (Rtrigo_def.cos th). intros s c Ht.
  cbv [Vec3.dot Vec3.x Vec3.y Vec3.z fadd fmul Exact.scalar] in Hn.
  split; [f_equal; f_equal; nsatz|]. split; [nsatz|].
  f_equal; nsatz.
Qed.

Lemma create_rotation_orthogonal_witness :
  ExactSpec.v122 <> Vec3.zero /\
  Mat4.mul (Mat4.create_rotation ExactSpec.v122 1%R)
           (Mat4.transpose (Mat4.create_rotation ExactSpec.v122 1%R)) = identity /\
  Mat4.det (Mat4.create_rotation ExactSpec.v122 1%R) = 1%R /\
  Mat4.mul_trans_vec (Mat4.create_rotation ExactSpec.v122 1%R) ExactSpec.v122
  = ExactSpec.v122.
Proof.
  assert (H1 : ExactSpec.v122 <> Vec3.zero).
  { intros E. apply (f_equal Vec3.x) in E. cbn in E. lra. }
  split; [exact H1|].
  apply (create_rotation_orthogonal ExactSpec.v122 1%R H1).
Defined.

(** ** View and projection matrices *)

(** X20. [create_look_at] sends the eye to the origin, in exact arithmetic
    and for every [eye], [target] and [up], degenerate ones included: as a
    point through [mul_trans_point], and as [(eye, 1)] through the full
    product. *)
Lemma look_at_eye_to_origin (eye target up : Vec3.Vec3 R) :
  Mat4.mul_trans_point (Mat4.create_look_at eye target up) eye = Vec3.zero /\
  Mat4.mul_vec (Mat4.create_look_at eye target up) (point eye)
  = (Vec4.mk 0 0 0 1)%R.
Proof.
  rewrite create_look_at_entries. cbv zeta.
  generalize (Vec3.normalize (Vec3.sub eye target)). intros f.
  generalize (Vec3.normalize (Vec3.cross up f)). intros r.
  destruct eye, f, r. mat_unfold. exact_unfold. split; f_equal; ring.
Qed.

(** X21. [create_look_at] is a rigid motion, in exact arithmetic, when the
    eye is not the target and [up] is not along the view direction: the
    matrix has bottom row [0 0 0 1] and orthogonal columns, determinant 1,
    and keeps the squared length of every direction. *)
Lemma look_at_orthonormal (eye target up : Vec3.Vec3 R) :
  Vec3.sub eye target <> Vec3.zero ->
  Vec3.cross up (Vec3.normalize (Vec3.sub eye target)) <> Vec3.zero ->
  let m := Mat4.create_look_at eye target up in
  affine_inv m = true /\
  Mat4.det m = 1%R /\
  forall v : Vec3.Vec3 R,
    Vec3.dot (Mat4.mul_trans_vec m v) (Mat4.mul_trans_vec m v) = Vec3.dot v v.
Proof.
  intros Hf Hc. cbv zeta. rewrite create_look_at_entries. cbv zeta.
  destruct (normalize3_dot _ Hf) as (Hfn & _).
  revert Hfn Hc. generalize (Vec3.normalize (Vec3.sub eye target)). intros f Hfn Hc.
  destruct (normalize3_dot _ Hc) as (Hrn & k & Hk & Ek).
  assert (Hrf : Vec3.dot (Vec3.normalize (Vec3.cross up f)) f = 0%R).
  { rewrite Ek. destruct up, f. vec_unfold. exact_unfold. ring. }
  clear Ek. revert Hrn Hrf. generalize (Vec3.normalize (Vec3.cross up f)).
  intros r Hrn Hrf.
  destruct f as [fx fy fz], r as [rx ry rz], eye as [ex ey ez].
  cbv [Vec3.dot Vec3.x Vec3.y Vec3.z fadd fmul Exact.scalar] in Hfn, Hrn, Hrf.
  split; [|split].
  - unfold affine_inv, bottom_row_0001, shear_free.
    mat_unfold. exact_unfold. decide_feqb. reflexivity.
  - mat_unfold. exact_unfold. nsatz.
  - intros [vx vy vz]. mat_unfold. exact_unfold. nsatz.
Qed.

Lemma look_at_orthonormal_witness :
  Vec3.sub ExactSpec.camera_pos ExactSpec.camera_target <> Vec3.zero /\
  Vec3.cross ExactSpec.camera_up
    (Vec3.normalize (Vec3.sub ExactSpec.camera_pos ExactSpec.camera_target))
  <> Vec3.zero /\
  affine_inv (Mat4.create_look_at ExactSpec.camera_pos ExactSpec.camera_target
                ExactSpec.camera_up) = true /\
  Mat4.det (Mat4.create_look_at ExactSpec.camera_pos ExactSpec.camera_target
              ExactSpec.camera_up) = 1%R.
Proof.
  assert (H1 : Vec3.sub ExactSpec.camera_pos ExactSpec.camera_target <> Vec3.zero).
  { intros E. apply (f_equal Vec3.x) in E. cbn in E. lra. }
  assert (H2 : Vec3.cross ExactSpec.camera_up
                 (Vec3.normalize (Vec3.sub ExactSpec.camera_pos ExactSpec.camera_target))
               <> Vec3.zero).
  { destruct (normalize3_dot _ H1) as (_ & k & Hk & Ek). rewrite Ek.
    intros E. apply (f_equal Vec3.x) in E. revert E.
    unfold ExactSpec.camera_up, ExactSpec.camera_pos, ExactSpec.camera_target.
    cbv [Vec3.muls]. vec_unfold. exact_unfold. lra. }
  split; [exact H1|]. split; [exact H2|].
  destruct (look_at_orthonormal ExactSpec.camera_pos ExactSpec.camera_target
              ExactSpec.camera_up H1 H2) as (E1 & E2 & _).
  split; [exact E1 | exact E2].
Defined.

(** Vectors whose components are all zeros (of either sign). *)
Lemma normalize_zeros (v : Vec3.Vec3 Binary32.f32) :
  F32Spec.is_zero (Vec3.x v) = true -> F32Spec.is_zero (Vec3.y v) = true ->
  F32Spec.is_zero (Vec3.z v) = true -> Vec3.normalize v = Vec3.zero.
Proof.
  destruct v as [[s| | |] [t| | |] [u| | |]]; cbn; try discriminate.
  intros _ _ _. destruct s, t, u; reflexivity.
Qed.

(** X22. [create_look_at] with the eye on the target, in binary32: for
    every finite [eye] and [up] the view direction normalises to the zero
    vector, and the result has zeros in its first three rows and
    [(0, 0, 0, 1)] as its last row; every point is sent to the origin. *)
Lemma look_at_eye_on_target (eye up : Vec3.Vec3 Binary32.f32) :
  F32Spec.finite_vec3 eye = true -> F32Spec.finite_vec3 up = true ->
  let m := Mat4.create_look_at eye eye up in
  (forall i j : nat, (i < 4)%nat -> (j < 3)%nat ->
     F32Spec.is_zero (Mat4.e m i j) = true) /\
  Mat4.row m 3 = (Vec4.mk 0 0 0 1)%f32.
Proof.
  destruct eye as [ex ey ez], up as [ux uy uz].
  unfold F32Spec.finite_vec3. cbn [Vec3.x Vec3.y Vec3.z].
  intros Hf Hu. split_bools. cbv zeta.
  rewrite create_look_at_entries. cbv zeta.
  assert (Ef : Vec3.normalize (Vec3.sub (Vec3.mk ex ey ez) (Vec3.mk ex ey ez)) = Vec3.zero).
  { unfold Vec3.sub. cbn [Vec3.x Vec3.y Vec3.z].
    rewrite !fsub_diag by assumption. reflexivity. }
  rewrite Ef.
  assert (Er : Vec3.normalize (Vec3.cross (Vec3.mk ux uy uz) Vec3.zero) = Vec3.zero).
  { apply normalize_zeros; cbn [Vec3.cross Vec3.zero Vec3.x Vec3.y Vec3.z];
      zero_lane. }
  rewrite Er.
  split; [|reflexivity].
  intros i j Hi Hj.
  destruct i as [|[|[|[|i]]]]; try lia;
    (destruct j as [|[|[|j]]]; try lia);
    mat_unfold; zero_lane.
Qed.

Lemma look_at_eye_on_target_witness :
  F32Spec.finite_vec3 F32Spec.camera_pos = true /\
  F32Spec.finite_vec3 F32Spec.camera_up = true /\
  Mat4.row (Mat4.create_look_at F32Spec.camera_pos F32Spec.camera_pos
              F32Spec.camera_up) 3 = (Vec4.mk 0 0 0 1)%f32.
Proof.
  assert (H1 : F32Spec.finite_vec3 F32Spec.camera_pos = true) by reflexivity.
  assert (H2 : F32Spec.finite_vec3 F32Spec.camera_up = true) by reflexivity.
  split; [exact H1|]. split; [exact H2|].
  exact (proj2 (look_at_eye_on_target F32Spec.camera_pos F32Spec.camera_up H1 H2)).
Defined.

(** X23. [create_fpp_view] is a rigid motion for every eye, pitch and yaw,
    in exact arithmetic: bottom row [0 0 0 1] and orthogonal columns,
    determinant 1, the eye sent to the origin, and the squared length of
    every direction kept. *)
Lemma fpp_view_rigid (eye : Vec3.Vec3 R) (pitch yaw : R) :
  let m := Mat4.create_fpp_view eye pitch yaw in
  affine_inv m = true /\
  Mat4.det m = 1%R /\
  Mat4.mul_trans_point m eye = Vec3.zero /\
  forall v : Vec3.Vec3 R,
    Vec3.dot (Mat4.mul_trans_vec m v) (Mat4.mul_trans_vec m v) = Vec3.dot v v.
Proof.
  cbv zeta.
  pose proof (sin2_cos2_mult pitch) as Hp. pose proof (sin2_cos2_mult yaw) as Hy.
  destruct eye as [ex ey ez].
  unfold affine_inv, bottom_row_0001, shear_free.
  revert Hp Hy. mat_unfold. exact_unfold.
  generalize (Rtrigo_def.sin pitch) (Rtrigo_def.cos pitch)
             (Rtrigo_def.sin yaw) (Rtrigo_def.cos yaw).
  intros sp cp sy cy Hp Hy.
  split; [|split; [|split]].
  - decide_feqb. reflexivity.
  - nsatz.
  - f_equal; ring.
  - intros [vx vy vz]. cbv [Vec3.x Vec3.y Vec3.z]. nsatz.
Qed.

(** X24. Depth range of [create_perspective], in exact arithmetic: for
    distinct non-zero [near] and [far], the point on the view axis at
    distance [near] has clip [w = near] and depth [z / w = 0], and the one
    at distance [far] has [w = far] and depth 1. *)
Lemma perspective_depth (fov aspect near far : R) :
  near <> far -> near <> 0%R -> far <> 0%R ->
  let m := Mat4.create_perspective fov aspect near far in
  let pn := Mat4.mul_vec m (Vec4.mk 0 0 (- near) 1)%R in
  let pf := Mat4.mul_vec m (Vec4.mk 0 0 (- far) 1)%R in
  Vec4.w pn = near /\ (Vec4.z pn / Vec4.w pn)%R = 0%R /\
  Vec4.w pf = far /\ (Vec4.z pf / Vec4.w pf)%R = 1%R.
Proof.
  intros Hnf Hn Hf. cbv zeta. mat_unfold. exact_unfold.
  assert (near - far <> 0)%R by lra.
  split; [ring|]. split; [field; auto|]. split; [ring|]. field; auto.
Qed.

Lemma perspective_depth_witness :
  1%R <> 3%R /\ 1%R <> 0%R /\ 3%R <> 0%R /\
  Vec4.w (Mat4.mul_vec (Mat4.create_perspective 1%R 1%R 1%R 3%R)
            (Vec4.mk 0 0 (- 3) 1)%R) = 3%R.
Proof.
  assert (H1 : 1%R <> 3%R) by lra.
  assert (H2 : 1%R <> 0%R) by lra.
  assert (H3 : 3%R <> 0%R) by lra.
  split; [exact H1|]. split; [exact H2|]. split; [exact H3|].
  destruct (perspective_depth 1%R 1%R 1%R 3%R H1 H2 H3) as (_ & _ & E & _).
  exact E.
Defined.

(** ** The transform kernels: adjugate_trans, mul_trans_vec, inverse_trans *)

(** X25. [adjugate_trans] in exact arithmetic, for a matrix with bottom row
    [0 0 0 1]: applied to the three axes of the matrix it gives [det(a)]
    times the unit vectors, so its linear part is the adjugate of that of
    [a]; the result has bottom row [0 0 0 1] again. *)
Lemma adjugate_trans_spec (a : Mat4.Mat4 R) :
  bottom_row_0001 a = true ->
  Mat4.mul_trans_vec (Mat4.adjugate_trans a) (Vec4.xyz (Mat4.columns a 0))
  = Vec3.mk (Mat4.det a) 0%R 0%R /\
  Mat4.mul_trans_vec (Mat4.adjugate_trans a) (Vec4.xyz (Mat4.columns a 1))
  = Vec3.mk 0%R (Mat4.det a) 0%R /\
  Mat4.mul_trans_vec (Mat4.adjugate_trans a) (Vec4.xyz (Mat4.columns a 2))
  = Vec3.mk 0%R 0%R (Mat4.det a) /\
  bottom_row_0001 (Mat4.adjugate_trans a) = true.
Proof.
  destruct_mat a. unfold bottom_row_0001. mat_unfold. exact_unfold.
  intros Hb.
  repeat (apply andb_prop in Hb; destruct Hb as [Hb ?]).
  repeat match goal with
         | H : (if Req_dec_T ?u ?v then true else false) = true |- _ =>
             destruct (Req_dec_T u v); [subst | discriminate H]; clear H
         end.
  split; [f_equal; ring|]. split; [f_equal; ring|]. split; [f_equal; ring|].
  decide_feqb. reflexivity.
Qed.

Lemma adjugate_trans_spec_witness :
  bottom_row_0001 ExactSpec.scale_translate = true /\
  Mat4.mul_trans_vec (Mat4.adjugate_trans ExactSpec.scale_translate)
    (Vec4.xyz (Mat4.columns ExactSpec.scale_translate 0))
  = Vec3.mk (Mat4.det ExactSpec.scale_translate) 0%R 0%R.
Proof.
  assert (H1 : bottom_row_0001 ExactSpec.scale_translate = true).
  { unfold bottom_row_0001, ExactSpec.scale_translate. mat_unfold. exact_unfold.
    decide_feqb. reflexivity. }
  split; [exact H1|].
  exact (proj1 (adjugate_trans_spec ExactSpec.scale_translate H1)).
Defined.

(** X26. [mul_trans_vec] against the full product, in binary32: for every
    matrix whose last column is finite, with no affine precondition,
    [mul_trans_vec(a, p)] equals the [xyz] part of [a * (p, 0)] up to the
    sign of zero. *)
Lemma mul_trans_vec_refines_mul_vec
    (a : Mat4.Mat4 Binary32.f32) (p : Vec3.Vec3 Binary32.f32) :
  F32Spec.finite_vec4 (Mat4.columns a 3) = true ->
  let q := Mat4.mul_trans_vec a p in
  let r := Mat4.mul_vec a (direction p) in
  F32Spec.same_number (Vec3.x q) (Vec4.x r) /\
  F32Spec.same_number (Vec3.y q) (Vec4.y r) /\
  F32Spec.same_number (Vec3.z q) (Vec4.z r).
Proof.
  destruct_mat a. destruct p as [px py pz].
  unfold F32Spec.finite_vec4.
  cbn [Mat4.columns Mat4.c3 Vec4.x Vec4.y Vec4.z Vec4.w].
  intros Hf. split_bools. cbv zeta. mat_unfold.
  split; [|split]; apply skipped_term_is_zero; (assumption || reflexivity).
Qed.

Lemma mul_trans_vec_refines_mul_vec_witness :
  F32Spec.finite_vec4 (Mat4.columns F32Spec.dense 3) = true /\
  F32Spec.same_number
    (Vec3.x (Mat4.mul_trans_vec F32Spec.dense F32Spec.camera_pos))
    (Vec4.x (Mat4.mul_vec F32Spec.dense (direction F32Spec.camera_pos))).
Proof.
  assert (H1 : F32Spec.finite_vec4 (Mat4.columns F32Spec.dense 3) = true)
    by reflexivity.
  split; [exact H1|].
  exact (proj1 (mul_trans_vec_refines_mul_vec F32Spec.dense F32Spec.camera_pos H1)).
Defined.

(** [mul_trans_vec] does not read the last column, over any scalar
    arithmetic. *)
Lemma mul_trans_vec_ignores_translation
    (F : Type) (S : Scalar F) (a : Mat4.Mat4 F) (t : Vec4.Vec4 F) (p : Vec3.Vec3 F) :
  Mat4.mul_trans_vec (Mat4.set_column a 3 t) p = Mat4.mul_trans_vec a p.
Proof. destruct a. reflexivity. Qed.

(** The xor of a NaN pattern with the sign mask is a NaN pattern, and with
    the bits of [1.0f] (0x3F800000) it is the pattern of a finite number:
    the exponent field 255 becomes 128, the sign and the fraction stay. *)
Lemma lxor_fields (n m : Z) :
  (Z.lxor n m / 8388608 = Z.lxor (n / 8388608) (m / 8388608))%Z /\
  (Z.lxor n m mod 8388608 = Z.lxor (n mod 8388608) (m mod 8388608))%Z.
Proof.
  change 8388608%Z with (2 ^ 23)%Z. split.
  - rewrite <- !Z.shiftr_div_pow2 by lia. apply Z.shiftr_lxor.
  - rewrite <- !Z.land_ones by lia. apply Z.bits_inj'. intros i Hi.
    rewrite !Z.land_spec, !Z.lxor_spec, !Z.land_spec.
    destruct (Z.testbit n i), (Z.testbit m i), (Z.testbit (Z.ones 23) i);
      reflexivity.
Qed.

Lemma nan_bits_fields (n : Z) :
  Binary32.is_nan_bits n = true ->
  (n / 8388608 = 255 \/ n / 8388608 = 511)%Z /\ (0 < n mod 8388608 < 8388608)%Z.
Proof.
  unfold Binary32.is_nan_bits. intros H.
  apply andb_prop in H. destruct H as [H Hf].
  apply andb_prop in H. destruct H as [H He].
  apply andb_prop in H. destruct H as [H0 H1].
  apply Z.leb_le in H0. apply Z.ltb_lt in H1. apply Z.eqb_eq in He.
  apply negb_true_iff in Hf. apply Z.eqb_neq in Hf.
  pose proof (Z.mod_pos_bound n 8388608 ltac:(lia)) as Hm.
  pose proof (Z.div_mod n 8388608 ltac:(lia)) as Hd.
  pose proof (Z.div_mod (n / 8388608) 256 ltac:(lia)) as Hq.
  pose proof (Z.div_pos n 8388608 H0 ltac:(lia)) as Hp.
  assert (n / 8388608 < 512)%Z by (apply Z.div_lt_upper_bound; lia).
  pose proof (Z.div_pos (n / 8388608) 256 Hp ltac:(lia)) as Hp'.
  assert (n / 8388608 / 256 < 2)%Z by (apply Z.div_lt_upper_bound; lia).
  split; lia.
Qed.

Lemma xor_nan_sign_mask (n : Z) :
  Binary32.is_nan_bits n = true ->
  Binary32.of_bits (Z.lxor n 2147483648) = S754_nan.
Proof.
  intros H. destruct (nan_bits_fields n H) as [Hq Hf].
  destruct (lxor_fields n 2147483648) as [Ed Em].
  unfold Binary32.of_bits. cbv zeta. rewrite Ed, Em.
  change (2147483648 mod 8388608)%Z with 0%Z.
  change (2147483648 / 8388608)%Z with 256%Z.
  rewrite Z.lxor_0_r.
  assert (Ex : (Z.lxor (n / 8388608) 256 mod 256 =? 255)%Z = true).
  { destruct Hq as [-> | ->]; reflexivity. }
  rewrite Ex.
  destruct (Z.eqb_spec (n mod 8388608) 0); [lia | reflexivity].
Qed.

Lemma xor_nan_one (n : Z) :
  Binary32.is_nan_bits n = true ->
  Binary32.of_bits (Z.lxor n 1065353216)
  = S754_finite (Z.testbit n 31) (Z.to_pos (n mod 8388608 + 8388608)) (-22).
Proof.
  intros H. destruct (nan_bits_fields n H) as [Hq Hf].
  destruct (lxor_fields n 1065353216) as [Ed Em].
  unfold Binary32.of_bits. cbv zeta. rewrite Ed, Em.
  change (1065353216 mod 8388608)%Z with 0%Z.
  change (1065353216 / 8388608)%Z with 127%Z.
  rewrite Z.lxor_0_r, Z.lxor_spec.
  change (Z.testbit 1065353216 31) with false. rewrite xorb_false_r.
  assert (Ex : (Z.lxor (n / 8388608) 127 mod 256)%Z = 128%Z).
  { destruct Hq as [-> | ->]; reflexivity. }
  rewrite Ex. cbn [Z.eqb Pos.eqb]. cbv iota.
  destruct (n mod 8388608 + 8388608)%Z as [| p | p] eqn:Ep; try lia.
  reflexivity.
Qed.

(** X27. The bottom row of [inverse_trans], in binary32.  Whenever the [w]
    entry of column 2 is a zero, as in every affine matrix, the fourth
    lane of the squared lengths is 0, its reciprocal is an infinity, and
    the result has NaN in the bottom row of columns 0, 1 and 2.  The
    corner is the xor of a NaN with the bits of [1.0f]: whatever the
    pattern of that NaN, a finite number with the sign and the fraction of
    the NaN and the exponent 1, so of magnitude above 2 and below 4, and
    not 1. *)
Lemma inverse_trans_bottom_row (nan : Z) (a : Mat4.Mat4 Binary32.f32) :
  Binary32.is_nan_bits nan = true ->
  F32Spec.is_zero (Mat4.e a 2 3) = true ->
  let m := @Mat4.inverse_trans Binary32.f32 Binary32.scalar
             (Binary32.bitwise nan) a in
  Mat4.e m 0 3 = S754_nan /\ Mat4.e m 1 3 = S754_nan /\
  Mat4.e m 2 3 = S754_nan /\
  Mat4.e m 3 3
  = S754_finite (Z.testbit nan 31) (Z.to_pos (nan mod 8388608 + 8388608)) (-22) /\
  Mat4.e m 3 3 <> 1%f32.
Proof.
  destruct_mat a. intros Hn Hz. cbv zeta.
  cbn [Mat4.e Mat4.columns Mat4.c2 Vec4.e Vec4.w] in Hz.
  match goal with
  | H : F32Spec.is_zero ?w = true |- _ => destruct w as [s | | |]; try discriminate H
  end.
  assert (Ec : Mat4.e (@Mat4.inverse_trans Binary32.f32 Binary32.scalar
                         (Binary32.bitwise nan)
                         (Mat4.mk_mat (Vec4.mk x y z w) (Vec4.mk x0 y0 z0 w0)
                            (Vec4.mk x1 y1 z1 (S754_zero s)) (Vec4.mk x2 y2 z2 w2)))
                      3 3
               = Binary32.of_bits (Z.lxor nan 1065353216)).
  { mat_unfold. destruct s; reflexivity. }
  split; [|split; [|split; [|split]]].
  - mat_unfold. destruct s; reflexivity.
  - mat_unfold. destruct s; reflexivity.
  - mat_unfold. destruct s; reflexivity.
  - rewrite Ec. now apply xor_nan_one.
  - rewrite Ec, xor_nan_one by assumption. intros E.
    change (1%f32 : Binary32.f32) with (S754_finite false 8388608 (-23)) in E.
    discriminate E.
Qed.

Lemma inverse_trans_bottom_row_witness :
  Binary32.is_nan_bits Binary32.default_nan = true /\
  F32Spec.is_zero (Mat4.e F32Spec.scale_translate 2 3) = true /\
  Mat4.e (@Mat4.inverse_trans Binary32.f32 Binary32.scalar
            (Binary32.bitwise Binary32.default_nan) F32Spec.scale_translate) 0 3
  = S754_nan /\
  Mat4.e (@Mat4.inverse_trans Binary32.f32 Binary32.scalar
            (Binary32.bitwise Binary32.default_nan) F32Spec.scale_translate) 3 3
  = S754_finite true 12582912 (-22).
Proof.
  assert (H1 : Binary32.is_nan_bits Binary32.default_nan = true) by reflexivity.
  assert (H2 : F32Spec.is_zero (Mat4.e F32Spec.scale_translate 2 3) = true)
    by reflexivity.
  split; [exact H1|]. split; [exact H2|].
  destruct (inverse_trans_bottom_row Binary32.default_nan F32Spec.scale_translate
              H1 H2) as (E1 & _ & _ & E2 & _).
  split; [exact E1 | exact E2].
Defined.

(** With the default NaN of SSE the corner is [-3.0f]; with the same NaN
    of clear sign bit it is [+3.0f]. *)
Lemma inverse_trans_corner_values :
  Binary32.of_bits (Z.lxor Binary32.default_nan 1065353216)
  = S754_finite true 12582912 (-22) /\
  Binary32.of_bits (Z.lxor Binary32.positive_nan 1065353216)
  = S754_finite false 12582912 (-22).
Proof. split; reflexivity. Qed.

(** X28. [inverse_trans] on directions, in exact arithmetic and whatever
    the xor does on reals.  For a matrix with non-zero, mutually orthogonal
    axes whose columns 0 and 1 have the same [z] entry, the linear part of
    [inverse_trans(a)] undoes that of [a].  The condition on the [z]
    entries is there because [_mm_movehl_ps] is called with columns 0 and 1
    in this order, which exchanges the two entries. *)
Lemma inverse_trans_on_vectors (B : Bitwise R) (a : Mat4.Mat4 R) (v : Vec3.Vec3 R) :
  shear_free a = true ->
  Vec4.xyz (Mat4.columns a 0) <> Vec3.zero ->
  Vec4.xyz (Mat4.columns a 1) <> Vec3.zero ->
  Vec4.xyz (Mat4.columns a 2) <> Vec3.zero ->
  Mat4.e a 0 2 = Mat4.e a 1 2 ->
  Mat4.mul_trans_vec (Mat4.inverse_trans a) (Mat4.mul_trans_vec a v) = v.
Proof.
  destruct_mat a. destruct v as [vx vy vz].
  unfold shear_free.
  cbv [Mat4.columns Mat4.e Vec4.e Vec4.xyz Mat4.c0 Mat4.c1 Mat4.c2 Mat4.c3
       Vec4.x Vec4.y Vec4.z Vec4.w Vec3.dot Vec3.x Vec3.y Vec3.z].
  exact_unfold.
  intros Hs H0 H1 H2 Hz. subst z.
  repeat (apply andb_prop in Hs; destruct Hs as [Hs ?]).
  repeat match goal with
         | H : (if Req_dec_T ?u ?v then true else false) = true |- _ =>
             let E := fresh "E" in
             destruct (Req_dec_T u v) as [E|]; [| discriminate H]; clear H
         end.
  assert (N0 : (x * x + y * y + z0 * z0 <> 0)%R).
  { intros E'. apply H0.
    assert (x = 0%R) by nra. assert (y = 0%R) by nra. assert (z0 = 0%R) by nra.
    subst. reflexivity. }
  assert (N1 : (x0 * x0 + y0 * y0 + z0 * z0 <> 0)%R).
  { intros E'. apply H1.
    assert (x0 = 0%R) by nra. assert (y0 = 0%R) by nra. assert (z0 = 0%R) by nra.
    subst. reflexivity. }
  assert (N2 : (x1 * x1 + y1 * y1 + z1 * z1 <> 0)%R).
  { intros E'. apply H2.
    assert (x1 = 0%R) by nra. assert (y1 = 0%R) by nra. assert (z1 = 0%R) by nra.
    subst. reflexivity. }
  clear H0 H1 H2.
  mat_unfold. exact_unfold.
  unfold Rdiv. rewrite !Rmult_1_l.
  pose proof (Rinv_r _ N0) as I0. pose proof (Rinv_r _ N1) as I1.
  pose proof (Rinv_r _ N2) as I2.
  revert I0 I1 I2.
  generalize (/ (x * x + y * y + z0 * z0))%R (/ (x0 * x0 + y0 * y0 + z0 * z0))%R
             (/ (x1 * x1 + y1 * y1 + z1 * z1))%R.
  intros r0 r1 r2 I0 I1 I2.
  f_equal; nsatz.
Qed.

Lemma inverse_trans_on_vectors_witness :
  shear_free ExactSpec.scale_translate = true /\
  Vec4.xyz (Mat4.columns ExactSpec.scale_translate 0) <> Vec3.zero /\
  Vec4.xyz (Mat4.columns ExactSpec.scale_translate 1) <> Vec3.zero /\
  Vec4.xyz (Mat4.columns ExactSpec.scale_translate 2) <> Vec3.zero /\
  Mat4.e ExactSpec.scale_translate 0 2 = Mat4.e ExactSpec.scale_translate 1 2 /\
  Mat4.mul_trans_vec
    (@Mat4.inverse_trans R Exact.scalar ExactSpec.xor_as_subtraction
       ExactSpec.scale_translate)
    (Mat4.mul_trans_vec ExactSpec.scale_translate (Vec3.mk 1 2 3)%R)
  = (Vec3.mk 1 2 3)%R.
Proof.
  assert (H1 : shear_free ExactSpec.scale_translate = true).
  { unfold shear_free, ExactSpec.scale_translate. mat_unfold. exact_unfold.
    decide_feqb. reflexivity. }
  assert (H2 : Vec4.xyz (Mat4.columns ExactSpec.scale_translate 0) <> Vec3.zero).
  { intros E. apply (f_equal Vec3.x) in E. cbn in E. lra. }
  assert (H3 : Vec4.xyz (Mat4.columns ExactSpec.scale_translate 1) <> Vec3.zero).
  { intros E. apply (f_equal Vec3.y) in E. cbn in E. lra. }
  assert (H4 : Vec4.xyz (Mat4.columns ExactSpec.scale_translate 2) <> Vec3.zero).
  { intros E. apply (f_equal Vec3.z) in E. cbn in E. lra. }
  assert (H5 : Mat4.e ExactSpec.scale_translate 0 2
               = Mat4.e ExactSpec.scale_translate 1 2) by reflexivity.
  split; [exact H1|]. split; [exact H2|]. split; [exact H3|]. split; [exact H4|].
  split; [exact H5|].
  apply (inverse_trans_on_vectors ExactSpec.xor_as_subtraction
           ExactSpec.scale_translate (Vec3.mk 1 2 3)%R H1 H2 H3 H4 H5).
Defined.

(** X29. [inverse_trans] on a rotation about x, in exact arithmetic and
    whatever the xor does on reals: for every angle with [sin <> 0] the
    rotation, a rigid transform, followed by its [inverse_trans] does not
    give the x axis back, while the general [inverse] does. *)
Lemma inverse_trans_rotation_x (B : Bitwise R) (th : R) :
  Rtrigo_def.sin th <> 0%R ->
  let a := Mat4.create_rotation_x th in
  Mat4.mul_trans_vec (Mat4.inverse_trans a) (Mat4.mul_trans_vec a (Vec3.mk 1 0 0)%R)
  <> (Vec3.mk 1 0 0)%R /\
  Mat4.mul_trans_vec (Mat4.inverse a) (Mat4.mul_trans_vec a (Vec3.mk 1 0 0)%R)
  = (Vec3.mk 1 0 0)%R.
Proof.
  intros Hs. cbv zeta. pose proof (sin2_cos2_mult th) as Ht. split.
  - intros E. apply (f_equal Vec3.x) in E. revert E Hs Ht.
    mat_unfold. exact_unfold.
    generalize (Rtrigo_def.sin th) (Rtrigo_def.cos th). intros s c E Hs Ht.
    assert (Hd : (1 * 1 + 0 * 0 + s * s <> 0)%R) by nra.
    pose proof (Rinv_r _ Hd) as Hi. unfold Rdiv in E.
    revert E Hi. generalize (/ (1 * 1 + 0 * 0 + s * s))%R. intros r E Hi.
    assert (r = 1%R) by lra. subst r. apply Hs. nra.
  - revert Ht. mat_unfold. exact_unfold.
    generalize (Rtrigo_def.sin th) (Rtrigo_def.cos th). intros s c Ht.
    assert (Hd : (c * c + s * s <> 0)%R) by lra.
    f_equal; field; nra.
Qed.

Lemma inverse_trans_rotation_x_witness :
  Rtrigo_def.sin (PI / 2) <> 0%R /\
  Mat4.mul_trans_vec
    (@Mat4.inverse_trans R Exact.scalar ExactSpec.xor_as_subtraction
       (Mat4.create_rotation_x (PI / 2)%R))
    (Mat4.mul_trans_vec (Mat4.create_rotation_x (PI / 2)%R) (Vec3.mk 1 0 0)%R)
  <> (Vec3.mk 1 0 0)%R.
Proof.
  assert (H1 : Rtrigo_def.sin (PI / 2) <> 0%R) by (rewrite sin_PI2; lra).
  split; [exact H1|].
  exact (proj1 (inverse_trans_rotation_x ExactSpec.xor_as_subtraction (PI / 2)%R H1)).
Defined.

(** ** The model matrix of the render loop *)

(** X30. The model matrix of [Source.cpp], [create_translate(t) *
    create_rotation_z(th)], in exact arithmetic: it is an affine transform
    without shear whose translation is [t]; it turns a point about z and
    then moves it by [t]; and [mul_trans] computes the same product. *)
Lemma model_matrix (t p : Vec3.Vec3 R) (th : R) :
  let model := Mat4.mul (Mat4.create_translate t) (Mat4.create_rotation_z th) in
  affine_inv model = true /\
  Mat4.get_translation model = t /\
  Mat4.mul_trans_point model p
  = Vec3.add (Mat4.mul_trans_vec (Mat4.create_rotation_z th) p) t /\
  Mat4.mul_trans (Mat4.create_translate t) (Mat4.create_rotation_z th) = model.
Proof.
  cbv zeta. pose proof (sin2_cos2_mult th) as Ht.
  destruct t as [tx ty tz], p as [px py pz].
  unfold affine_inv, bottom_row_0001, shear_free.
  revert Ht. mat_unfold. exact_unfold.
  generalize (Rtrigo_def.sin th) (Rtrigo_def.cos th). intros s c Ht.
  split; [|split; [|split]].
  - decide_feqb. reflexivity.
  - f_equal; ring.
  - f_equal; ring.
  - f_equal; f_equal; ring.
Qed.
